(** * familytree: the entity repository layer, its services and the
      collection bootstrap, embedded from the Go sources.

    - [pkg/interfaces]: [Person], [Relationship] and the [Entity] capability
      (SetMetadata, SetTimestamps, GetUpdatedAt);
    - [internal/repositories/arangorepository]: [BaseRepository] (Create,
      GetByID, Update, Delete, List) and the specialised lookups
      (FindByName, FindByPerson, FindByType);
    - [internal/services/v1relationshipservice]: request validation and
      the service calls in front of the repository;
    - [pkg/clients/arangodbclient]: [ensureCollection].

    The repository code talks to the document store through the driver's
    interfaces.  They are kept as records of operations over an arbitrary
    store state, so that statements about "every execution" quantify over
    every behaviour of the store; [Mem] gives an in-memory store for the
    statements that need to know what the store answers. *)

From Stdlib Require Import String Ascii List ZArith Bool Lia DecimalString.
Import ListNotations.
Open Scope string_scope.
Open Scope list_scope.

Set Implicit Arguments.

(* ------------------------------------------------------------------ *)
(** ** Go values used by the code *)

(** [time.Time]: an instant, counted in nanoseconds from Go's zero time
    (January 1 of year 1, 00:00 UTC); the zero value of the type is instant
    0.  A location is not carried: the instants are read in UTC. *)
Definition Time := Z.

Definition IsZero (t : Time) : bool := (t =? 0)%Z.

(** A Go slice value is either nil (what [var xs []T] declares) or an
    allocated sequence.  [append] on nil allocates. *)
Inductive slice (T : Type) : Type :=
| nil_slice
| mk_slice (elems : list T).
Arguments nil_slice {T}.

Definition elements {T} (s : slice T) : list T :=
  match s with
  | nil_slice => []
  | mk_slice l => l
  end.

Definition len {T} (s : slice T) : nat := length (elements s).

Definition is_nil {T} (s : slice T) : bool :=
  match s with
  | nil_slice => true
  | mk_slice _ => false
  end.

Definition append {T} (s : slice T) (x : T) : slice T :=
  mk_slice (elements s ++ [x]).

(** Go [error] values as the code builds and inspects them:
    [fmt.Errorf] without a verb, [fmt.Errorf("...: %w", err)], and the
    driver's [shared.ArangoError]. *)
Inductive error : Type :=
| errorString (msg : string)
| wrapError (msg : string) (err : error)
| ArangoError (Code ErrorNum : Z) (ErrorMessage : string).

(** A Go [(value, error)] return where exactly one side is meaningful. *)
Inductive result (A : Type) : Type :=
| Ok (a : A)
| Err (e : error).
Arguments Err {A} e.

(** [shared.IsNotFound]: the error chain holds an ArangoError with HTTP
    code 404, or with error number 1202 (document not found) or 1203
    (collection not found). *)
Fixpoint IsNotFound (err : error) : bool :=
  match err with
  | errorString _ => false
  | wrapError _ e => IsNotFound e
  | ArangoError code num _ =>
      (code =? 404)%Z || (num =? 1202)%Z || (num =? 1203)%Z
  end.

(* ------------------------------------------------------------------ *)
(** ** JSON documents, as [encoding/json] produces them from the structs *)

Inductive Value : Type :=
| VNull
| VBool (b : bool)
| VString (s : string)
| VTime (t : Time).

Definition Value_eqb (a b : Value) : bool :=
  match a, b with
  | VNull, VNull => true
  | VBool x, VBool y => Bool.eqb x y
  | VString x, VString y => String.eqb x y
  | VTime x, VTime y => (x =? y)%Z
  | _, _ => false
  end.

Definition Object := list (string * Value).

Fixpoint attr (o : Object) (name : string) : option Value :=
  match o with
  | [] => None
  | (k, v) :: o' => if String.eqb k name then Some v else attr o' name
  end.

(** A string field tagged [omitempty] is left out when empty. *)
Definition omitempty (name s : string) : Object :=
  if String.eqb s "" then [] else [(name, VString s)].

(** Decoding a string field: an absent attribute or a JSON null leaves the
    zero value, a string is stored, anything else is a decoding error. *)
Definition getString (o : Object) (name : string) : option string :=
  match attr o name with
  | None | Some VNull => Some ""
  | Some (VString s) => Some s
  | Some _ => None
  end.

Definition getTime (o : Object) (name : string) : option Time :=
  match attr o name with
  | None | Some VNull => Some 0%Z
  | Some (VTime t) => Some t
  | Some _ => None
  end.

Notation "x <- e ;; k" := (match e with Some x => k | None => None end)
  (at level 61, e at next level, right associativity, only parsing).

(** *** What the encoder writes

    [encoding/json] writes a string byte for byte as long as it is valid
    UTF-8, and writes U+FFFD for every byte that starts no valid encoding;
    it refuses a [time.Time] whose year is outside 0..9999. *)

Definition between (lo hi : N) (c : ascii) : bool :=
  (lo <=? N_of_ascii c)%N && (N_of_ascii c <=? hi)%N.

(** The table [first] and the [acceptRanges] of unicode/utf8, for a leading
    byte of 0x80 or above: the width of the encoding it starts and the range
    of its second byte; [None] for a byte that leads no encoding. *)
Definition first (c : ascii) : option (nat * (N * N)) :=
  let b := N_of_ascii c in
  if (b <? 0xC2)%N then None
  else if (b <=? 0xDF)%N then Some (2, (0x80, 0xBF)%N)
  else if (b =? 0xE0)%N then Some (3, (0xA0, 0xBF)%N)
  else if (b <=? 0xEC)%N then Some (3, (0x80, 0xBF)%N)
  else if (b =? 0xED)%N then Some (3, (0x80, 0x9F)%N)
  else if (b <=? 0xEF)%N then Some (3, (0x80, 0xBF)%N)
  else if (b =? 0xF0)%N then Some (4, (0x90, 0xBF)%N)
  else if (b <=? 0xF3)%N then Some (4, (0x80, 0xBF)%N)
  else if (b =? 0xF4)%N then Some (4, (0x80, 0x8F)%N)
  else None.

Definition continuation (c : ascii) : bool := between 0x80 0xBF c.

(** [utf8.DecodeRuneInString] on a string whose first byte is 0x80 or above:
    the width of the encoding the string starts with, 0 when it starts with
    none (the library then returns RuneError with width 1). *)
Definition runeWidth (s : string) : nat :=
  match s with
  | String c0 (String c1 rest) =>
      match first c0 with
      | None => 0
      | Some (size, (lo, hi)) =>
          if negb (between lo hi c1) then 0
          else
            match size, rest with
            | 2, _ => 2
            | 3, String c2 _ => if continuation c2 then 3 else 0
            | 4, String c2 (String c3 _) =>
                if continuation c2 && continuation c3 then 4 else 0
            | _, _ => 0
            end
      end
  | _ => 0
  end.

(** U+FFFD in UTF-8. *)
Definition replacementChar : string :=
  String "239" (String "191" (String "189" EmptyString)).

(** The string a JSON string literal written for [s] holds; [pending]
    counts the bytes still to copy of an encoding already accepted. *)
Fixpoint jsonStringFrom (pending : nat) (s : string) : string :=
  match s with
  | EmptyString => EmptyString
  | String c s' =>
      match pending with
      | Datatypes.S n => String c (jsonStringFrom n s')
      | O =>
          if (N_of_ascii c <? 0x80)%N then String c (jsonStringFrom 0 s')
          else
            match runeWidth s with
            | O => (replacementChar ++ jsonStringFrom 0 s')%string
            | Datatypes.S n => String c (jsonStringFrom n s')
            end
      end
  end.

Definition jsonString (s : string) : string := jsonStringFrom 0 s.

Definition nanosecondsPerDay : Z := 86400 * 1000000000.

(** [Time.MarshalJSON] succeeds when the year is within 0..9999: year 0
    begins 366 days before the zero time, year 10000 begins 3652059 days
    after it. *)
Definition jsonTime (t : Time) : bool :=
  (- 366 * nanosecondsPerDay <=? t)%Z && (t <? 3652059 * nanosecondsPerDay)%Z.

(* ------------------------------------------------------------------ *)
(** ** pkg/interfaces: the entities *)

(** The [Entity] interface of base_repository.go.  A method with a pointer
    receiver returns the updated struct. *)
Class Entity (T : Type) : Type := {
  SetMetadata : T -> string -> string -> string -> T;
  SetTimestamps : T -> Time -> Time -> T;
  GetUpdatedAt : T -> Time
}.

(** The error of [json.Marshal] for a time it cannot write. *)
Definition MarshalerError : error :=
  errorString
    "json: error calling MarshalJSON for type time.Time: Time.MarshalJSON: year outside of range [0,9999]".

(** What [encoding/json] does for a struct type, from its field tags:
    [document] lays the field values out under the tag names, [Marshal] is
    the encoder, [Unmarshal] the decoder. *)
Class Document (T : Type) : Type := {
  document : T -> Object;
  Marshal : T -> result Object;
  Unmarshal : Object -> option T
}.

Module Person.

Record t : Type := mk {
  Key : string;        (* json:"_key,omitempty" *)
  ID : string;         (* json:"_id,omitempty" *)
  Rev : string;        (* json:"_rev,omitempty" *)
  FirstName : string;  (* json:"firstName" *)
  LastName : string;   (* json:"lastName" *)
  BirthDate : Time;    (* json:"birthDate,omitempty" *)
  DeathDate : Time;    (* json:"deathDate,omitempty" *)
  Gender : string;     (* json:"gender,omitempty" *)
  Email : string;      (* json:"email,omitempty" *)
  Phone : string;      (* json:"phone,omitempty" *)
  CreatedAt : Time;    (* json:"createdAt" *)
  UpdatedAt : Time     (* json:"updatedAt" *)
}.

Definition SetMetadata (p : t) (key id rev : string) : t :=
  mk key id rev (FirstName p) (LastName p) (BirthDate p) (DeathDate p)
     (Gender p) (Email p) (Phone p) (CreatedAt p) (UpdatedAt p).

Definition setCreatedAt (p : t) (c : Time) : t :=
  mk (Key p) (ID p) (Rev p) (FirstName p) (LastName p) (BirthDate p)
     (DeathDate p) (Gender p) (Email p) (Phone p) c (UpdatedAt p).

Definition setUpdatedAt (p : t) (u : Time) : t :=
  mk (Key p) (ID p) (Rev p) (FirstName p) (LastName p) (BirthDate p)
     (DeathDate p) (Gender p) (Email p) (Phone p) (CreatedAt p) u.

Definition SetTimestamps (p : t) (createdAt updatedAt : Time) : t :=
  let p := if IsZero (CreatedAt p) then setCreatedAt p createdAt else p in
  setUpdatedAt p updatedAt.

Definition GetUpdatedAt (p : t) : Time := UpdatedAt p.

(** [omitempty] has no effect on a struct-typed field such as
    [time.Time]: the four instants are always written. *)
Definition document (p : t) : Object :=
  omitempty "_key" (Key p) ++ omitempty "_id" (ID p)
    ++ omitempty "_rev" (Rev p)
    ++ [("firstName", VString (FirstName p));
        ("lastName", VString (LastName p));
        ("birthDate", VTime (BirthDate p));
        ("deathDate", VTime (DeathDate p))]
    ++ omitempty "gender" (Gender p) ++ omitempty "email" (Email p)
    ++ omitempty "phone" (Phone p)
    ++ [("createdAt", VTime (CreatedAt p));
        ("updatedAt", VTime (UpdatedAt p))].

(** The person as the encoder writes it: every string as its JSON literal
    holds it. *)
Definition written (p : t) : t :=
  mk (jsonString (Key p)) (jsonString (ID p)) (jsonString (Rev p))
     (jsonString (FirstName p)) (jsonString (LastName p)) (BirthDate p)
     (DeathDate p) (jsonString (Gender p)) (jsonString (Email p))
     (jsonString (Phone p)) (CreatedAt p) (UpdatedAt p).

Definition encodable (p : t) : bool :=
  jsonTime (BirthDate p) && jsonTime (DeathDate p)
  && jsonTime (CreatedAt p) && jsonTime (UpdatedAt p).

(** [json.Marshal]: refused when one of the four instants cannot be
    written; otherwise the document of the person as written.  [omitempty]
    looks at the string of the struct, which is empty exactly when the
    string written is. *)
Definition Marshal (p : t) : result Object :=
  if encodable p then Ok (document (written p)) else Err MarshalerError.

(** [json.Unmarshal] on a document whose attributes are named as the
    tags spell them, which is how the encoder names them. *)
Definition Unmarshal (o : Object) : option t :=
  key <- getString o "_key" ;;
  id <- getString o "_id" ;;
  rev <- getString o "_rev" ;;
  firstName <- getString o "firstName" ;;
  lastName <- getString o "lastName" ;;
  birthDate <- getTime o "birthDate" ;;
  deathDate <- getTime o "deathDate" ;;
  gender <- getString o "gender" ;;
  email <- getString o "email" ;;
  phone <- getString o "phone" ;;
  createdAt <- getTime o "createdAt" ;;
  updatedAt <- getTime o "updatedAt" ;;
  Some (mk key id rev firstName lastName birthDate deathDate gender email
           phone createdAt updatedAt).

(** The identity metadata triple of two values agrees. *)
Definition sameMetadata (p q : t) : Prop :=
  Key p = Key q /\ ID p = ID q /\ Rev p = Rev q.

(** Every field but the triple and the two timestamps agrees. *)
Definition sameData (p q : t) : Prop :=
  FirstName p = FirstName q /\ LastName p = LastName q
  /\ BirthDate p = BirthDate q /\ DeathDate p = DeathDate q
  /\ Gender p = Gender q /\ Email p = Email q /\ Phone p = Phone q.

End Person.

Module Relationship.

Record t : Type := mk {
  Key : string;           (* json:"_key,omitempty" *)
  ID : string;            (* json:"_id,omitempty" *)
  Rev : string;           (* json:"_rev,omitempty" *)
  From : string;          (* json:"_from" *)
  To : string;            (* json:"_to" *)
  RelationType : string;  (* json:"relationType" *)
  StartDate : Time;       (* json:"startDate,omitempty" *)
  EndDate : Time;         (* json:"endDate,omitempty" *)
  Notes : string;         (* json:"notes,omitempty" *)
  CreatedAt : Time;       (* json:"createdAt" *)
  UpdatedAt : Time        (* json:"updatedAt" *)
}.

Definition SetMetadata (r : t) (key id rev : string) : t :=
  mk key id rev (From r) (To r) (RelationType r) (StartDate r) (EndDate r)
     (Notes r) (CreatedAt r) (UpdatedAt r).

Definition setCreatedAt (r : t) (c : Time) : t :=
  mk (Key r) (ID r) (Rev r) (From r) (To r) (RelationType r) (StartDate r)
     (EndDate r) (Notes r) c (UpdatedAt r).

Definition setUpdatedAt (r : t) (u : Time) : t :=
  mk (Key r) (ID r) (Rev r) (From r) (To r) (RelationType r) (StartDate r)
     (EndDate r) (Notes r) (CreatedAt r) u.

Definition SetTimestamps (r : t) (createdAt updatedAt : Time) : t :=
  let r := if IsZero (CreatedAt r) then setCreatedAt r createdAt else r in
  setUpdatedAt r updatedAt.

Definition GetUpdatedAt (r : t) : Time := UpdatedAt r.

Definition document (r : t) : Object :=
  omitempty "_key" (Key r) ++ omitempty "_id" (ID r)
    ++ omitempty "_rev" (Rev r)
    ++ [("_from", VString (From r));
        ("_to", VString (To r));
        ("relationType", VString (RelationType r));
        ("startDate", VTime (StartDate r));
        ("endDate", VTime (EndDate r))]
    ++ omitempty "notes" (Notes r)
    ++ [("createdAt", VTime (CreatedAt r));
        ("updatedAt", VTime (UpdatedAt r))].

Definition written (r : t) : t :=
  mk (jsonString (Key r)) (jsonString (ID r)) (jsonString (Rev r))
     (jsonString (From r)) (jsonString (To r)) (jsonString (RelationType r))
     (StartDate r) (EndDate r) (jsonString (Notes r)) (CreatedAt r)
     (UpdatedAt r).

Definition encodable (r : t) : bool :=
  jsonTime (StartDate r) && jsonTime (EndDate r)
  && jsonTime (CreatedAt r) && jsonTime (UpdatedAt r).

(** [json.Marshal], as for a person. *)
Definition Marshal (r : t) : result Object :=
  if encodable r then Ok (document (written r)) else Err MarshalerError.

(** [json.Unmarshal], as for a person. *)
Definition Unmarshal (o : Object) : option t :=
  key <- getString o "_key" ;;
  id <- getString o "_id" ;;
  rev <- getString o "_rev" ;;
  from <- getString o "_from" ;;
  to <- getString o "_to" ;;
  relationType <- getString o "relationType" ;;
  startDate <- getTime o "startDate" ;;
  endDate <- getTime o "endDate" ;;
  notes <- getString o "notes" ;;
  createdAt <- getTime o "createdAt" ;;
  updatedAt <- getTime o "updatedAt" ;;
  Some (mk key id rev from to relationType startDate endDate notes
           createdAt updatedAt).

Definition sameMetadata (r q : t) : Prop :=
  Key r = Key q /\ ID r = ID q /\ Rev r = Rev q.

Definition sameData (r q : t) : Prop :=
  From r = From q /\ To r = To q /\ RelationType r = RelationType q
  /\ StartDate r = StartDate q /\ EndDate r = EndDate q
  /\ Notes r = Notes q.

(** Common relationship types. *)
Definition RelationTypeParent := "parent".
Definition RelationTypeChild := "child".
Definition RelationTypeSpouse := "spouse".
Definition RelationTypeSibling := "sibling".

End Relationship.

#[export] Instance Person_Entity : Entity Person.t := {
  SetMetadata := Person.SetMetadata;
  SetTimestamps := Person.SetTimestamps;
  GetUpdatedAt := Person.GetUpdatedAt
}.

#[export] Instance Relationship_Entity : Entity Relationship.t := {
  SetMetadata := Relationship.SetMetadata;
  SetTimestamps := Relationship.SetTimestamps;
  GetUpdatedAt := Relationship.GetUpdatedAt
}.

#[export] Instance Person_Document : Document Person.t := {
  document := Person.document;
  Marshal := Person.Marshal;
  Unmarshal := Person.Unmarshal
}.

#[export] Instance Relationship_Document : Document Relationship.t := {
  document := Relationship.document;
  Marshal := Relationship.Marshal;
  Unmarshal := Relationship.Unmarshal
}.

(* ------------------------------------------------------------------ *)
(** ** The driver's interfaces, as the code uses them *)

Module DocumentMeta.
Record t : Type := mk { Key : string; ID : string; Rev : string }.
End DocumentMeta.

Inductive CollectionType : Type :=
| CollectionTypeDocument
| CollectionTypeEdge.

Record CreateCollectionPropertiesV2 : Type := {
  Type_ : option CollectionType
}.

(** The three queries of the repository are of one shape,
    [FOR v IN c FILTER e RETURN v]; the filter is absent in [List]. *)
Module AQL.

Inductive Expr : Type :=
| Attr (var name : string)   (* var.name *)
| Bind (name : string)       (* @name *)
| Str (s : string)           (* a string literal *)
| Eq (a b : Expr)            (* a == b *)
| Or (a b : Expr)            (* a || b *)
| And (a b : Expr).          (* a AND b *)

Record Query : Type := {
  forVar : string;
  inCollection : string;
  filterExpr : option Expr;
  returnVar : string
}.

End AQL.

(** [map[string]any] holding the bind parameters. *)
Definition BindVars := list (string * Value).

(** A cursor is the sequence of outcomes its successive reads will give;
    [HasMore] holds while the sequence is not exhausted. *)
Definition Cursor := list (result Object).

(** [CreateDocument] and [UpdateDocument] take the entity, as a
    [document interface{}], and encode it; [ReadDocument] gives the document
    fetched, which [decode] below reads into the entity. *)
Record Collection (S : Type) : Type := {
  CreateDocument :
    forall (T : Type), Document T -> T -> S -> result DocumentMeta.t * S;
  ReadDocument : string -> S -> result (DocumentMeta.t * Object) * S;
  UpdateDocument :
    forall (T : Type), Document T -> string -> T -> S
                       -> result DocumentMeta.t * S;
  DeleteDocument : string -> S -> result DocumentMeta.t * S
}.
Arguments CreateDocument {S} c {T _} entity s.
Arguments UpdateDocument {S} c {T _} key entity s.

Record Database (S : Type) : Type := {
  CollectionExists : string -> S -> result bool * S;
  CreateCollectionV2 :
    string -> CreateCollectionPropertiesV2 -> S -> option error * S;
  Query : AQL.Query -> BindVars -> S -> result Cursor * S
}.

(** The error [encoding/json] gives when an attribute has the wrong type. *)
Definition UnmarshalTypeError : error :=
  errorString "json: cannot unmarshal value into Go struct field".

(** Decoding a fetched document into a fresh [var entity T]. *)
Definition decode {T} `{Document T} (o : Object) : result T :=
  match Unmarshal o with
  | Some entity => Ok entity
  | None => Err UnmarshalTypeError
  end.

(** [cursor.ReadDocument(ctx, &entity)] on the next outcome. *)
Definition cursorReadDocument {T} `{Document T} (next : result Object)
  : result T :=
  match next with
  | Err err => Err err
  | Ok o => decode o
  end.

(* ------------------------------------------------------------------ *)
(** ** arangorepository: base_repository.go *)

Record BaseRepository (S : Type) : Type := {
  collection : Collection S;
  db : Database S;
  collectionName : string
}.

Definition NewBaseRepository {S} (db : Database S)
  (collection : Collection S) (collectionName : string) : BaseRepository S :=
  {| collection := collection; db := db; collectionName := collectionName |}.

Section Repository.

Context {S T : Type} `{Entity T} `{Document T}.

(** The loop [for cursor.HasMore() { ...; entities = append(entities, e) }]
    shared by List and the lookups; [msg] is the message of the wrapping
    error of each. *)
Fixpoint readAll (msg : string) (cursor : Cursor) (entities : slice T)
  : result (slice T) :=
  match cursor with
  | [] => Ok entities
  | next :: cursor' =>
      match cursorReadDocument next with
      | Err err => Err (wrapError msg err)
      | Ok entity => readAll msg cursor' (append entities entity)
      end
  end.

(** Create: [now] is the reading of [time.Now()]; the entity behind the
    pointer after the call is returned with the error. *)
Definition Create (r : BaseRepository S) (now : Time) (entity : T) (s : S)
  : (T * option error) * S :=
  let entity := SetTimestamps entity now now in
  match CreateDocument (collection r) entity s with
  | (Err err, s') =>
      ((entity, Some (wrapError "failed to create entity" err)), s')
  | (Ok meta, s') =>
      ((SetMetadata entity (DocumentMeta.Key meta) (DocumentMeta.ID meta)
          (DocumentMeta.Rev meta), None), s')
  end.

Definition GetByID (r : BaseRepository S) (id : string) (s : S)
  : result T * S :=
  let (res, s') := ReadDocument (collection r) id s in
  let res :=
    match res with
    | Err err => Err err
    | Ok (meta, doc) =>
        match decode doc with
        | Err err => Err err
        | Ok entity => Ok (meta, entity)
        end
    end in
  match res with
  | Err err =>
      if IsNotFound err
      then (Err (wrapError "entity not found" err), s')
      else (Err (wrapError "failed to get entity" err), s')
  | Ok (meta, entity) =>
      (Ok (SetMetadata entity (DocumentMeta.Key meta)
             (DocumentMeta.ID meta) (DocumentMeta.Rev meta)), s')
  end.

Definition Update (r : BaseRepository S) (now : Time) (id : string)
  (entity : T) (s : S) : (T * option error) * S :=
  let entity := SetTimestamps entity (GetUpdatedAt entity) now in
  match UpdateDocument (collection r) id entity s with
  | (Err err, s') =>
      if IsNotFound err
      then ((entity, Some (wrapError "entity not found" err)), s')
      else ((entity, Some (wrapError "failed to update entity" err)), s')
  | (Ok meta, s') =>
      ((SetMetadata entity (DocumentMeta.Key meta) (DocumentMeta.ID meta)
          (DocumentMeta.Rev meta), None), s')
  end.

Definition Delete (r : BaseRepository S) (id : string) (s : S)
  : option error * S :=
  match DeleteDocument (collection r) id s with
  | (Err err, s') =>
      if IsNotFound err
      then (Some (wrapError "entity not found" err), s')
      else (Some (wrapError "failed to delete entity" err), s')
  | (Ok _, s') => (None, s')
  end.

(** [fmt.Sprintf("FOR doc IN %s RETURN doc", r.collectionName)] *)
Definition listQuery (r : BaseRepository S) : AQL.Query :=
  {| AQL.forVar := "doc";
     AQL.inCollection := collectionName r;
     AQL.filterExpr := None;
     AQL.returnVar := "doc" |}.

Definition List (r : BaseRepository S) (s : S) : result (slice T) * S :=
  match Query (db r) (listQuery r) [] s with
  | (Err err, s') => (Err (wrapError "failed to query entities" err), s')
  | (Ok cursor, s') => (readAll "failed to read entity" cursor nil_slice, s')
  end.

End Repository.

(* ------------------------------------------------------------------ *)
(** ** arangorepository: the specialised repositories *)

Section PersonRepository.

Context {S : Type}.

Definition NewPersonRepository (db : Database S) (collection : Collection S)
  : BaseRepository S :=
  NewBaseRepository db collection "persons".

(** FOR p IN persons
    FILTER (@firstName == "" || p.firstName == @firstName)
       AND (@lastName == "" || p.lastName == @lastName)
    RETURN p *)
Definition findByNameQuery : AQL.Query :=
  {| AQL.forVar := "p";
     AQL.inCollection := "persons";
     AQL.filterExpr := Some
       (AQL.And
          (AQL.Or (AQL.Eq (AQL.Bind "firstName") (AQL.Str ""))
                  (AQL.Eq (AQL.Attr "p" "firstName") (AQL.Bind "firstName")))
          (AQL.Or (AQL.Eq (AQL.Bind "lastName") (AQL.Str ""))
                  (AQL.Eq (AQL.Attr "p" "lastName") (AQL.Bind "lastName"))));
     AQL.returnVar := "p" |}.

Definition FindByName (r : BaseRepository S) (firstName lastName : string)
  (s : S) : result (slice Person.t) * S :=
  let bindVars :=
    [("firstName", VString firstName); ("lastName", VString lastName)] in
  match Query (db r) findByNameQuery bindVars s with
  | (Err err, s') =>
      (Err (wrapError "failed to query persons by name" err), s')
  | (Ok cursor, s') => (readAll "failed to read person" cursor nil_slice, s')
  end.

End PersonRepository.

Section RelationshipRepository.

Context {S : Type}.

Definition NewRelationshipRepository (db : Database S)
  (collection : Collection S) : BaseRepository S :=
  NewBaseRepository db collection "relationships".

(** FOR rel IN relationships
    FILTER rel._from == @personID || rel._to == @personID
    RETURN rel *)
Definition findByPersonQuery : AQL.Query :=
  {| AQL.forVar := "rel";
     AQL.inCollection := "relationships";
     AQL.filterExpr := Some
       (AQL.Or (AQL.Eq (AQL.Attr "rel" "_from") (AQL.Bind "personID"))
               (AQL.Eq (AQL.Attr "rel" "_to") (AQL.Bind "personID")));
     AQL.returnVar := "rel" |}.

Definition FindByPerson (r : BaseRepository S) (personID : string) (s : S)
  : result (slice Relationship.t) * S :=
  let bindVars := [("personID", VString personID)] in
  match Query (db r) findByPersonQuery bindVars s with
  | (Err err, s') =>
      (Err (wrapError "failed to query relationships by person" err), s')
  | (Ok cursor, s') =>
      (readAll "failed to read relationship" cursor nil_slice, s')
  end.

(** FOR rel IN relationships
    FILTER rel.relationType == @relationType
    RETURN rel *)
Definition findByTypeQuery : AQL.Query :=
  {| AQL.forVar := "rel";
     AQL.inCollection := "relationships";
     AQL.filterExpr := Some
       (AQL.Eq (AQL.Attr "rel" "relationType") (AQL.Bind "relationType"));
     AQL.returnVar := "rel" |}.

Definition FindByType (r : BaseRepository S) (relationType : string) (s : S)
  : result (slice Relationship.t) * S :=
  let bindVars := [("relationType", VString relationType)] in
  match Query (db r) findByTypeQuery bindVars s with
  | (Err err, s') =>
      (Err (wrapError "failed to query relationships by type" err), s')
  | (Ok cursor, s') =>
      (readAll "failed to read relationship" cursor nil_slice, s')
  end.

End RelationshipRepository.

(* ------------------------------------------------------------------ *)
(** ** An in-memory document store behind the driver's interfaces

    Collections are named lists of JSON documents.  The store assigns the
    system attributes [_key], [_id] and [_rev]; a write of a document that
    brings its own [_key] keeps it.  An update merges the attributes sent
    over the stored ones.  Queries evaluate the filter on every document of
    the collection. *)

Module Mem.

Record Coll : Type := {
  kind : CollectionType;
  documents : list Object
}.

Record ArangoDB : Type := {
  collections : list (string * Coll);
  tick : nat
}.

Fixpoint lookup (name : string) (cs : list (string * Coll)) : option Coll :=
  match cs with
  | [] => None
  | (n, c) :: cs' => if String.eqb n name then Some c else lookup name cs'
  end.

Fixpoint replace (name : string) (c : Coll) (cs : list (string * Coll))
  : list (string * Coll) :=
  match cs with
  | [] => []
  | (n, c0) :: cs' =>
      if String.eqb n name then (n, c) :: cs'
      else (n, c0) :: replace name c cs'
  end.

Definition fresh (n : nat) : string :=
  NilZero.string_of_uint (Nat.to_uint n).

Definition ErrDocumentNotFound : error :=
  ArangoError 404 1202 "document not found".
Definition ErrDataSourceNotFound : error :=
  ArangoError 404 1203 "collection or view not found".
Definition ErrDuplicateName : error :=
  ArangoError 409 1207 "duplicate name".
Definition ErrUniqueConstraintViolated : error :=
  ArangoError 409 1210 "unique constraint violated".
Definition ErrQueryBindParameterMissing : error :=
  ArangoError 400 1551 "no value specified for declared bind parameter".
Definition ErrQueryVariableUnknown : error :=
  ArangoError 400 1512 "collection or variable not found".

Definition stringAttr (o : Object) (name : string) : string :=
  match attr o name with
  | Some (VString s) => s
  | _ => ""
  end.

Definition metaOf (doc : Object) : DocumentMeta.t :=
  DocumentMeta.mk (stringAttr doc "_key") (stringAttr doc "_id")
                  (stringAttr doc "_rev").

(** The system attributes shadow whatever the body carries. *)
Definition stamp (o : Object) (meta : DocumentMeta.t) : Object :=
  ("_key", VString (DocumentMeta.Key meta))
    :: ("_id", VString (DocumentMeta.ID meta))
    :: ("_rev", VString (DocumentMeta.Rev meta)) :: o.

Fixpoint findDoc (key : string) (docs : list Object) : option Object :=
  match docs with
  | [] => None
  | d :: docs' =>
      if String.eqb (stringAttr d "_key") key then Some d
      else findDoc key docs'
  end.

Fixpoint replaceDoc (key : string) (d' : Object) (docs : list Object)
  : list Object :=
  match docs with
  | [] => []
  | d :: docs' =>
      if String.eqb (stringAttr d "_key") key then d' :: docs'
      else d :: replaceDoc key d' docs'
  end.

Fixpoint removeDoc (key : string) (docs : list Object) : list Object :=
  match docs with
  | [] => []
  | d :: docs' =>
      if String.eqb (stringAttr d "_key") key then docs'
      else d :: removeDoc key docs'
  end.

(** The insert on the server. *)
Definition insertDocument (name : string) (o : Object) (db : ArangoDB)
  : result DocumentMeta.t * ArangoDB :=
  match lookup name (collections db) with
  | None => (Err ErrDataSourceNotFound, db)
  | Some c =>
      let t := S (tick db) in
      let key :=
        match attr o "_key" with
        | Some (VString k) => k
        | _ => fresh t
        end in
      match findDoc key (documents c) with
      | Some _ => (Err ErrUniqueConstraintViolated, db)
      | None =>
          let meta :=
            DocumentMeta.mk key (name ++ "/" ++ key)%string (fresh t) in
          let c' := {| kind := kind c;
                       documents := stamp o meta :: documents c |} in
          (Ok meta,
           {| collections := replace name c' (collections db); tick := t |})
      end
  end.

(** The driver's call: the entity is encoded, and what was written is
    sent; an entity that cannot be encoded never reaches the server. *)
Definition createDocument (name : string) {T} `{Document T} (entity : T)
  (db : ArangoDB) : result DocumentMeta.t * ArangoDB :=
  match Marshal entity with
  | Err err => (Err err, db)
  | Ok o => insertDocument name o db
  end.

Definition readDocument (name key : string) (db : ArangoDB)
  : result (DocumentMeta.t * Object) * ArangoDB :=
  match lookup name (collections db) with
  | None => (Err ErrDataSourceNotFound, db)
  | Some c =>
      match findDoc key (documents c) with
      | None => (Err ErrDocumentNotFound, db)
      | Some doc => (Ok (metaOf doc, doc), db)
      end
  end.

(** The update on the server: the attributes sent are merged over the
    stored ones. *)
Definition patchDocument (name key : string) (patch : Object)
  (db : ArangoDB) : result DocumentMeta.t * ArangoDB :=
  match lookup name (collections db) with
  | None => (Err ErrDataSourceNotFound, db)
  | Some c =>
      match findDoc key (documents c) with
      | None => (Err ErrDocumentNotFound, db)
      | Some doc =>
          let t := S (tick db) in
          let meta :=
            DocumentMeta.mk (stringAttr doc "_key") (stringAttr doc "_id")
                            (fresh t) in
          let c' := {| kind := kind c;
                       documents :=
                         replaceDoc key (stamp (patch ++ doc) meta)
                                    (documents c) |} in
          (Ok meta,
           {| collections := replace name c' (collections db); tick := t |})
      end
  end.

Definition updateDocument (name key : string) {T} `{Document T}
  (entity : T) (db : ArangoDB) : result DocumentMeta.t * ArangoDB :=
  match Marshal entity with
  | Err err => (Err err, db)
  | Ok patch => patchDocument name key patch db
  end.

Definition deleteDocument (name key : string) (db : ArangoDB)
  : result DocumentMeta.t * ArangoDB :=
  match lookup name (collections db) with
  | None => (Err ErrDataSourceNotFound, db)
  | Some c =>
      match findDoc key (documents c) with
      | None => (Err ErrDocumentNotFound, db)
      | Some doc =>
          let c' := {| kind := kind c;
                       documents := removeDoc key (documents c) |} in
          (Ok (metaOf doc),
           {| collections := replace name c' (collections db);
              tick := tick db |})
      end
  end.

(** Truth value of an AQL value in a filter. *)
Definition truthy (v : Value) : bool :=
  match v with
  | VNull => false
  | VBool b => b
  | VString s => negb (String.eqb s "")
  | VTime _ => true
  end.

Fixpoint eval (v : string) (doc : Object) (binds : BindVars)
  (e : AQL.Expr) : option Value :=
  match e with
  | AQL.Attr var name =>
      if String.eqb var v
      then Some (match attr doc name with Some x => x | None => VNull end)
      else None
  | AQL.Bind name => attr binds name
  | AQL.Str s => Some (VString s)
  | AQL.Eq a b =>
      x <- eval v doc binds a ;;
      y <- eval v doc binds b ;;
      Some (VBool (Value_eqb x y))
  | AQL.Or a b =>
      x <- eval v doc binds a ;;
      if truthy x then Some x else eval v doc binds b
  | AQL.And a b =>
      x <- eval v doc binds a ;;
      if truthy x then eval v doc binds b else Some x
  end.

Definition keeps (q : AQL.Query) (binds : BindVars) (doc : Object)
  : option bool :=
  match AQL.filterExpr q with
  | None => Some true
  | Some e => option_map truthy (eval (AQL.forVar q) doc binds e)
  end.

Fixpoint select (q : AQL.Query) (binds : BindVars) (docs : list Object)
  : option (list Object) :=
  match docs with
  | [] => Some []
  | d :: docs' =>
      keep <- keeps q binds d ;;
      rest <- select q binds docs' ;;
      Some (if keep : bool then d :: rest else rest)
  end.

Definition query (q : AQL.Query) (binds : BindVars) (db : ArangoDB)
  : result Cursor * ArangoDB :=
  match lookup (AQL.inCollection q) (collections db) with
  | None => (Err ErrDataSourceNotFound, db)
  | Some c =>
      if negb (String.eqb (AQL.returnVar q) (AQL.forVar q))
      then (Err ErrQueryVariableUnknown, db)
      else
        match select q binds (documents c) with
        | None => (Err ErrQueryBindParameterMissing, db)
        | Some docs => (Ok (map (@Ok Object) docs), db)
        end
  end.

Definition collectionExists (name : string) (db : ArangoDB)
  : result bool * ArangoDB :=
  match lookup name (collections db) with
  | Some _ => (Ok true, db)
  | None => (Ok false, db)
  end.

Definition createCollection (name : string)
  (props : CreateCollectionPropertiesV2) (db : ArangoDB)
  : option error * ArangoDB :=
  match lookup name (collections db) with
  | Some _ => (Some ErrDuplicateName, db)
  | None =>
      let k := match Type_ props with
               | Some k => k
               | None => CollectionTypeDocument
               end in
      (None,
       {| collections :=
            collections db ++ [(name, {| kind := k; documents := [] |})];
          tick := tick db |})
  end.

Definition database : Database ArangoDB :=
  {| CollectionExists := collectionExists;
     CreateCollectionV2 := createCollection;
     Query := query |}.

Definition getCollection (name : string) : Collection ArangoDB :=
  {| CreateDocument := fun T D entity db => createDocument name entity db;
     ReadDocument := readDocument name;
     UpdateDocument := fun T D key entity db =>
                         updateDocument name key entity db;
     DeleteDocument := deleteDocument name |}.

Definition empty : ArangoDB := {| collections := []; tick := 0 |}.

Definition persons : BaseRepository ArangoDB :=
  NewPersonRepository database (getCollection "persons").

Definition relationships : BaseRepository ArangoDB :=
  NewRelationshipRepository database (getCollection "relationships").

End Mem.

(* ------------------------------------------------------------------ *)
(** ** pkg/interfaces: the repository interface and the requests *)

Module interfaces.

(** [Repository[Relationship]] with the two lookups; [Create] and
    [Update] take the clock reading of the call. *)
Record RelationshipRepository (S : Type) : Type := {
  Create : Time -> Relationship.t -> S
           -> (Relationship.t * option error) * S;
  GetByID : string -> S -> result Relationship.t * S;
  Update : Time -> string -> Relationship.t -> S
           -> (Relationship.t * option error) * S;
  Delete : string -> S -> option error * S;
  List : S -> result (slice Relationship.t) * S;
  FindByPerson : string -> S -> result (slice Relationship.t) * S;
  FindByType : string -> S -> result (slice Relationship.t) * S
}.

End interfaces.

Module RelationshipCreateRequest.
Record t : Type := mk {
  From : string;
  To : string;
  RelationType : string;
  StartDate : Time;
  EndDate : Time;
  Notes : string
}.
End RelationshipCreateRequest.

(** [*RelationshipRepository] of the arangorepository package satisfies the
    interface through the methods of the embedded base repository. *)
Definition RelationshipRepository {S} (r : BaseRepository S)
  : interfaces.RelationshipRepository S :=
  {| interfaces.Create := Create r;
     interfaces.GetByID := GetByID r;
     interfaces.Update := Update r;
     interfaces.Delete := Delete r;
     interfaces.List := List r;
     interfaces.FindByPerson := FindByPerson r;
     interfaces.FindByType := FindByType r |}.

(* ------------------------------------------------------------------ *)
(** ** services/v1relationshipservice *)

(** Lookup in a [map[string]bool]: a missing key reads as [false]. *)
Fixpoint mapGet (m : list (string * bool)) (k : string) : bool :=
  match m with
  | [] => false
  | (k', b) :: m' => if String.eqb k' k then b else mapGet m' k
  end.

Section RelationshipService.

(** [strings.TrimSpace] of the Go library. *)
Variable TrimSpace : string -> string.

Context {S : Type}.

Record RelationshipService : Type := {
  repo : interfaces.RelationshipRepository S
}.

Definition NewRelationshipService
  (repo : interfaces.RelationshipRepository S) : RelationshipService :=
  {| repo := repo |}.

Definition validTypes : list (string * bool) :=
  [(Relationship.RelationTypeParent, true);
   (Relationship.RelationTypeChild, true);
   (Relationship.RelationTypeSpouse, true);
   (Relationship.RelationTypeSibling, true)].

Definition validateCreateRequest (req : RelationshipCreateRequest.t)
  : option error :=
  if String.eqb (TrimSpace (RelationshipCreateRequest.From req)) "" then
    Some (errorString "from is required")
  else if String.eqb (TrimSpace (RelationshipCreateRequest.To req)) "" then
    Some (errorString "to is required")
  else if String.eqb
            (TrimSpace (RelationshipCreateRequest.RelationType req)) "" then
    Some (errorString "relationType is required")
  else if String.eqb (RelationshipCreateRequest.From req)
                     (RelationshipCreateRequest.To req) then
    Some (errorString "from and to must be different persons")
  else if negb (mapGet validTypes
                  (RelationshipCreateRequest.RelationType req)) then
    Some (errorString
            ("invalid relationship type: "
               ++ RelationshipCreateRequest.RelationType req
               ++ ". Valid types are: parent, child, spouse, sibling"))
  else None.

Definition CreateRelationship (s : RelationshipService) (now : Time)
  (req : RelationshipCreateRequest.t) (st : S)
  : result Relationship.t * S :=
  match validateCreateRequest req with
  | Some err => (Err err, st)
  | None =>
      let relationship :=
        Relationship.mk "" "" ""
          (TrimSpace (RelationshipCreateRequest.From req))
          (TrimSpace (RelationshipCreateRequest.To req))
          (TrimSpace (RelationshipCreateRequest.RelationType req))
          (RelationshipCreateRequest.StartDate req)
          (RelationshipCreateRequest.EndDate req)
          (TrimSpace (RelationshipCreateRequest.Notes req))
          0%Z 0%Z in
      match interfaces.Create (repo s) now relationship st with
      | ((_, Some err), st') =>
          (Err (wrapError "failed to create relationship" err), st')
      | ((relationship, None), st') => (Ok relationship, st')
      end
  end.

Definition GetRelationshipsForPerson (s : RelationshipService)
  (personID : string) (st : S) : result (slice Relationship.t) * S :=
  if String.eqb personID "" then
    (Err (errorString "person ID is required"), st)
  else
    match interfaces.FindByPerson (repo s) personID st with
    | (Err err, st') => (Err err, st')
    | (Ok relationships, st') => (Ok relationships, st')
    end.

Definition GetRelationshipsByType (s : RelationshipService)
  (relationType : string) (st : S) : result (slice Relationship.t) * S :=
  if String.eqb relationType "" then
    (Err (errorString "relationship type is required"), st)
  else
    match interfaces.FindByType (repo s) relationType st with
    | (Err err, st') => (Err err, st')
    | (Ok relationships, st') => (Ok relationships, st')
    end.

End RelationshipService.

(** [strings.TrimSpace] on strings of ASCII bytes: leading and trailing
    bytes of the library's [asciiSpace] table are dropped. *)
Definition asciiSpace (c : ascii) : bool :=
  match c with
  | "009"%char | "010"%char | "011"%char | "012"%char | "013"%char
  | " "%char => true
  | _ => false
  end.

Fixpoint trimLeft (s : string) : string :=
  match s with
  | EmptyString => EmptyString
  | String c s' => if asciiSpace c then trimLeft s' else s
  end.

Fixpoint trimRight (s : string) : string :=
  match s with
  | EmptyString => EmptyString
  | String c s' =>
      let r := trimRight s' in
      if asciiSpace c && String.eqb r "" then EmptyString else String c r
  end.

Definition asciiTrimSpace (s : string) : string := trimRight (trimLeft s).

(* ------------------------------------------------------------------ *)
(** ** clients/arangodbclient: the collection bootstrap *)

Module arangodbclient.

Section Client.

Context {S : Type}.

Record Client : Type := { db : Database S }.

Definition ensureCollection (c : Client) (name : string) (isEdge : bool)
  (s : S) : option error * S :=
  match CollectionExists (db c) name s with
  | (Err err, s') =>
      (Some (wrapError "failed to check collection existence" err), s')
  | (Ok exists_, s') =>
      if exists_ : bool then (None, s')
      else
        let props :=
          {| Type_ := if isEdge then Some CollectionTypeEdge else None |} in
        match CreateCollectionV2 (db c) name props s' with
        | (Some err, s'') =>
            (Some (wrapError "failed to create collection" err), s'')
        | (None, s'') => (None, s'')
        end
  end.

Definition initializeCollections (c : Client) (s : S) : option error * S :=
  match ensureCollection c "persons" false s with
  | (Some err, s') =>
      (Some (wrapError "failed to create persons collection" err), s')
  | (None, s') =>
      match ensureCollection c "relationships" true s' with
      | (Some err, s'') =>
          (Some (wrapError "failed to create relationships collection"
                   err), s'')
      | (None, s'') => (None, s'')
      end
  end.

End Client.

End arangodbclient.

(** Several process instances share one store: between two requests of
    this process the requests of a peer may land.  [peer] is what the peer
    does to the store in each such window. *)
Definition sharedWith (peer : Mem.ArangoDB -> Mem.ArangoDB)
  : Database Mem.ArangoDB :=
  {| CollectionExists := fun name db =>
       let (r, db') := Mem.collectionExists name db in (r, peer db');
     CreateCollectionV2 := fun name props db =>
       let (r, db') := Mem.createCollection name props db in (r, peer db');
     Query := fun q binds db =>
       let (r, db') := Mem.query q binds db in (r, peer db') |}.

(* ------------------------------------------------------------------ *)
(** ** Vocabulary of the statements *)

(** A write issued on an entity through the repository. *)
Inductive write : Type :=
| WCreate (now : Time)
| WUpdate (now : Time) (id : string).

Section Writes.

Context {S T : Type} `{Entity T} `{Document T}.

Definition applyWrite (r : BaseRepository S) (w : write) (entity : T)
  (s : S) : (T * option error) * S :=
  match w with
  | WCreate now => Create r now entity s
  | WUpdate now id => Update r now id entity s
  end.

(** The entity after a sequence of writes, whatever each returned. *)
Fixpoint applyWrites (r : BaseRepository S) (ws : list write) (entity : T)
  (s : S) : T * S :=
  match ws with
  | [] => (entity, s)
  | w :: ws' =>
      let '((entity', _), s') := applyWrite r w entity s in
      applyWrites r ws' entity' s'
  end.

End Writes.

(** Two documents with the same attributes. *)
Definition sameObject (a b : Object) : Prop :=
  forall name, attr a name = attr b name.

(** The documents of a collection are the stored forms of [entities]. *)
Definition stores {T} `{Document T} (docs : list Object) (entities : list T)
  : Prop :=
  Forall2 (fun doc entity => sameObject doc (document entity)) docs entities.

(** The same edge stored in the other direction. *)
Definition swapEndpoints (r : Relationship.t) : Relationship.t :=
  Relationship.mk (Relationship.Key r) (Relationship.ID r)
    (Relationship.Rev r) (Relationship.To r) (Relationship.From r)
    (Relationship.RelationType r) (Relationship.StartDate r)
    (Relationship.EndDate r) (Relationship.Notes r)
    (Relationship.CreatedAt r) (Relationship.UpdatedAt r).

(** The slice the read loop builds from the sequence of its results. *)
Definition collect {T} (l : list T) : slice T :=
  match l with
  | [] => nil_slice
  | _ :: _ => mk_slice l
  end.

(** A peer instance running the same bootstrap for collection [name]. *)
Definition peerBootstrap (name : string) (isEdge : bool)
  (db : Mem.ArangoDB) : Mem.ArangoDB :=
  snd (arangodbclient.ensureCollection
         {| arangodbclient.db := Mem.database |} name isEdge db).

(** Sample data. *)
Definition ada : Person.t :=
  Person.mk "" "" "" "Ada" "Lovelace" 0%Z 0%Z "" "" "" 0%Z 0%Z.

(** Ada again, carrying the timestamps of an earlier record. *)
Definition adaImported : Person.t :=
  Person.mk "" "" "" "Ada" "Lovelace" 0%Z 0%Z "" "" "" 500%Z 500%Z.

(** Ada under her married name, as a caller fills in a fresh value: no
    createdAt, and an updatedAt of the caller's own. *)
Definition adaRevised : Person.t :=
  Person.mk "" "" "" "Ada" "King" 0%Z 0%Z "" "" "" 0%Z 500%Z.

Definition charles : Person.t :=
  Person.mk "" "" "" "Charles" "Babbage" 0%Z 0%Z "male" "" "" 0%Z 0%Z.

(** Ada with the byte 0xFF, which no UTF-8 encoding holds, in her first
    name. *)
Definition adaMisencoded : Person.t :=
  Person.mk "" "" "" (String "A" (String "d" (String "255" "a"))) "Lovelace"
            0%Z 0%Z "" "" "" 0%Z 0%Z.

Definition siblings : Relationship.t :=
  Relationship.mk "" "" "" "persons/1" "persons/2" "sibling" 0%Z 0%Z "" 0%Z 0%Z.

(** A legacy edge written through the repository without a type. *)
Definition untyped : Relationship.t :=
  Relationship.mk "" "" "" "persons/2" "persons/1" "" 0%Z 0%Z "" 0%Z 0%Z.

Definition bootstrapped : Mem.ArangoDB :=
  snd (arangodbclient.initializeCollections
         {| arangodbclient.db := Mem.database |} Mem.empty).

(** A store that holds the relationships collection and no other. *)
Definition edgesOnly : Mem.ArangoDB :=
  snd (arangodbclient.ensureCollection
         {| arangodbclient.db := Mem.database |} "relationships" true
         Mem.empty).

(** The store after Ada, Charles, their sibling edge and the legacy edge
    were created through the repositories, and the entities it holds. *)
Definition family : Mem.ArangoDB :=
  let db := snd (Create Mem.persons 1000%Z ada bootstrapped) in
  let db := snd (Create Mem.persons 1001%Z charles db) in
  let db := snd (Create Mem.relationships 1002%Z siblings db) in
  snd (Create Mem.relationships 1003%Z untyped db).

Definition adaStored : Person.t :=
  Person.mk "1" "persons/1" "1" "Ada" "Lovelace" 0%Z 0%Z "" "" ""
            1000%Z 1000%Z.

Definition charlesStored : Person.t :=
  Person.mk "2" "persons/2" "2" "Charles" "Babbage" 0%Z 0%Z "male" "" ""
            1001%Z 1001%Z.

Definition siblingsStored : Relationship.t :=
  Relationship.mk "3" "relationships/3" "3" "persons/1" "persons/2" "sibling"
                  0%Z 0%Z "" 1002%Z 1002%Z.

Definition untypedStored : Relationship.t :=
  Relationship.mk "4" "relationships/4" "4" "persons/2" "persons/1" ""
                  0%Z 0%Z "" 1003%Z 1003%Z.

Definition familyPersons : Mem.Coll :=
  {| Mem.kind := CollectionTypeDocument;
     Mem.documents := map Person.document [charlesStored; adaStored] |}.

Definition familyRelationships : Mem.Coll :=
  {| Mem.kind := CollectionTypeEdge;
     Mem.documents :=
       map Relationship.document [untypedStored; siblingsStored] |}.

(* ------------------------------------------------------------------ *)
(** ** Go's strings package, as far as the services and handlers use it *)

(** [strings.HasPrefix(s, prefix)] *)
Definition HasPrefix (s prefix : string) : bool := String.prefix prefix s.

Fixpoint dropBytes (n : nat) (s : string) : string :=
  match n, s with
  | O, _ => s
  | Datatypes.S n', String _ s' => dropBytes n' s'
  | Datatypes.S _, EmptyString => EmptyString
  end.

(** [strings.TrimPrefix(s, prefix)]: [s] without the leading [prefix], or
    [s] itself when it does not start with it. *)
Definition TrimPrefix (s prefix : string) : string :=
  if HasPrefix s prefix then dropBytes (String.length prefix) s else s.

(** [strings.Contains(s, substr)] *)
Fixpoint Contains (s substr : string) : bool :=
  String.prefix substr s
  || match s with
     | EmptyString => false
     | String _ s' => Contains s' substr
     end.

(** [strings.Split(s, sep)] for a separator of one byte, which is how the
    code calls it: the pieces between the occurrences of [sep], in order;
    a string without [sep] is the single piece. *)
Fixpoint Split (s : string) (sep : ascii) : list string :=
  match s with
  | EmptyString => [EmptyString]
  | String c s' =>
      if Ascii.eqb c sep then EmptyString :: Split s' sep
      else match Split s' sep with
           | [] => [String c EmptyString]
           | piece :: pieces => String c piece :: pieces
           end
  end.

(** [err.Error()]: the text of an error.  [fmt.Errorf("msg: %w", err)]
    prints the message, a colon and the text of the wrapped error; the text
    of a driver error is the driver's business. *)
Section ErrorText.

Variable ArangoErrorText : Z -> Z -> string -> string.

Fixpoint Error (e : error) : string :=
  match e with
  | errorString msg => msg
  | wrapError msg err => (msg ++ ": " ++ Error err)%string
  | ArangoError code num m => ArangoErrorText code num m
  end.

End ErrorText.

(* ------------------------------------------------------------------ *)
(** ** services/v1relationshipservice: the remaining operations *)

Module RelationshipUpdateRequest.
Record t : Type := mk {
  From : string;
  To : string;
  RelationType : string;
  StartDate : Time;
  EndDate : Time;
  Notes : string
}.
End RelationshipUpdateRequest.

Section RelationshipServiceOperations.

Variable TrimSpace : string -> string.

Context {S : Type}.

Definition GetRelationship (s : @RelationshipService S) (id : string)
  (st : S) : result Relationship.t * S :=
  if String.eqb id "" then
    (Err (errorString "relationship ID is required"), st)
  else
    match interfaces.GetByID (repo s) id st with
    | (Err err, st') => (Err err, st')
    | (Ok relationship, st') => (Ok relationship, st')
    end.

(** The field updates of UpdateRelationship on the fetched relationship. *)
Definition updateFields (req : RelationshipUpdateRequest.t)
  (relationship : Relationship.t) : Relationship.t :=
  Relationship.mk
    (Relationship.Key relationship) (Relationship.ID relationship)
    (Relationship.Rev relationship)
    (if negb (String.eqb (RelationshipUpdateRequest.From req) "")
     then TrimSpace (RelationshipUpdateRequest.From req)
     else Relationship.From relationship)
    (if negb (String.eqb (RelationshipUpdateRequest.To req) "")
     then TrimSpace (RelationshipUpdateRequest.To req)
     else Relationship.To relationship)
    (if negb (String.eqb (RelationshipUpdateRequest.RelationType req) "")
     then TrimSpace (RelationshipUpdateRequest.RelationType req)
     else Relationship.RelationType relationship)
    (if negb (IsZero (RelationshipUpdateRequest.StartDate req))
     then RelationshipUpdateRequest.StartDate req
     else Relationship.StartDate relationship)
    (if negb (IsZero (RelationshipUpdateRequest.EndDate req))
     then RelationshipUpdateRequest.EndDate req
     else Relationship.EndDate relationship)
    (if negb (String.eqb (RelationshipUpdateRequest.Notes req) "")
     then TrimSpace (RelationshipUpdateRequest.Notes req)
     else Relationship.Notes relationship)
    (Relationship.CreatedAt relationship)
    (Relationship.UpdatedAt relationship).

Definition UpdateRelationship (s : @RelationshipService S) (now : Time)
  (id : string) (req : RelationshipUpdateRequest.t) (st : S)
  : result Relationship.t * S :=
  if String.eqb id "" then
    (Err (errorString "relationship ID is required"), st)
  else
    match interfaces.GetByID (repo s) id st with
    | (Err err, st') => (Err err, st')
    | (Ok relationship, st') =>
        let relationship := updateFields req relationship in
        match interfaces.Update (repo s) now id relationship st' with
        | ((_, Some err), st'') =>
            (Err (wrapError "failed to update relationship" err), st'')
        | ((relationship, None), st'') => (Ok relationship, st'')
        end
    end.

Definition DeleteRelationship (s : @RelationshipService S) (id : string)
  (st : S) : option error * S :=
  if String.eqb id "" then
    (Some (errorString "relationship ID is required"), st)
  else
    match interfaces.Delete (repo s) id st with
    | (Some err, st') => (Some err, st')
    | (None, st') => (None, st')
    end.

Definition ListRelationships (s : @RelationshipService S) (st : S)
  : result (slice Relationship.t) * S :=
  match interfaces.List (repo s) st with
  | (Err err, st') => (Err err, st')
  | (Ok relationships, st') => (Ok relationships, st')
  end.

End RelationshipServiceOperations.

(* ------------------------------------------------------------------ *)
(** ** services/v1personservice *)

Module PersonCreateRequest.
Record t : Type := mk {
  FirstName : string;
  LastName : string;
  BirthDate : Time;
  DeathDate : Time;
  Gender : string;
  Email : string;
  Phone : string
}.
End PersonCreateRequest.

Module PersonUpdateRequest.
Record t : Type := mk {
  FirstName : string;
  LastName : string;
  BirthDate : Time;
  DeathDate : Time;
  Gender : string;
  Email : string;
  Phone : string
}.
End PersonUpdateRequest.

Module v1personservice.

(** [interfaces.PersonRepository]: [Repository[Person]] and FindByName. *)
Record PersonRepository (S : Type) : Type := {
  Create : Time -> Person.t -> S -> (Person.t * option error) * S;
  GetByID : string -> S -> result Person.t * S;
  Update : Time -> string -> Person.t -> S -> (Person.t * option error) * S;
  Delete : string -> S -> option error * S;
  List : S -> result (slice Person.t) * S;
  FindByName : string -> string -> S -> result (slice Person.t) * S
}.

(** isValidEmail performs basic email validation. *)
Definition isValidEmail (email : string) : bool :=
  match Split email "@"%char with
  | [local; domain] =>
      if (String.length local =? 0)%nat || (String.length domain =? 0)%nat
      then false
      else if negb (Contains domain ".") then false
      else true
  | _ => false
  end.

Section PersonService.

Variable TrimSpace : string -> string.

Context {S : Type}.

Record PersonService : Type := { repo : PersonRepository S }.

Definition NewPersonService (repo : PersonRepository S) : PersonService :=
  {| repo := repo |}.

Definition validateCreateRequest (req : PersonCreateRequest.t)
  : option error :=
  if String.eqb (TrimSpace (PersonCreateRequest.FirstName req)) "" then
    Some (errorString "firstName is required")
  else if String.eqb (TrimSpace (PersonCreateRequest.LastName req)) "" then
    Some (errorString "lastName is required")
  else if negb (String.eqb (PersonCreateRequest.Email req) "")
          && negb (isValidEmail (PersonCreateRequest.Email req)) then
    Some (errorString "invalid email format")
  else None.

Definition CreatePerson (s : PersonService) (now : Time)
  (req : PersonCreateRequest.t) (st : S) : result Person.t * S :=
  match validateCreateRequest req with
  | Some err => (Err err, st)
  | None =>
      let person :=
        Person.mk "" "" ""
          (TrimSpace (PersonCreateRequest.FirstName req))
          (TrimSpace (PersonCreateRequest.LastName req))
          (PersonCreateRequest.BirthDate req)
          (PersonCreateRequest.DeathDate req)
          (TrimSpace (PersonCreateRequest.Gender req))
          (TrimSpace (PersonCreateRequest.Email req))
          (TrimSpace (PersonCreateRequest.Phone req))
          0%Z 0%Z in
      match Create (repo s) now person st with
      | ((_, Some err), st') =>
          (Err (wrapError "failed to create person" err), st')
      | ((person, None), st') => (Ok person, st')
      end
  end.

Definition GetPerson (s : PersonService) (id : string) (st : S)
  : result Person.t * S :=
  if String.eqb id "" then (Err (errorString "person ID is required"), st)
  else
    match GetByID (repo s) id st with
    | (Err err, st') => (Err err, st')
    | (Ok person, st') => (Ok person, st')
    end.

(** The field updates of UpdatePerson on the fetched person. *)
Definition updateFields (req : PersonUpdateRequest.t) (person : Person.t)
  : Person.t :=
  Person.mk
    (Person.Key person) (Person.ID person) (Person.Rev person)
    (if negb (String.eqb (PersonUpdateRequest.FirstName req) "")
     then TrimSpace (PersonUpdateRequest.FirstName req)
     else Person.FirstName person)
    (if negb (String.eqb (PersonUpdateRequest.LastName req) "")
     then TrimSpace (PersonUpdateRequest.LastName req)
     else Person.LastName person)
    (if negb (IsZero (PersonUpdateRequest.BirthDate req))
     then PersonUpdateRequest.BirthDate req
     else Person.BirthDate person)
    (if negb (IsZero (PersonUpdateRequest.DeathDate req))
     then PersonUpdateRequest.DeathDate req
     else Person.DeathDate person)
    (if negb (String.eqb (PersonUpdateRequest.Gender req) "")
     then TrimSpace (PersonUpdateRequest.Gender req)
     else Person.Gender person)
    (if negb (String.eqb (PersonUpdateRequest.Email req) "")
     then TrimSpace (PersonUpdateRequest.Email req)
     else Person.Email person)
    (if negb (String.eqb (PersonUpdateRequest.Phone req) "")
     then TrimSpace (PersonUpdateRequest.Phone req)
     else Person.Phone person)
    (Person.CreatedAt person) (Person.UpdatedAt person).


Definition DeletePerson (s : PersonService) (id : string) (st : S)
  : option error * S :=
  if String.eqb id "" then (Some (errorString "person ID is required"), st)
  else
    match Delete (repo s) id st with
    | (Some err, st') => (Some err, st')
    | (None, st') => (None, st')
    end.

Definition ListPersons (s : PersonService) (st : S)
  : result (slice Person.t) * S :=
  match List (repo s) st with
  | (Err err, st') => (Err err, st')
  | (Ok persons, st') => (Ok persons, st')
  end.


End PersonService.

End v1personservice.

(** [*PersonRepository] of the arangorepository package satisfies the
    interface through the methods of the embedded base repository. *)
Definition PersonRepository {S} (r : BaseRepository S)
  : v1personservice.PersonRepository S :=
  {| v1personservice.Create := Create r;
     v1personservice.GetByID := GetByID r;
     v1personservice.Update := Update r;
     v1personservice.Delete := Delete r;
     v1personservice.List := List r;
     v1personservice.FindByName := FindByName r |}.

(* ------------------------------------------------------------------ *)
(** ** httpserver/handlers/v1relationshipshandler *)

Module v1relationshipshandler.

(** net/http *)
Definition MethodGet := "GET".
Definition MethodPost := "POST".
Definition MethodPut := "PUT".
Definition MethodDelete := "DELETE".
Definition StatusOK : Z := 200.
Definition StatusCreated : Z := 201.
Definition StatusBadRequest : Z := 400.
Definition StatusNotFound : Z := 404.
Definition StatusMethodNotAllowed : Z := 405.
Definition StatusInternalServerError : Z := 500.

(** The response bodies of the handlers. *)
Inductive payload : Type :=
| RelationshipResponse (Relationship : Relationship.t) (Message : string)
| RelationshipsListResponse (Relationships : slice Relationship.t)
                            (Count : nat)
| MessageMap (entries : list (string * string)).

(** What a handler hands to [helpers.SendError] or [helpers.SendJSON]. *)
Inductive response : Type :=
| SendError (status : Z) (message : string)
| SendJSON (status : Z) (body : payload).

Definition statusOf (r : response) : Z :=
  match r with
  | SendError status _ => status
  | SendJSON status _ => status
  end.

Section Handler.

Variable TrimSpace : string -> string.
Variable ArangoErrorText : Z -> Z -> string -> string.

(** The request body and what [json.NewDecoder(r.Body).Decode] makes of
    it for the two request types. *)
Variable Body : Type.
Variable decodeCreate : Body -> result RelationshipCreateRequest.t.
Variable decodeUpdate : Body -> result RelationshipUpdateRequest.t.

Context {S : Type}.

Record Handler : Type := { service : @RelationshipService S }.

Definition NewHandler (service : @RelationshipService S) : Handler :=
  {| service := service |}.

(** The parts of [*http.Request] the handlers read. *)
Record Request : Type := {
  Method : string;
  Path : string;
  RequestBody : Body
}.

Definition ListRelationships (h : Handler) (st : S) : response * S :=
  match ListRelationships (service h) st with
  | (Err err, st') =>
      (SendError StatusInternalServerError
         ("failed to list relationships: " ++ Error ArangoErrorText err),
       st')
  | (Ok relationships, st') =>
      (SendJSON StatusOK
         (RelationshipsListResponse relationships (len relationships)), st')
  end.

Definition GetRelationship (h : Handler) (relationshipID : string) (st : S)
  : response * S :=
  match GetRelationship (service h) relationshipID st with
  | (Err err, st') =>
      if Contains (Error ArangoErrorText err) "not found" then
        (SendError StatusNotFound "relationship not found", st')
      else
        (SendError StatusInternalServerError
           ("failed to get relationship: " ++ Error ArangoErrorText err), st')
  | (Ok relationship, st') =>
      (SendJSON StatusOK (RelationshipResponse relationship ""), st')
  end.

Definition CreateRelationship (h : Handler) (now : Time) (r : Request)
  (st : S) : response * S :=
  match decodeCreate (RequestBody r) with
  | Err err =>
      (SendError StatusBadRequest
         ("invalid request body: " ++ Error ArangoErrorText err), st)
  | Ok req =>
      match CreateRelationship TrimSpace (service h) now req st with
      | (Err err, st') =>
          (SendError StatusBadRequest (Error ArangoErrorText err), st')
      | (Ok relationship, st') =>
          (SendJSON StatusCreated
             (RelationshipResponse relationship
                "Relationship created successfully"), st')
      end
  end.

Definition UpdateRelationship (h : Handler) (now : Time) (r : Request)
  (relationshipID : string) (st : S) : response * S :=
  match decodeUpdate (RequestBody r) with
  | Err err =>
      (SendError StatusBadRequest
         ("invalid request body: " ++ Error ArangoErrorText err), st)
  | Ok req =>
      match UpdateRelationship TrimSpace (service h) now relationshipID req st
      with
      | (Err err, st') =>
          if Contains (Error ArangoErrorText err) "not found" then
            (SendError StatusNotFound "relationship not found", st')
          else
            (SendError StatusInternalServerError
               ("failed to update relationship: "
                  ++ Error ArangoErrorText err), st')
      | (Ok relationship, st') =>
          (SendJSON StatusOK
             (RelationshipResponse relationship
                "Relationship updated successfully"), st')
      end
  end.

Definition DeleteRelationship (h : Handler) (relationshipID : string)
  (st : S) : response * S :=
  match DeleteRelationship (service h) relationshipID st with
  | (Some err, st') =>
      if Contains (Error ArangoErrorText err) "not found" then
        (SendError StatusNotFound "relationship not found", st')
      else
        (SendError StatusInternalServerError
           ("failed to delete relationship: " ++ Error ArangoErrorText err),
         st')
  | (None, st') =>
      (SendJSON StatusOK
         (MessageMap [("message", "Relationship deleted successfully")]),
       st')
  end.

(** HandleRelationships routes relationship requests based on HTTP method. *)
Definition HandleRelationships (h : Handler) (now : Time) (r : Request)
  (st : S) : response * S :=
  if String.eqb (Method r) MethodGet then
    if HasPrefix (Path r) "/v1/relationships/"
       && negb (String.eqb (TrimPrefix (Path r) "/v1/relationships/") "")
    then GetRelationship h (TrimPrefix (Path r) "/v1/relationships/") st
    else ListRelationships h st
  else if String.eqb (Method r) MethodPost then
    CreateRelationship h now r st
  else if String.eqb (Method r) MethodPut then
    let relationshipID := TrimPrefix (Path r) "/v1/relationships/" in
    if String.eqb relationshipID "" then
      (SendError StatusBadRequest "relationship ID is required", st)
    else UpdateRelationship h now r relationshipID st
  else if String.eqb (Method r) MethodDelete then
    let relationshipID := TrimPrefix (Path r) "/v1/relationships/" in
    if String.eqb relationshipID "" then
      (SendError StatusBadRequest "relationship ID is required", st)
    else DeleteRelationship h relationshipID st
  else
    (SendError StatusMethodNotAllowed "method not allowed", st).

End Handler.

End v1relationshipshandler.

(* ------------------------------------------------------------------ *)
(** ** clients/arangodbclient: options and the database bootstrap *)

Module options.

Definition Second : Z := 1000000000.

Record Options : Type := {
  Endpoints : list string;
  Username : string;
  Password : string;
  Database : string;
  Timeout : Z;
  MaxRetries : Z;
  RetryDelay : Z
}.

(** An option function, as the options after it ran on them. *)
Definition OptionFunc := Options -> Options.

Definition WithEndpoints (endpoints : list string) : OptionFunc :=
  fun o => {| Endpoints := endpoints; Username := Username o;
              Password := Password o; Database := Database o;
              Timeout := Timeout o; MaxRetries := MaxRetries o;
              RetryDelay := RetryDelay o |}.

Definition WithUsername (username : string) : OptionFunc :=
  fun o => {| Endpoints := Endpoints o; Username := username;
              Password := Password o; Database := Database o;
              Timeout := Timeout o; MaxRetries := MaxRetries o;
              RetryDelay := RetryDelay o |}.

Definition WithPassword (password : string) : OptionFunc :=
  fun o => {| Endpoints := Endpoints o; Username := Username o;
              Password := password; Database := Database o;
              Timeout := Timeout o; MaxRetries := MaxRetries o;
              RetryDelay := RetryDelay o |}.

Definition WithDatabase (database : string) : OptionFunc :=
  fun o => {| Endpoints := Endpoints o; Username := Username o;
              Password := Password o; Database := database;
              Timeout := Timeout o; MaxRetries := MaxRetries o;
              RetryDelay := RetryDelay o |}.

Definition WithTimeout (timeout : Z) : OptionFunc :=
  fun o => {| Endpoints := Endpoints o; Username := Username o;
              Password := Password o; Database := Database o;
              Timeout := timeout; MaxRetries := MaxRetries o;
              RetryDelay := RetryDelay o |}.

Definition WithMaxRetries (maxRetries : Z) : OptionFunc :=
  fun o => {| Endpoints := Endpoints o; Username := Username o;
              Password := Password o; Database := Database o;
              Timeout := Timeout o; MaxRetries := maxRetries;
              RetryDelay := RetryDelay o |}.

Definition WithRetryDelay (retryDelay : Z) : OptionFunc :=
  fun o => {| Endpoints := Endpoints o; Username := Username o;
              Password := Password o; Database := Database o;
              Timeout := Timeout o; MaxRetries := MaxRetries o;
              RetryDelay := retryDelay |}.

Definition DefaultOptions : Options :=
  {| Endpoints := ["http://localhost:8529"];
     Username := "root";
     Password := "";
     Database := "familytree";
     Timeout := 30 * Second;
     MaxRetries := 3;
     RetryDelay := 1 * Second |}.

(** [for _, fn := range optFuncs { fn(opts) }] *)
Definition ApplyOptions (opts : Options) (optFuncs : list OptionFunc)
  : Options :=
  fold_left (fun o fn => fn o) optFuncs opts.

(** The option functions the package offers, by name. *)
Inductive setting : Type :=
| Endpoints_ (endpoints : list string)
| Username_ (username : string)
| Password_ (password : string)
| Database_ (database : string)
| Timeout_ (timeout : Z)
| MaxRetries_ (maxRetries : Z)
| RetryDelay_ (retryDelay : Z).

Definition With (x : setting) : OptionFunc :=
  match x with
  | Endpoints_ v => WithEndpoints v
  | Username_ v => WithUsername v
  | Password_ v => WithPassword v
  | Database_ v => WithDatabase v
  | Timeout_ v => WithTimeout v
  | MaxRetries_ v => WithMaxRetries v
  | RetryDelay_ v => WithRetryDelay v
  end.

Definition pickEndpoints (x : setting) : option (list string) :=
  match x with Endpoints_ v => Some v | _ => None end.
Definition pickUsername (x : setting) : option string :=
  match x with Username_ v => Some v | _ => None end.
Definition pickPassword (x : setting) : option string :=
  match x with Password_ v => Some v | _ => None end.
Definition pickDatabase (x : setting) : option string :=
  match x with Database_ v => Some v | _ => None end.
Definition pickTimeout (x : setting) : option Z :=
  match x with Timeout_ v => Some v | _ => None end.
Definition pickMaxRetries (x : setting) : option Z :=
  match x with MaxRetries_ v => Some v | _ => None end.
Definition pickRetryDelay (x : setting) : option Z :=
  match x with RetryDelay_ v => Some v | _ => None end.

(** The value of the last setting of [xs] that names the field [pick]
    reads, and [default] when none does. *)
Definition lastSet {A : Type} (pick : setting -> option A)
  (xs : list setting) (default : A) : A :=
  match find (fun x => match pick x with Some _ => true | None => false end)
             (rev xs) with
  | Some x => match pick x with Some v => v | None => default end
  | None => default
  end.

End options.

(** [arangodb.Client], as ensureDatabase uses it; [D] is the database
    handle the driver returns. *)
Record ArangoClient (S D : Type) : Type := {
  GetDatabase : string -> S -> result D * S;
  CreateDatabase : string -> S -> result D * S
}.

Section EnsureDatabase.

Variable ArangoErrorText : Z -> Z -> string -> string.

Context {S D : Type}.

(** ensureDatabase ensures the database exists, creating it if necessary. *)
Definition ensureDatabase (client : ArangoClient S D) (dbName : string)
  (s : S) : result D * S :=
  match GetDatabase client dbName s with
  | (Ok db, s') => (Ok db, s')
  | (Err err, s') =>
      if negb (Contains (Error ArangoErrorText err) "not found")
         && negb (Contains (Error ArangoErrorText err) "404")
      then (Err (wrapError "failed to get database" err), s')
      else
        match CreateDatabase client dbName s' with
        | (Err err, s'') => (Err (wrapError "failed to create database" err), s'')
        | (Ok db, s'') => (Ok db, s'')
        end
  end.

End EnsureDatabase.

(* ------------------------------------------------------------------ *)
(** ** httpserver/httproutes *)

Module httproutes.

(** Where handleAPIRoutes sends a request. *)
Inductive route : Type :=
| HandlePersons
| HandleRelationships
| NotFound.

Definition handleAPIRoutes (path : string) : route :=
  if String.eqb path "/v1/persons" || HasPrefix path "/v1/persons/" then
    HandlePersons
  else if String.eqb path "/v1/relationships"
          || HasPrefix path "/v1/relationships/" then
    HandleRelationships
  else NotFound.

End httproutes.

(** The text with [sep] between the pieces. *)
Fixpoint Join (pieces : list string) (sep : ascii) : string :=
  match pieces with
  | [] => EmptyString
  | [piece] => piece
  | piece :: pieces' => (piece ++ String sep (Join pieces' sep))%string
  end.

(** Sample services and handlers over the in-memory store; the sample
    driver text of an error is its message. *)
Definition messageText : Z -> Z -> string -> string := fun _ _ m => m.

Definition familyService : @RelationshipService Mem.ArangoDB :=
  NewRelationshipService (RelationshipRepository Mem.relationships).

Definition familyHandler : @v1relationshipshandler.Handler Mem.ArangoDB :=
  v1relationshipshandler.NewHandler familyService.

Definition familyPersonService : @v1personservice.PersonService Mem.ArangoDB :=
  v1personservice.NewPersonService (PersonRepository Mem.persons).

(** A request body that is already the decoded request, or broken. *)
Definition noBody {A : Type} (_ : unit) : result A :=
  Err (errorString "EOF").


(* ------------------------------------------------------------------ *)
(** ** The timestamp discipline of the entities *)

Lemma Person_SetTimestamps_CreatedAt (p : Person.t) (c u : Time) :
  Person.CreatedAt (Person.SetTimestamps p c u)
  = if IsZero (Person.CreatedAt p) then c else Person.CreatedAt p.
Proof. unfold Person.SetTimestamps. now destruct (IsZero (Person.CreatedAt p)). Qed.

Lemma Person_SetTimestamps_UpdatedAt (p : Person.t) (c u : Time) :
  Person.UpdatedAt (Person.SetTimestamps p c u) = u.
Proof. reflexivity. Qed.

Lemma Person_SetTimestamps_same (p : Person.t) (c u : Time) :
  Person.sameMetadata (Person.SetTimestamps p c u) p
  /\ Person.sameData (Person.SetTimestamps p c u) p.
Proof.
  unfold Person.SetTimestamps, Person.sameMetadata, Person.sameData.
  destruct (IsZero (Person.CreatedAt p)); simpl; repeat split.
Qed.

Lemma Person_SetMetadata_same (p : Person.t) (k i v : string) :
  Person.sameData (Person.SetMetadata p k i v) p
  /\ Person.CreatedAt (Person.SetMetadata p k i v) = Person.CreatedAt p
  /\ Person.UpdatedAt (Person.SetMetadata p k i v) = Person.UpdatedAt p.
Proof. unfold Person.sameData; simpl; repeat split. Qed.

Lemma Relationship_SetTimestamps_CreatedAt (q : Relationship.t) (c u : Time) :
  Relationship.CreatedAt (Relationship.SetTimestamps q c u)
  = if IsZero (Relationship.CreatedAt q) then c else Relationship.CreatedAt q.
Proof.
  unfold Relationship.SetTimestamps.
  now destruct (IsZero (Relationship.CreatedAt q)).
Qed.

Lemma Relationship_SetTimestamps_UpdatedAt (q : Relationship.t) (c u : Time) :
  Relationship.UpdatedAt (Relationship.SetTimestamps q c u) = u.
Proof. reflexivity. Qed.

Lemma Relationship_SetTimestamps_same (q : Relationship.t) (c u : Time) :
  Relationship.sameMetadata (Relationship.SetTimestamps q c u) q
  /\ Relationship.sameData (Relationship.SetTimestamps q c u) q.
Proof.
  unfold Relationship.SetTimestamps, Relationship.sameMetadata,
    Relationship.sameData.
  destruct (IsZero (Relationship.CreatedAt q)); simpl; repeat split.
Qed.

Lemma Relationship_SetMetadata_same (q : Relationship.t) (k i v : string) :
  Relationship.sameData (Relationship.SetMetadata q k i v) q
  /\ Relationship.CreatedAt (Relationship.SetMetadata q k i v)
     = Relationship.CreatedAt q
  /\ Relationship.UpdatedAt (Relationship.SetMetadata q k i v)
     = Relationship.UpdatedAt q.
Proof. unfold Relationship.sameData; simpl; repeat split. Qed.

(* ------------------------------------------------------------------ *)
(** ** What a write leaves behind the entity pointer *)

Section WriteShape.

Context {S T : Type} `{Entity T} `{Document T}.
Variable r : BaseRepository S.

(** After Create the entity is the stamped one, with the store's triple
    when the insert went through. *)
Lemma Create_entity (now : Time) (e : T) (s : S) :
  let e1 := SetTimestamps e now now in
  fst (fst (Create r now e s)) = e1
  \/ exists k i v, fst (fst (Create r now e s)) = SetMetadata e1 k i v.
Proof.
  unfold Create.
  destruct (CreateDocument (collection r) _ s) as [[meta | err] s']; simpl.
  - right. now exists (DocumentMeta.Key meta), (DocumentMeta.ID meta),
      (DocumentMeta.Rev meta).
  - now left.
Qed.

Lemma Update_entity (now : Time) (id : string) (e : T) (s : S) :
  let e1 := SetTimestamps e (GetUpdatedAt e) now in
  fst (fst (Update r now id e s)) = e1
  \/ exists k i v, fst (fst (Update r now id e s)) = SetMetadata e1 k i v.
Proof.
  unfold Update.
  destruct (UpdateDocument (collection r) id _ s) as [[meta | err] s'];
    simpl.
  - right. now exists (DocumentMeta.Key meta), (DocumentMeta.ID meta),
      (DocumentMeta.Rev meta).
  - left. now destruct (IsNotFound err).
Qed.

Lemma Create_fails (now : Time) (e : T) (s s' : S) (err : error) :
  CreateDocument (collection r) (SetTimestamps e now now) s
  = (Err err, s') ->
  Create r now e s
  = ((SetTimestamps e now now,
      Some (wrapError "failed to create entity" err)), s').
Proof. intros Hfail. unfold Create. now rewrite Hfail. Qed.

Lemma Update_fails (now : Time) (id : string) (e : T) (s s' : S)
  (err : error) :
  UpdateDocument (collection r) id
    (SetTimestamps e (GetUpdatedAt e) now) s = (Err err, s') ->
  Update r now id e s
  = ((SetTimestamps e (GetUpdatedAt e) now,
      Some (wrapError (if IsNotFound err then "entity not found"
                       else "failed to update entity") err)), s').
Proof.
  intros Hfail. unfold Update. rewrite Hfail. now destruct (IsNotFound err).
Qed.

End WriteShape.

Section CreatedAtKept.

Context {S : Type}.
Variable r : BaseRepository S.

Lemma Person_Create_CreatedAt (now : Time) (p : Person.t) (s : S) :
  Person.CreatedAt (fst (fst (Create r now p s)))
  = if IsZero (Person.CreatedAt p) then now else Person.CreatedAt p.
Proof.
  destruct (Create_entity r now p s) as [-> | (k & i & v & ->)];
    apply Person_SetTimestamps_CreatedAt.
Qed.

Lemma Person_Update_CreatedAt (now : Time) (id : string) (p : Person.t)
  (s : S) :
  IsZero (Person.CreatedAt p) = false ->
  Person.CreatedAt (fst (fst (Update r now id p s))) = Person.CreatedAt p.
Proof.
  intros Hset.
  assert (Hst : Person.CreatedAt
                  (Person.SetTimestamps p (Person.UpdatedAt p) now)
                = Person.CreatedAt p)
    by (now rewrite Person_SetTimestamps_CreatedAt, Hset).
  destruct (Update_entity r now id p s) as [-> | (k & i & v & ->)];
    exact Hst.
Qed.

Lemma Person_Update_CreatedAt_stamped (now : Time) (id : string)
  (p : Person.t) (s : S) :
  Person.CreatedAt (fst (fst (Update r now id p s)))
  = if IsZero (Person.CreatedAt p) then Person.UpdatedAt p
    else Person.CreatedAt p.
Proof.
  destruct (Update_entity r now id p s) as [-> | (k & i & v & ->)];
    apply Person_SetTimestamps_CreatedAt.
Qed.

Lemma Person_Update_UpdatedAt (now : Time) (id : string) (p : Person.t)
  (s : S) :
  Person.UpdatedAt (fst (fst (Update r now id p s))) = now.
Proof.
  destruct (Update_entity r now id p s) as [-> | (k & i & v & ->)];
    reflexivity.
Qed.

Lemma Person_applyWrites_CreatedAt (ws : list write) :
  forall (p : Person.t) (s : S),
    IsZero (Person.CreatedAt p) = false ->
    Person.CreatedAt (fst (applyWrites r ws p s)) = Person.CreatedAt p.
Proof.
  induction ws as [| w ws IH]; intros p s Hset; [reflexivity |].
  simpl.
  assert (Hstep : Person.CreatedAt (fst (fst (applyWrite r w p s)))
                  = Person.CreatedAt p).
  { destruct w as [now | now id]; simpl.
    - now rewrite Person_Create_CreatedAt, Hset.
    - now apply Person_Update_CreatedAt. }
  destruct (applyWrite r w p s) as [[p' e] s']; simpl in Hstep.
  rewrite IH; [exact Hstep | now rewrite Hstep].
Qed.

Lemma Relationship_Create_CreatedAt (now : Time) (q : Relationship.t)
  (s : S) :
  Relationship.CreatedAt (fst (fst (Create r now q s)))
  = if IsZero (Relationship.CreatedAt q) then now
    else Relationship.CreatedAt q.
Proof.
  destruct (Create_entity r now q s) as [-> | (k & i & v & ->)];
    apply Relationship_SetTimestamps_CreatedAt.
Qed.

Lemma Relationship_Update_CreatedAt (now : Time) (id : string)
  (q : Relationship.t) (s : S) :
  IsZero (Relationship.CreatedAt q) = false ->
  Relationship.CreatedAt (fst (fst (Update r now id q s)))
  = Relationship.CreatedAt q.
Proof.
  intros Hset.
  assert (Hst : Relationship.CreatedAt
                  (Relationship.SetTimestamps q (Relationship.UpdatedAt q)
                     now)
                = Relationship.CreatedAt q)
    by (now rewrite Relationship_SetTimestamps_CreatedAt, Hset).
  destruct (Update_entity r now id q s) as [-> | (k & i & v & ->)];
    exact Hst.
Qed.

Lemma Relationship_Update_CreatedAt_stamped (now : Time) (id : string)
  (q : Relationship.t) (s : S) :
  Relationship.CreatedAt (fst (fst (Update r now id q s)))
  = if IsZero (Relationship.CreatedAt q) then Relationship.UpdatedAt q
    else Relationship.CreatedAt q.
Proof.
  destruct (Update_entity r now id q s) as [-> | (k & i & v & ->)];
    apply Relationship_SetTimestamps_CreatedAt.
Qed.

Lemma Relationship_Update_UpdatedAt (now : Time) (id : string)
  (q : Relationship.t) (s : S) :
  Relationship.UpdatedAt (fst (fst (Update r now id q s))) = now.
Proof.
  destruct (Update_entity r now id q s) as [-> | (k & i & v & ->)];
    reflexivity.
Qed.

Lemma Relationship_applyWrites_CreatedAt (ws : list write) :
  forall (q : Relationship.t) (s : S),
    IsZero (Relationship.CreatedAt q) = false ->
    Relationship.CreatedAt (fst (applyWrites r ws q s))
    = Relationship.CreatedAt q.
Proof.
  induction ws as [| w ws IH]; intros q s Hset; [reflexivity |].
  simpl.
  assert (Hstep : Relationship.CreatedAt (fst (fst (applyWrite r w q s)))
                  = Relationship.CreatedAt q).
  { destruct w as [now | now id]; simpl.
    - now rewrite Relationship_Create_CreatedAt, Hset.
    - now apply Relationship_Update_CreatedAt. }
  destruct (applyWrite r w q s) as [[q' e] s']; simpl in Hstep.
  rewrite IH; [exact Hstep | now rewrite Hstep].
Qed.

End CreatedAtKept.

(* ------------------------------------------------------------------ *)
(** ** Failing writes *)

(** C2 (as amended).  When the store insert issued by Create fails, Create
    returns the store's error wrapped as "failed to create entity" and the
    store state the driver left; the identity metadata triple and every
    data field of the entity are as before the call, while the timestamps
    are already stamped: updatedAt holds the clock reading, createdAt holds
    it when it was unset.  When the store update issued by Update fails,
    Update returns the store's error wrapped as "entity not found" or
    "failed to update entity"; the triple and the data fields are as before,
    updatedAt holds the clock reading, and createdAt, when it was unset,
    holds the previous updatedAt. *)
Theorem failed_write_keeps_identity_and_data :
  forall (S : Type) (r : BaseRepository S) (s : S) (now : Time) (id : string)
         (p : Person.t) (q : Relationship.t),
    (forall err s',
        CreateDocument (collection r)
          (SetTimestamps p now now) s = (Err err, s') ->
        exists p',
          Create r now p s
          = ((p', Some (wrapError "failed to create entity" err)), s')
          /\ Person.sameMetadata p' p /\ Person.sameData p' p
          /\ Person.UpdatedAt p' = now
          /\ Person.CreatedAt p'
             = (if IsZero (Person.CreatedAt p) then now
                else Person.CreatedAt p))
    /\ (forall err s',
        UpdateDocument (collection r) id
          (SetTimestamps p (GetUpdatedAt p) now) s = (Err err, s') ->
        exists p',
          Update r now id p s
          = ((p', Some (wrapError (if IsNotFound err then "entity not found"
                                   else "failed to update entity") err)), s')
          /\ Person.sameMetadata p' p /\ Person.sameData p' p
          /\ Person.UpdatedAt p' = now
          /\ Person.CreatedAt p'
             = (if IsZero (Person.CreatedAt p) then Person.UpdatedAt p
                else Person.CreatedAt p))
    /\ (forall err s',
        CreateDocument (collection r)
          (SetTimestamps q now now) s = (Err err, s') ->
        exists q',
          Create r now q s
          = ((q', Some (wrapError "failed to create entity" err)), s')
          /\ Relationship.sameMetadata q' q /\ Relationship.sameData q' q
          /\ Relationship.UpdatedAt q' = now
          /\ Relationship.CreatedAt q'
             = (if IsZero (Relationship.CreatedAt q) then now
                else Relationship.CreatedAt q))
    /\ (forall err s',
        UpdateDocument (collection r) id
          (SetTimestamps q (GetUpdatedAt q) now) s = (Err err, s') ->
        exists q',
          Update r now id q s
          = ((q', Some (wrapError (if IsNotFound err then "entity not found"
                                   else "failed to update entity") err)), s')
          /\ Relationship.sameMetadata q' q /\ Relationship.sameData q' q
          /\ Relationship.UpdatedAt q' = now
          /\ Relationship.CreatedAt q'
             = (if IsZero (Relationship.CreatedAt q)
                then Relationship.UpdatedAt q
                else Relationship.CreatedAt q)).
Proof.
  intros S r s now id p q. repeat split; intros err s' Hfail.
  - exists (Person.SetTimestamps p now now).
    split; [exact (Create_fails r now p s Hfail) |].
    split; [apply Person_SetTimestamps_same |].
    split; [apply Person_SetTimestamps_same |].
    split; [reflexivity | apply Person_SetTimestamps_CreatedAt].
  - exists (Person.SetTimestamps p (Person.UpdatedAt p) now).
    split; [exact (Update_fails r now id p s Hfail) |].
    split; [apply Person_SetTimestamps_same |].
    split; [apply Person_SetTimestamps_same |].
    split; [reflexivity | apply Person_SetTimestamps_CreatedAt].
  - exists (Relationship.SetTimestamps q now now).
    split; [exact (Create_fails r now q s Hfail) |].
    split; [apply Relationship_SetTimestamps_same |].
    split; [apply Relationship_SetTimestamps_same |].
    split; [reflexivity | apply Relationship_SetTimestamps_CreatedAt].
  - exists (Relationship.SetTimestamps q (Relationship.UpdatedAt q) now).
    split; [exact (Update_fails r now id q s Hfail) |].
    split; [apply Relationship_SetTimestamps_same |].
    split; [apply Relationship_SetTimestamps_same |].
    split; [reflexivity | apply Relationship_SetTimestamps_CreatedAt].
Qed.

(** The store has no collection yet: the insert of Ada and the update of
    the relationship both fail with "collection or view not found". *)
Lemma failed_write_keeps_identity_and_data_witness :
  (exists p',
      Create Mem.persons 1000%Z ada Mem.empty
      = ((p', Some (wrapError "failed to create entity"
                      Mem.ErrDataSourceNotFound)), Mem.empty)
      /\ Person.sameMetadata p' ada /\ Person.UpdatedAt p' = 1000%Z)
  /\ (exists q',
      Update Mem.persons 1000%Z "7" siblings Mem.empty
      = ((q', Some (wrapError "entity not found"
                      Mem.ErrDataSourceNotFound)), Mem.empty)
      /\ Relationship.sameData q' siblings).
Proof.
  destruct (failed_write_keeps_identity_and_data
              Mem.persons Mem.empty 1000%Z "7" ada siblings)
    as (Hc & _ & _ & Hu).
  split.
  - destruct (Hc Mem.ErrDataSourceNotFound Mem.empty eq_refl)
      as (p' & Hrun & Hmeta & _ & Hupd & _).
    exists p'. split; [exact Hrun |]. split; [exact Hmeta | exact Hupd].
  - destruct (Hu Mem.ErrDataSourceNotFound Mem.empty eq_refl)
      as (q' & Hrun & _ & Hdata & _).
    exists q'. split; [exact Hrun | exact Hdata].
Defined.

(** C2, the claim as written fails: the insert of Ada fails, and the entity
    behind the pointer is no longer the one passed in. *)
Lemma failed_create_leaves_timestamps_stamped :
  let '((p', err), _) := Create Mem.persons 1000%Z ada Mem.empty in
  err = Some (wrapError "failed to create entity" Mem.ErrDataSourceNotFound)
  /\ p' <> ada
  /\ Person.CreatedAt ada = 0%Z /\ Person.CreatedAt p' = 1000%Z
  /\ Person.UpdatedAt ada = 0%Z /\ Person.UpdatedAt p' = 1000%Z.
Proof.
  vm_compute. repeat split; discriminate.
Qed.

(* ------------------------------------------------------------------ *)
(** ** Encoding and decoding the entities *)

Lemma attr_stringAttr (o : Object) (name s : string) :
  attr o name = Some (VString s) -> Mem.stringAttr o name = s.
Proof. unfold Mem.stringAttr. now intros ->. Qed.

Ltac split_omitempty :=
  unfold omitempty;
  repeat match goal with
    | |- context [String.eqb ?s ""] =>
        destruct (String.eqb_spec s ""); try subst s
    end.

Lemma jsonString_empty (s : string) : jsonString s = "" <-> s = "".
Proof.
  split; [| now intros ->].
  destruct s as [| c s]; [reflexivity |].
  unfold jsonString. cbn [jsonStringFrom].
  destruct (N_of_ascii c <? 128)%N; [discriminate |].
  destruct (runeWidth (String c s)); discriminate.
Qed.

Lemma Person_Marshal_Ok (p : Person.t) (o : Object) :
  Person.Marshal p = Ok o ->
  Person.encodable p = true /\ o = Person.document (Person.written p).
Proof.
  unfold Person.Marshal. destruct (Person.encodable p); [| discriminate].
  now intros [= <-].
Qed.

Lemma Relationship_Marshal_Ok (q : Relationship.t) (o : Object) :
  Relationship.Marshal q = Ok o ->
  Relationship.encodable q = true
  /\ o = Relationship.document (Relationship.written q).
Proof.
  unfold Relationship.Marshal.
  destruct (Relationship.encodable q); [| discriminate].
  now intros [= <-].
Qed.

Lemma Person_Marshal_Err (p : Person.t) (err : error) :
  Person.Marshal p = Err err ->
  Person.encodable p = false /\ err = MarshalerError.
Proof.
  unfold Person.Marshal. destruct (Person.encodable p); [discriminate |].
  now intros [= <-].
Qed.

Lemma Relationship_Marshal_Err (q : Relationship.t) (err : error) :
  Relationship.Marshal q = Err err ->
  Relationship.encodable q = false /\ err = MarshalerError.
Proof.
  unfold Relationship.Marshal.
  destruct (Relationship.encodable q); [discriminate |].
  now intros [= <-].
Qed.

Lemma Person_Unmarshal_stamp (p : Person.t) (meta : DocumentMeta.t) :
  Person.Unmarshal (Mem.stamp (Person.document p) meta)
  = Some (Person.SetMetadata p (DocumentMeta.Key meta) (DocumentMeta.ID meta)
            (DocumentMeta.Rev meta)).
Proof.
  destruct p as [k i v fn ln bd dd g e ph c u], meta as [mk mi mv].
  unfold Person.document, Person.SetMetadata; simpl.
  split_omitempty; reflexivity.
Qed.

Lemma Person_Unmarshal_document (p : Person.t) :
  Person.Unmarshal (Person.document p) = Some p.
Proof.
  destruct p as [k i v fn ln bd dd g e ph c u].
  unfold Person.document; simpl.
  split_omitempty; reflexivity.
Qed.

Lemma Person_Unmarshal_sameObject (a b : Object) :
  sameObject a b -> Person.Unmarshal a = Person.Unmarshal b.
Proof.
  intros Hab. unfold Person.Unmarshal, getString, getTime.
  now repeat rewrite (Hab _).
Qed.

Lemma Relationship_Unmarshal_stamp (q : Relationship.t)
  (meta : DocumentMeta.t) :
  Relationship.Unmarshal (Mem.stamp (Relationship.document q) meta)
  = Some (Relationship.SetMetadata q (DocumentMeta.Key meta)
            (DocumentMeta.ID meta) (DocumentMeta.Rev meta)).
Proof.
  destruct q as [k i v f t rt sd ed n c u], meta as [mk mi mv].
  unfold Relationship.document, Relationship.SetMetadata; simpl.
  split_omitempty; reflexivity.
Qed.

Lemma Relationship_Unmarshal_document (q : Relationship.t) :
  Relationship.Unmarshal (Relationship.document q) = Some q.
Proof.
  destruct q as [k i v f t rt sd ed n c u].
  unfold Relationship.document; simpl.
  split_omitempty; reflexivity.
Qed.

Lemma Relationship_Unmarshal_sameObject (a b : Object) :
  sameObject a b -> Relationship.Unmarshal a = Relationship.Unmarshal b.
Proof.
  intros Hab. unfold Relationship.Unmarshal, getString, getTime.
  now repeat rewrite (Hab _).
Qed.

(** The document of an entity never carries an empty [_key]. *)
Lemma Person_document_key (p : Person.t) :
  attr (Person.document p) "_key" <> Some (VString "").
Proof.
  destruct p as [k i v fn ln bd dd g e ph c u].
  unfold Person.document; simpl.
  split_omitempty; simpl; congruence.
Qed.

Lemma Relationship_document_key (q : Relationship.t) :
  attr (Relationship.document q) "_key" <> Some (VString "").
Proof.
  destruct q as [k i v f t rt sd ed n c u].
  unfold Relationship.document; simpl.
  split_omitempty; simpl; congruence.
Qed.

(** An entity whose data strings the encoder leaves as they are is read
    back as it was written. *)
Lemma Person_read_back (p : Person.t) (now : Time) (k i v : string) :
  Person.sameData (Person.written p) p ->
  Person.SetMetadata
    (Person.written (Person.SetMetadata (Person.SetTimestamps p now now) k i v))
    k i v
  = Person.SetMetadata (Person.SetTimestamps p now now) k i v.
Proof.
  destruct p as [k0 i0 v0 fn ln bd dd g e ph c u].
  unfold Person.sameData, Person.written, Person.SetMetadata,
    Person.SetTimestamps, Person.setCreatedAt, Person.setUpdatedAt.
  intros (Hfn & Hln & _ & _ & Hg & He & Hph).
  destruct (IsZero _); f_equal; assumption.
Qed.

Lemma Relationship_read_back (q : Relationship.t) (now : Time)
  (k i v : string) :
  Relationship.sameData (Relationship.written q) q ->
  Relationship.SetMetadata
    (Relationship.written
       (Relationship.SetMetadata (Relationship.SetTimestamps q now now) k i v))
    k i v
  = Relationship.SetMetadata (Relationship.SetTimestamps q now now) k i v.
Proof.
  destruct q as [k0 i0 v0 f t rt sd ed n c u].
  unfold Relationship.sameData, Relationship.written,
    Relationship.SetMetadata, Relationship.SetTimestamps,
    Relationship.setCreatedAt, Relationship.setUpdatedAt.
  intros (Hf & Ht & Hrt & _ & _ & Hn).
  destruct (IsZero _); f_equal; assumption.
Qed.

(* ------------------------------------------------------------------ *)
(** ** The in-memory store *)

Lemma lookup_replace (name : string) (c c' : Mem.Coll)
  (cs : list (string * Mem.Coll)) :
  Mem.lookup name cs = Some c ->
  Mem.lookup name (Mem.replace name c' cs) = Some c'.
Proof.
  induction cs as [| [n c0] cs IH]; simpl; [discriminate |].
  destruct (String.eqb n name) eqn:En; simpl; rewrite En; auto.
Qed.

Lemma fresh_nonempty (n : nat) : Mem.fresh n <> "".
Proof.
  unfold Mem.fresh, NilZero.string_of_uint.
  destruct (Nat.to_uint n); simpl; discriminate.
Qed.

Lemma append_nonempty (a b : string) : b <> "" -> (a ++ b)%string <> "".
Proof.
  destruct a; simpl; [auto | discriminate].
Qed.

Section CreateThenGet.

Context {T : Type} `{Entity T} `{Document T}.

(** The entity as its encoder writes it. *)
Variable written : T -> T.

Hypothesis Marshal_written :
  forall (e : T) (o : Object), Marshal e = Ok o -> o = document (written e).

Hypothesis Unmarshal_stamp :
  forall (e : T) (meta : DocumentMeta.t),
    Unmarshal (Mem.stamp (document e) meta)
    = Some (SetMetadata e (DocumentMeta.Key meta) (DocumentMeta.ID meta)
              (DocumentMeta.Rev meta)).

Hypothesis document_key :
  forall e : T, attr (document e) "_key" <> Some (VString "").

Variable name : string.

(** A successful Create leaves the stamped entity with a populated triple,
    and reading the returned key decodes the stored document to the entity
    as it was written, under the same triple. *)
Lemma Create_then_GetByID (now : Time) (e e' : T) (db db' : Mem.ArangoDB) :
  Create (NewBaseRepository Mem.database (Mem.getCollection name) name)
    now e db = ((e', None), db') ->
  exists meta,
    e' = SetMetadata (SetTimestamps e now now) (DocumentMeta.Key meta)
           (DocumentMeta.ID meta) (DocumentMeta.Rev meta)
    /\ DocumentMeta.Key meta <> "" /\ DocumentMeta.ID meta <> ""
    /\ DocumentMeta.Rev meta <> ""
    /\ GetByID (NewBaseRepository Mem.database (Mem.getCollection name) name)
         (DocumentMeta.Key meta) db'
       = (Ok (SetMetadata (SetMetadata (written (SetTimestamps e now now))
                             (DocumentMeta.Key meta) (DocumentMeta.ID meta)
                             (DocumentMeta.Rev meta))
                (DocumentMeta.Key meta) (DocumentMeta.ID meta)
                (DocumentMeta.Rev meta)), db').
Proof.
  unfold Create, GetByID; simpl.
  unfold Mem.createDocument, Mem.readDocument.
  set (e1 := SetTimestamps e now now).
  destruct (Marshal e1) as [o | err] eqn:Hm; [| discriminate].
  apply Marshal_written in Hm. subst o. unfold Mem.insertDocument.
  destruct (Mem.lookup name (Mem.collections db)) as [c |] eqn:Hc;
    [| discriminate].
  set (key := match attr (document (written e1)) "_key" with
              | Some (VString k) => k
              | _ => Mem.fresh (Datatypes.S (Mem.tick db))
              end).
  assert (Hkey : key <> "").
  { subst key. pose proof (document_key (written e1)) as Hk.
    destruct (attr (document (written e1)) "_key") as [[| b | k | t] |];
      try apply fresh_nonempty.
    intros ->. now apply Hk. }
  destruct (Mem.findDoc key (Mem.documents c)); [discriminate |].
  intros Heq. injection Heq as <- <-.
  exists (DocumentMeta.mk key (name ++ "/" ++ key)%string
            (Mem.fresh (Datatypes.S (Mem.tick db)))).
  split; [reflexivity |]. simpl.
  split; [exact Hkey |].
  split; [apply append_nonempty; discriminate |].
  split; [apply fresh_nonempty |].
  erewrite lookup_replace by exact Hc. simpl.
  unfold Mem.stringAttr at 1; simpl. rewrite String.eqb_refl.
  unfold decode. rewrite Unmarshal_stamp. reflexivity.
Qed.

End CreateThenGet.

(* ------------------------------------------------------------------ *)
(** ** Create followed by GetByID *)

(** C3 (as amended).  For a Person, and for a Relationship, whose createdAt
    is unset, on the in-memory store: after a successful Create, GetByID on
    the key Create returned yields the entity Create left behind the
    pointer with every data string as the encoder wrote it, that is, with
    U+FFFD for every byte that is not valid UTF-8; when the data strings of
    the input are valid UTF-8 it yields exactly the entity Create left
    behind the pointer.  That entity has the data fields of the input, a
    populated identity triple (key, id and revision all non-empty), and
    createdAt equal to updatedAt. *)
Theorem create_then_get_returns_stored_entity :
  (forall (now : Time) (p p' : Person.t) (db db' : Mem.ArangoDB),
      IsZero (Person.CreatedAt p) = true ->
      Create Mem.persons now p db = ((p', None), db') ->
      GetByID Mem.persons (Person.Key p') db'
      = (Ok (Person.SetMetadata (Person.written p') (Person.Key p')
               (Person.ID p') (Person.Rev p')), db')
      /\ (Person.sameData (Person.written p) p ->
          GetByID Mem.persons (Person.Key p') db' = (Ok p', db'))
      /\ Person.sameData p' p
      /\ Person.Key p' <> "" /\ Person.ID p' <> "" /\ Person.Rev p' <> ""
      /\ Person.CreatedAt p' = Person.UpdatedAt p')
  /\
  (forall (now : Time) (q q' : Relationship.t) (db db' : Mem.ArangoDB),
      IsZero (Relationship.CreatedAt q) = true ->
      Create Mem.relationships now q db = ((q', None), db') ->
      GetByID Mem.relationships (Relationship.Key q') db'
      = (Ok (Relationship.SetMetadata (Relationship.written q')
               (Relationship.Key q') (Relationship.ID q')
               (Relationship.Rev q')), db')
      /\ (Relationship.sameData (Relationship.written q) q ->
          GetByID Mem.relationships (Relationship.Key q') db' = (Ok q', db'))
      /\ Relationship.sameData q' q
      /\ Relationship.Key q' <> "" /\ Relationship.ID q' <> ""
      /\ Relationship.Rev q' <> ""
      /\ Relationship.CreatedAt q' = Relationship.UpdatedAt q').
Proof.
  split.
  - intros now p p' db db' Hp Hcp.
    destruct (@Create_then_GetByID Person.t Person_Entity Person_Document
                Person.written
                (fun e o Hm => proj2 (Person_Marshal_Ok e Hm))
                Person_Unmarshal_stamp Person_document_key
                "persons" now p p' db db' Hcp)
      as (meta & -> & Hk & Hi & Hv & Hget).
    assert (Hfetched :
              GetByID Mem.persons (DocumentMeta.Key meta) db'
              = (Ok (Person.SetMetadata
                       (Person.written
                          (Person.SetMetadata (Person.SetTimestamps p now now)
                             (DocumentMeta.Key meta) (DocumentMeta.ID meta)
                             (DocumentMeta.Rev meta)))
                       (DocumentMeta.Key meta) (DocumentMeta.ID meta)
                       (DocumentMeta.Rev meta)), db'))
      by exact Hget.
    split; [exact Hfetched |].
    split.
    { intros Hsame. etransitivity; [exact Hfetched |].
      now rewrite (@Person_read_back p now _ _ _ Hsame). }
    split; [exact (proj2 (Person_SetTimestamps_same p now now)) |].
    split; [exact Hk |]. split; [exact Hi |]. split; [exact Hv |].
    change (Person.CreatedAt (Person.SetTimestamps p now now) = now).
    now rewrite Person_SetTimestamps_CreatedAt, Hp.
  - intros now q q' db db' Hq Hcq.
    destruct (@Create_then_GetByID Relationship.t Relationship_Entity
                Relationship_Document Relationship.written
                (fun e o Hm => proj2 (Relationship_Marshal_Ok e Hm))
                Relationship_Unmarshal_stamp Relationship_document_key
                "relationships" now q q' db db' Hcq)
      as (meta & -> & Hk & Hi & Hv & Hget).
    assert (Hfetched :
              GetByID Mem.relationships (DocumentMeta.Key meta) db'
              = (Ok (Relationship.SetMetadata
                       (Relationship.written
                          (Relationship.SetMetadata
                             (Relationship.SetTimestamps q now now)
                             (DocumentMeta.Key meta) (DocumentMeta.ID meta)
                             (DocumentMeta.Rev meta)))
                       (DocumentMeta.Key meta) (DocumentMeta.ID meta)
                       (DocumentMeta.Rev meta)), db'))
      by exact Hget.
    split; [exact Hfetched |].
    split.
    { intros Hsame. etransitivity; [exact Hfetched |].
      now rewrite (@Relationship_read_back q now _ _ _ Hsame). }
    split; [exact (proj2 (Relationship_SetTimestamps_same q now now)) |].
    split; [exact Hk |]. split; [exact Hi |]. split; [exact Hv |].
    change (Relationship.CreatedAt (Relationship.SetTimestamps q now now)
            = now).
    now rewrite Relationship_SetTimestamps_CreatedAt, Hq.
Qed.

(** Ada is created in the bootstrapped store at reading 1000 and read back
    as she was left; with a first name holding the byte 0xFF she is read
    back with U+FFFD in its place.  The sibling relationship is created in
    a store that holds a relationships collection only. *)
Lemma create_then_get_returns_stored_entity_witness :
  (let '((p', _), dbp) := Create Mem.persons 1000%Z ada bootstrapped in
   GetByID Mem.persons (Person.Key p') dbp = (Ok p', dbp)
   /\ Person.CreatedAt p' = Person.UpdatedAt p')
  /\ (let '((p', _), dbp) :=
        Create Mem.persons 1000%Z adaMisencoded bootstrapped in
      exists fetched,
        GetByID Mem.persons (Person.Key p') dbp = (Ok fetched, dbp)
        /\ Person.FirstName p' = String "A" (String "d" (String "255" "a"))
        /\ Person.FirstName fetched
           = String "A" (String "d" (replacementChar ++ "a")))
  /\ (let '((q', _), dbq) :=
        Create Mem.relationships 1000%Z siblings edgesOnly in
      GetByID Mem.relationships (Relationship.Key q') dbq = (Ok q', dbq)
      /\ Relationship.sameData q' siblings).
Proof.
  destruct create_then_get_returns_stored_entity as [Hperson Hrel].
  split; [| split].
  - destruct (Create Mem.persons 1000%Z ada bootstrapped)
      as [[p' ep] dbp] eqn:Hcp.
    assert (Hep : ep = None) by (vm_compute in Hcp; congruence).
    subst ep.
    destruct (Hperson 1000%Z ada p' bootstrapped dbp eq_refl Hcp)
      as (_ & Hsame & _ & _ & _ & _ & Ht).
    split; [apply Hsame; repeat split | exact Ht].
  - destruct (Create Mem.persons 1000%Z adaMisencoded bootstrapped)
      as [[p' ep] dbp] eqn:Hcp.
    assert (Hep : ep = None) by (vm_compute in Hcp; congruence).
    subst ep.
    destruct (Hperson 1000%Z adaMisencoded p' bootstrapped dbp eq_refl Hcp)
      as (Hget & _).
    eexists. split; [exact Hget |].
    vm_compute in Hcp. injection Hcp as <- _. split; reflexivity.
  - destruct (Create Mem.relationships 1000%Z siblings edgesOnly)
      as [[q' eq] dbq] eqn:Hcq.
    assert (Heq : eq = None) by (vm_compute in Hcq; congruence).
    subst eq.
    destruct (Hrel 1000%Z siblings q' edgesOnly dbq eq_refl Hcq)
      as (_ & Hsame & Hdata & _).
    split; [apply Hsame; repeat split | exact Hdata].
Defined.

(** C3, the claim as written fails: a Person with both names present but a
    createdAt already set is created at reading 1000 and read back; the
    entity returned has createdAt 500 and updatedAt 1000. *)
Lemma create_keeps_a_createdAt_already_set :
  let '((p', err), db') := Create Mem.persons 1000%Z adaImported bootstrapped in
  err = None
  /\ asciiTrimSpace (Person.FirstName adaImported) <> ""
  /\ asciiTrimSpace (Person.LastName adaImported) <> ""
  /\ match GetByID Mem.persons (Person.Key p') db' with
     | (Ok fetched, _) =>
         Person.CreatedAt fetched = 500%Z
         /\ Person.UpdatedAt fetched = 1000%Z
         /\ Person.CreatedAt fetched <> Person.UpdatedAt fetched
     | (Err _, _) => False
     end.
Proof.
  vm_compute. repeat split; discriminate.
Qed.

(* ------------------------------------------------------------------ *)
(** ** Running a lookup query on the in-memory store *)

Lemma elements_collect {T : Type} (l : list T) : elements (collect l) = l.
Proof. now destruct l. Qed.

Lemma eval_sameObject (v : string) (binds : BindVars) (a b : Object)
  (e : AQL.Expr) :
  sameObject a b -> Mem.eval v a binds e = Mem.eval v b binds e.
Proof.
  intros Hab. induction e as [var name | name | s | x IHx y IHy
                             | x IHx y IHy | x IHx y IHy]; simpl.
  - now rewrite (Hab name).
  - reflexivity.
  - reflexivity.
  - now rewrite IHx, IHy.
  - now rewrite IHx, IHy.
  - now rewrite IHx, IHy.
Qed.

Lemma keeps_sameObject (q : AQL.Query) (binds : BindVars) (a b : Object) :
  sameObject a b -> Mem.keeps q binds a = Mem.keeps q binds b.
Proof.
  intros Hab. unfold Mem.keeps.
  destruct (AQL.filterExpr q); [| reflexivity].
  now rewrite (eval_sameObject _ _ _ Hab).
Qed.

Section Lookups.

Context {T : Type} `{Document T}.

Hypothesis Unmarshal_sameObject :
  forall a b : Object, sameObject a b -> Unmarshal a = Unmarshal b.

Hypothesis Unmarshal_document : forall e : T, Unmarshal (document e) = Some e.

(** The read loop over a cursor whose documents all decode. *)
Lemma readAll_decoded (msg : string) (docs : list Object) :
  forall (es : list T) (acc : slice T),
    Forall2 (fun d e => Unmarshal d = Some e) docs es ->
    readAll msg (map (@Ok Object) docs) acc
    = Ok (match es with
          | [] => acc
          | _ :: _ => mk_slice (elements acc ++ es)
          end).
Proof.
  intros es acc Hall. revert acc.
  induction Hall as [| d e docs es Hd Hrest IH]; intros acc.
  - reflexivity.
  - simpl. unfold decode. rewrite Hd, IH. f_equal.
    destruct es; simpl; [reflexivity |].
    now rewrite <- app_assoc.
Qed.

Variable q : AQL.Query.
Variable binds : BindVars.
Variable keep : T -> bool.

Hypothesis keeps_stored :
  forall e : T, Mem.keeps q binds (document e) = Some (keep e).

Lemma select_stores (docs : list Object) (es : list T) :
  stores docs es ->
  exists kept,
    Mem.select q binds docs = Some kept
    /\ Forall2 (fun d e => Unmarshal d = Some e) kept (filter keep es).
Proof.
  induction 1 as [| d e docs es Hde Hrest IH]; simpl.
  - exists []. split; [reflexivity | constructor].
  - destruct IH as (kept & Hsel & Hdec).
    rewrite (keeps_sameObject q binds Hde), keeps_stored, Hsel.
    assert (Hd : Unmarshal d = Some e)
      by (now rewrite (Unmarshal_sameObject Hde)).
    destruct (keep e).
    + exists (d :: kept). split; [reflexivity | now constructor].
    + exists kept. now split.
Qed.

(** A lookup query on a collection holding the stored forms of [es]
    returns, decoded, the entities the filter keeps, in stored order. *)
Lemma lookup_stores (msg : string) (db : Mem.ArangoDB) (c : Mem.Coll)
  (es : list T) :
  AQL.returnVar q = AQL.forVar q ->
  Mem.lookup (AQL.inCollection q) (Mem.collections db) = Some c ->
  stores (Mem.documents c) es ->
  exists cursor,
    Mem.query q binds db = (Ok cursor, db)
    /\ readAll msg cursor nil_slice = Ok (collect (filter keep es)).
Proof.
  intros Hret Hc Hst. unfold Mem.query. rewrite Hc, Hret, String.eqb_refl.
  simpl. destruct (select_stores Hst) as (kept & -> & Hdec).
  eexists. split; [reflexivity |].
  rewrite (readAll_decoded msg nil_slice Hdec). unfold collect.
  now destruct (filter keep es).
Qed.

End Lookups.

Lemma Relationship_attrs (r : Relationship.t) :
  attr (Relationship.document r) "_from"
  = Some (VString (Relationship.From r))
  /\ attr (Relationship.document r) "_to" = Some (VString (Relationship.To r))
  /\ attr (Relationship.document r) "relationType"
     = Some (VString (Relationship.RelationType r)).
Proof.
  destruct r as [k i v f t rt sd ed n c u].
  unfold Relationship.document; simpl.
  split_omitempty; simpl; repeat split.
Qed.


Lemma findByPerson_keeps (personID : string) (r : Relationship.t) :
  Mem.keeps findByPersonQuery [("personID", VString personID)]
    (Relationship.document r)
  = Some (String.eqb (Relationship.From r) personID
          || String.eqb (Relationship.To r) personID).
Proof.
  destruct (Relationship_attrs r) as (Hf & Ht & _).
  unfold Mem.keeps; simpl. rewrite Hf, Ht; simpl.
  now destruct (String.eqb (Relationship.From r) personID).
Qed.

Lemma findByType_keeps (relationType : string) (r : Relationship.t) :
  Mem.keeps findByTypeQuery [("relationType", VString relationType)]
    (Relationship.document r)
  = Some (String.eqb (Relationship.RelationType r) relationType).
Proof.
  destruct (Relationship_attrs r) as (_ & _ & Ht).
  unfold Mem.keeps; simpl. now rewrite Ht.
Qed.


(** The three lookups on a collection holding the stored forms of the
    given entities. *)
Lemma FindByPerson_stores (db : Mem.ArangoDB) (c : Mem.Coll)
  (rs : list Relationship.t) (personID : string) :
  Mem.lookup "relationships" (Mem.collections db) = Some c ->
  stores (Mem.documents c) rs ->
  FindByPerson Mem.relationships personID db
  = (Ok (collect (filter (fun r =>
                            String.eqb (Relationship.From r) personID
                            || String.eqb (Relationship.To r) personID) rs)),
     db).
Proof.
  intros Hc Hst. unfold FindByPerson; simpl.
  destruct (@lookup_stores Relationship.t Relationship_Document
              Relationship_Unmarshal_sameObject Relationship_Unmarshal_document
              findByPersonQuery [("personID", VString personID)] _
              (findByPerson_keeps personID) "failed to read relationship"
              db c rs eq_refl Hc Hst) as (cursor & -> & ->).
  reflexivity.
Qed.

Lemma FindByType_stores (db : Mem.ArangoDB) (c : Mem.Coll)
  (rs : list Relationship.t) (relationType : string) :
  Mem.lookup "relationships" (Mem.collections db) = Some c ->
  stores (Mem.documents c) rs ->
  FindByType Mem.relationships relationType db
  = (Ok (collect (filter (fun r =>
                            String.eqb (Relationship.RelationType r)
                                       relationType) rs)), db).
Proof.
  intros Hc Hst. unfold FindByType; simpl.
  destruct (@lookup_stores Relationship.t Relationship_Document
              Relationship_Unmarshal_sameObject Relationship_Unmarshal_document
              findByTypeQuery [("relationType", VString relationType)] _
              (findByType_keeps relationType) "failed to read relationship"
              db c rs eq_refl Hc Hst) as (cursor & -> & ->).
  reflexivity.
Qed.


(** The sample store holds the stored forms of the sample entities. *)
Lemma family_persons :
  Mem.lookup "persons" (Mem.collections family) = Some familyPersons
  /\ stores (Mem.documents familyPersons) [charlesStored; adaStored].
Proof.
  split; [reflexivity |].
  repeat constructor; intros name; reflexivity.
Qed.

Lemma family_relationships :
  Mem.lookup "relationships" (Mem.collections family)
  = Some familyRelationships
  /\ stores (Mem.documents familyRelationships)
       [untypedStored; siblingsStored].
Proof.
  split; [reflexivity |].
  repeat constructor; intros name; reflexivity.
Qed.

Lemma attr_cons (k : string) (v : Value) (o : Object) (name : string) :
  attr ((k, v) :: o) name = if String.eqb k name then Some v else attr o name.
Proof. reflexivity. Qed.

Lemma attr_omitempty (n s : string) (o : Object) (name : string) :
  attr (omitempty n s ++ o) name
  = if negb (String.eqb s "") && String.eqb n name then Some (VString s)
    else attr o name.
Proof.
  unfold omitempty. destruct (String.eqb s ""); [reflexivity |].
  cbn [app negb andb]. apply attr_cons.
Qed.

(* ------------------------------------------------------------------ *)
(** ** The lookups *)

Lemma filter_map {A B : Type} (f : B -> bool) (g : A -> B) (l : list A) :
  filter f (map g l) = map g (filter (fun a => f (g a)) l).
Proof.
  induction l as [| a l IH]; simpl; [reflexivity |].
  rewrite IH. now destruct (f (g a)).
Qed.

(** C5.  On a relationships collection holding the stored forms of [rs],
    FindByPerson succeeds and returns, in stored order, the relationships
    whose from endpoint or whose to endpoint is the given id: a relationship
    is returned exactly when it is stored and the id is one of its two
    endpoints, so none is returned in which the id is neither; and on a
    collection that stores every edge in the other direction the same
    edges are found. *)
Theorem FindByPerson_returns_incident_relationships :
  forall (db : Mem.ArangoDB) (c : Mem.Coll) (rs : list Relationship.t)
         (personID : string),
    Mem.lookup "relationships" (Mem.collections db) = Some c ->
    stores (Mem.documents c) rs ->
    exists found,
      FindByPerson Mem.relationships personID db = (Ok found, db)
      /\ elements found
         = filter (fun r => String.eqb (Relationship.From r) personID
                            || String.eqb (Relationship.To r) personID) rs
      /\ (forall r,
             In r (elements found)
             <-> In r rs /\ (Relationship.From r = personID
                             \/ Relationship.To r = personID))
      /\ (forall r,
             In r rs ->
             Relationship.From r <> personID ->
             Relationship.To r <> personID ->
             ~ In r (elements found))
      /\ (forall (db' : Mem.ArangoDB) (c' : Mem.Coll),
             Mem.lookup "relationships" (Mem.collections db') = Some c' ->
             stores (Mem.documents c') (map swapEndpoints rs) ->
             exists found',
               FindByPerson Mem.relationships personID db' = (Ok found', db')
               /\ elements found' = map swapEndpoints (elements found)).
Proof.
  intros db c rs personID Hc Hst.
  eexists. split; [exact (@FindByPerson_stores db c rs personID Hc Hst) |].
  rewrite elements_collect. split; [reflexivity |].
  assert (Hin : forall r,
             In r (filter (fun r => String.eqb (Relationship.From r) personID
                                    || String.eqb (Relationship.To r) personID)
                     rs)
             <-> In r rs /\ (Relationship.From r = personID
                             \/ Relationship.To r = personID)).
  { intros r. rewrite filter_In, Bool.orb_true_iff, !String.eqb_eq.
    reflexivity. }
  split; [exact Hin |].
  split; [intros r _ Hf Ht Hr; apply Hin in Hr; tauto |].
  intros db' c' Hc' Hst'.
  eexists. split; [exact (@FindByPerson_stores db' c' _ personID Hc' Hst') |].
  rewrite elements_collect, filter_map. f_equal.
  apply filter_ext. intros r. simpl. apply Bool.orb_comm.
Qed.

(** In the sample store, Ada ("persons/1") is the from endpoint of the
    sibling edge and the to endpoint of the legacy edge: both are found. *)
Lemma FindByPerson_returns_incident_relationships_witness :
  exists found,
    FindByPerson Mem.relationships "persons/1" family = (Ok found, family)
    /\ elements found = [untypedStored; siblingsStored].
Proof.
  destruct family_relationships as [Hc Hst].
  destruct (@FindByPerson_returns_incident_relationships
              family familyRelationships [untypedStored; siblingsStored]
              "persons/1" Hc Hst) as (found & Hrun & Hel & _).
  exists found. split; [exact Hrun | exact Hel].
Defined.

Lemma filter_all_true {A : Type} (l : list A) : filter (fun _ => true) l = l.
Proof. induction l as [| a l IH]; simpl; [reflexivity | now f_equal]. Qed.



(* ------------------------------------------------------------------ *)
(** ** List *)

(** When the query succeeds with nothing to read, the loop body never runs
    and the declared nil slice is returned. *)
Lemma List_exhausted {S T : Type} `{Entity T} `{Document T}
  (r : BaseRepository S) (s s' : S) :
  Query (db r) (listQuery r) [] s = (Ok [], s') ->
  List (T:=T) r s = (Ok nil_slice, s').
Proof. intros Hq. unfold List. now rewrite Hq. Qed.

Lemma Mem_query_empty (name : string) (db : Mem.ArangoDB) (c : Mem.Coll) :
  Mem.lookup name (Mem.collections db) = Some c ->
  Mem.documents c = [] ->
  Mem.query {| AQL.forVar := "doc"; AQL.inCollection := name;
               AQL.filterExpr := None; AQL.returnVar := "doc" |} [] db
  = (Ok [], db).
Proof.
  intros Hc Hempty. unfold Mem.query; simpl. now rewrite Hc, Hempty.
Qed.

(** C7 (as amended).  For every entity type: over every store, when the
    query of List succeeds with nothing to read, List succeeds with a
    sequence of length zero and a nil error, and the sequence is the nil
    slice, Go's absent slice value, not an allocated empty one; on the
    in-memory store this is what List returns for every collection that
    exists and holds no document, whatever the other collections hold. *)
Theorem List_of_empty_collection_is_nil_slice :
  forall (T : Type) (D : Document T),
    (forall (S : Type) (r : BaseRepository S) (s s' : S),
        Query (db r) (listQuery r) [] s = (Ok [], s') ->
        exists found : slice T,
          List r s = (Ok found, s')
          /\ len found = 0 /\ is_nil found = true)
    /\ (forall (name : string) (db : Mem.ArangoDB) (c : Mem.Coll),
           Mem.lookup name (Mem.collections db) = Some c ->
           Mem.documents c = [] ->
           exists found : slice T,
             List (NewBaseRepository Mem.database (Mem.getCollection name)
                     name) db = (Ok found, db)
             /\ len found = 0 /\ is_nil found = true).
Proof.
  intros T D. split.
  - intros S r s s' Hq. exists nil_slice. split; [| now split].
    unfold List. now rewrite Hq.
  - intros name db c Hc Hempty. exists nil_slice. split; [| now split].
    unfold List, listQuery, NewBaseRepository; simpl.
    now rewrite (Mem_query_empty name db Hc Hempty).
Qed.

(** Right after the bootstrap both collections are empty; once Ada is
    stored the relationships collection still is. *)
Lemma List_of_empty_collection_is_nil_slice_witness :
  (exists found : slice Person.t,
      List Mem.persons bootstrapped = (Ok found, bootstrapped)
      /\ len found = 0 /\ is_nil found = true)
  /\ (let db := snd (Create Mem.persons 1000%Z ada bootstrapped) in
      exists found : slice Relationship.t,
        List Mem.relationships db = (Ok found, db)
        /\ len found = 0 /\ is_nil found = true).
Proof.
  split.
  - destruct (List_of_empty_collection_is_nil_slice Person_Document)
      as [_ Hmem].
    exact (Hmem "persons" bootstrapped
             {| Mem.kind := CollectionTypeDocument; Mem.documents := [] |}
             eq_refl eq_refl).
  - intros db.
    destruct (List_of_empty_collection_is_nil_slice Relationship_Document)
      as [_ Hmem].
    exact (Hmem "relationships" db
             {| Mem.kind := CollectionTypeEdge; Mem.documents := [] |}
             eq_refl eq_refl).
Defined.

(** C7, the claim as written fails: right after the bootstrap the persons
    collection is empty, the query succeeds, and what List returns is the
    nil slice. *)
Lemma List_of_empty_collection_returns_nil :
  match List (T:=Person.t) Mem.persons bootstrapped with
  | (Ok found, _) => is_nil found = true /\ found <> mk_slice []
  | (Err _, _) => False
  end.
Proof.
  vm_compute. split; [reflexivity | discriminate].
Qed.

(* ------------------------------------------------------------------ *)
(** ** Lookup by type *)

(** C10.  On a relationships collection holding the stored forms of [rs],
    FindByType with the empty string returns exactly the relationships whose
    relationType is the empty string, so a stored relationship with a
    non-empty type is not returned; GetRelationshipsByType of the service
    answers the empty string with "relationship type is required" over
    every repository and leaves the store state as it was, and hands every
    non-empty type to the repository's FindByType unchanged. *)
Theorem FindByType_empty_string_is_no_pass_through :
  forall (db : Mem.ArangoDB) (c : Mem.Coll) (rs : list Relationship.t),
    Mem.lookup "relationships" (Mem.collections db) = Some c ->
    stores (Mem.documents c) rs ->
    FindByType Mem.relationships "" db
    = (Ok (collect (filter (fun r =>
                              String.eqb (Relationship.RelationType r) "")
                      rs)), db)
    /\ (forall r,
           In r rs -> Relationship.RelationType r <> "" ->
           ~ In r (filter (fun r =>
                             String.eqb (Relationship.RelationType r) "") rs))
    /\ (forall (S : Type) (svc : @RelationshipService S) (st : S),
           GetRelationshipsByType svc "" st
           = (Err (errorString "relationship type is required"), st))
    /\ (forall (S : Type) (svc : @RelationshipService S) (st : S)
               (relationType : string),
           relationType <> "" ->
           GetRelationshipsByType svc relationType st
           = interfaces.FindByType (repo svc) relationType st).
Proof.
  intros db c rs Hc Hst.
  split; [exact (@FindByType_stores db c rs "" Hc Hst) |].
  split.
  { intros r _ Hne Hin. apply filter_In in Hin as [_ Heq].
    apply String.eqb_eq in Heq. contradiction. }
  split; [reflexivity |].
  intros S svc st relationType Hne. unfold GetRelationshipsByType.
  apply String.eqb_neq in Hne. rewrite Hne.
  now destruct (interfaces.FindByType (repo svc) relationType st) as [[x | e] st'].
Qed.

(** In the sample store the empty string finds the legacy edge only, and
    the service forwards "sibling" to the repository. *)
Lemma FindByType_empty_string_is_no_pass_through_witness :
  FindByType Mem.relationships "" family
  = (Ok (mk_slice [untypedStored]), family)
  /\ ~ In siblingsStored [untypedStored]
  /\ GetRelationshipsByType
       (NewRelationshipService (RelationshipRepository Mem.relationships))
       "sibling" family
     = (Ok (mk_slice [siblingsStored]), family).
Proof.
  destruct family_relationships as [Hc Hst].
  destruct (@FindByType_empty_string_is_no_pass_through
              family familyRelationships [untypedStored; siblingsStored]
              Hc Hst) as (Hempty & Hnot & _ & Hfwd).
  split; [exact Hempty |].
  split.
  { refine (Hnot siblingsStored _ _); [right; left; reflexivity | discriminate]. }
  rewrite Hfwd by discriminate. reflexivity.
Defined.

(* ------------------------------------------------------------------ *)
(** ** Validation in front of the repository *)

Lemma mapGet_validTypes (t : string) :
  mapGet validTypes t = true
  <-> In t ["parent"; "child"; "spouse"; "sibling"].
Proof.
  unfold validTypes, Relationship.RelationTypeParent,
    Relationship.RelationTypeChild, Relationship.RelationTypeSpouse,
    Relationship.RelationTypeSibling; cbn [mapGet In].
  destruct (String.eqb_spec "parent" t) as [<- | Hp]; [tauto |].
  destruct (String.eqb_spec "child" t) as [<- | Hc]; [tauto |].
  destruct (String.eqb_spec "spouse" t) as [<- | Hs]; [tauto |].
  destruct (String.eqb_spec "sibling" t) as [<- | Hb]; [tauto |].
  split; [discriminate | tauto].
Qed.

(** A request the validation turns down never gets to the repository: the
    service returns the validation error and the store state it was given,
    whatever the repository is. *)
Lemma CreateRelationship_rejected (TrimSpace : string -> string)
  (req : RelationshipCreateRequest.t) (err : error) :
  validateCreateRequest TrimSpace req = Some err ->
  forall (S : Type) (svc : @RelationshipService S) (now : Time) (st : S),
    CreateRelationship TrimSpace svc now req st = (Err err, st).
Proof.
  intros Hv S svc now st. unfold CreateRelationship. now rewrite Hv.
Qed.

(** C4.  A create request whose from equals its to, or whose relationType
    is none of parent, child, spouse, sibling, is turned down by
    validateCreateRequest with a plain error carrying no store error, and
    CreateRelationship returns that error over every repository and every
    store state with the state untouched: no call of the repository, hence
    of the store, is made. *)
Theorem CreateRelationship_rejects_before_any_store_call :
  forall (TrimSpace : string -> string) (req : RelationshipCreateRequest.t),
    RelationshipCreateRequest.From req = RelationshipCreateRequest.To req
    \/ ~ In (RelationshipCreateRequest.RelationType req)
            ["parent"; "child"; "spouse"; "sibling"] ->
    exists msg,
      validateCreateRequest TrimSpace req = Some (errorString msg)
      /\ forall (S : Type) (svc : @RelationshipService S) (now : Time)
                (st : S),
          CreateRelationship TrimSpace svc now req st
          = (Err (errorString msg), st).
Proof.
  intros TrimSpace req Hbad.
  assert (Hv : exists msg,
             validateCreateRequest TrimSpace req = Some (errorString msg)).
  { unfold validateCreateRequest.
    destruct (String.eqb (TrimSpace (RelationshipCreateRequest.From req)) "");
      [eexists; reflexivity |].
    destruct (String.eqb (TrimSpace (RelationshipCreateRequest.To req)) "");
      [eexists; reflexivity |].
    destruct (String.eqb
                (TrimSpace (RelationshipCreateRequest.RelationType req)) "");
      [eexists; reflexivity |].
    destruct (String.eqb_spec (RelationshipCreateRequest.From req)
                (RelationshipCreateRequest.To req)) as [Heq | Hne];
      [eexists; reflexivity |].
    destruct Hbad as [Heq | Hty]; [contradiction |].
    destruct (mapGet validTypes (RelationshipCreateRequest.RelationType req))
      eqn:Hm; [| eexists; reflexivity].
    apply mapGet_validTypes in Hm. contradiction. }
  destruct Hv as (msg & Hv). exists msg. split; [exact Hv |].
  exact (CreateRelationship_rejected TrimSpace req Hv).
Qed.

(** Ada as her own parent, and Ada as mentor of Charles, against the sample
    store: both are turned down and the store is as before. *)
Lemma CreateRelationship_rejects_before_any_store_call_witness :
  let svc := NewRelationshipService (RelationshipRepository Mem.relationships) in
  CreateRelationship asciiTrimSpace svc 2000%Z
    (RelationshipCreateRequest.mk "persons/1" "persons/1" "parent" 0%Z 0%Z "")
    family
  = (Err (errorString "from and to must be different persons"), family)
  /\ exists msg,
      CreateRelationship asciiTrimSpace svc 2000%Z
        (RelationshipCreateRequest.mk "persons/1" "persons/2" "mentor"
           0%Z 0%Z "") family
      = (Err (errorString msg), family).
Proof.
  intros svc. split.
  - destruct (CreateRelationship_rejects_before_any_store_call asciiTrimSpace
                (RelationshipCreateRequest.mk "persons/1" "persons/1" "parent"
                   0%Z 0%Z "") (or_introl eq_refl)) as (msg & Hv & Hrun).
    rewrite Hrun. vm_compute in Hv. now injection Hv as <-.
  - assert (Hty : ~ In "mentor" ["parent"; "child"; "spouse"; "sibling"])
      by (simpl; intros [H | [H | [H | [H | []]]]]; discriminate H).
    destruct (CreateRelationship_rejects_before_any_store_call asciiTrimSpace
                (RelationshipCreateRequest.mk "persons/1" "persons/2" "mentor"
                   0%Z 0%Z "") (or_intror Hty)) as (msg & _ & Hrun).
    exists msg. apply Hrun.
Defined.

(** C9 (as amended).  For every trimming function that leaves the four type
    names unchanged: a request whose From and To differ as raw strings, are
    equal after trimming and are not blank after trimming, and whose
    relationType is one of the four types, passes validateCreateRequest, and
    CreateRelationship hands the repository's Create a relationship whose
    from endpoint equals its to endpoint (both the trimmed value), returning
    what Create returns with the error wrapped. *)
Theorem CreateRelationship_compares_untrimmed_endpoints :
  forall (TrimSpace : string -> string) (S : Type)
         (svc : @RelationshipService S) (now : Time)
         (req : RelationshipCreateRequest.t) (st : S),
    (forall t, In t ["parent"; "child"; "spouse"; "sibling"] ->
               TrimSpace t = t) ->
    RelationshipCreateRequest.From req <> RelationshipCreateRequest.To req ->
    TrimSpace (RelationshipCreateRequest.From req)
    = TrimSpace (RelationshipCreateRequest.To req) ->
    TrimSpace (RelationshipCreateRequest.From req) <> "" ->
    In (RelationshipCreateRequest.RelationType req)
       ["parent"; "child"; "spouse"; "sibling"] ->
    validateCreateRequest TrimSpace req = None
    /\ exists relationship,
        Relationship.From relationship = Relationship.To relationship
        /\ Relationship.From relationship
           = TrimSpace (RelationshipCreateRequest.From req)
        /\ Relationship.RelationType relationship
           = RelationshipCreateRequest.RelationType req
        /\ CreateRelationship TrimSpace svc now req st
           = match interfaces.Create (repo svc) now relationship st with
             | ((_, Some err), st') =>
                 (Err (wrapError "failed to create relationship" err), st')
             | ((created, None), st') => (Ok created, st')
             end.
Proof.
  intros TrimSpace S svc now req st Htypes Hraw Htrim Hfrom Hty.
  assert (Hv : validateCreateRequest TrimSpace req = None).
  { unfold validateCreateRequest.
    rewrite <- Htrim.
    apply String.eqb_neq in Hfrom. rewrite Hfrom.
    rewrite (Htypes _ Hty).
    assert (Hne : RelationshipCreateRequest.RelationType req <> "")
      by (intros Heq; rewrite Heq in Hty; simpl in Hty;
          destruct Hty as [H | [H | [H | [H | []]]]]; discriminate H).
    apply String.eqb_neq in Hne. rewrite Hne.
    apply String.eqb_neq in Hraw. rewrite Hraw.
    apply mapGet_validTypes in Hty. now rewrite Hty. }
  split; [exact Hv |].
  eexists. split; [| split; [| split]];
    [| | | unfold CreateRelationship; rewrite Hv; reflexivity].
  - simpl. exact Htrim.
  - reflexivity.
  - simpl. now apply Htypes.
Qed.

Lemma asciiTrimSpace_types (t : string) :
  In t ["parent"; "child"; "spouse"; "sibling"] -> asciiTrimSpace t = t.
Proof.
  simpl. intros [<- | [<- | [<- | [<- | []]]]]; reflexivity.
Qed.

(** "persons/1" and "persons/1 " as parent: the request passes, and the edge
    the store now holds goes from persons/1 to persons/1. *)
Lemma CreateRelationship_compares_untrimmed_endpoints_witness :
  let svc := NewRelationshipService (RelationshipRepository Mem.relationships) in
  let req := RelationshipCreateRequest.mk "persons/1" "persons/1 " "parent"
               0%Z 0%Z "" in
  validateCreateRequest asciiTrimSpace req = None
  /\ match CreateRelationship asciiTrimSpace svc 2000%Z req family with
     | (Ok created, db') =>
         Relationship.From created = "persons/1"
         /\ Relationship.To created = "persons/1"
         /\ exists c doc docs,
             Mem.lookup "relationships" (Mem.collections db') = Some c
             /\ Mem.documents c = doc :: docs
             /\ attr doc "_from" = attr doc "_to"
     | (Err _, _) => False
     end.
Proof.
  intros svc req.
  assert (Hraw : RelationshipCreateRequest.From req
                 <> RelationshipCreateRequest.To req) by discriminate.
  assert (Hne : asciiTrimSpace (RelationshipCreateRequest.From req) <> "")
    by discriminate.
  assert (Hty : In (RelationshipCreateRequest.RelationType req)
                  ["parent"; "child"; "spouse"; "sibling"])
    by (left; reflexivity).
  destruct (@CreateRelationship_compares_untrimmed_endpoints
              asciiTrimSpace Mem.ArangoDB svc 2000%Z req family
              asciiTrimSpace_types Hraw eq_refl Hne Hty) as [Hv _].
  split; [exact Hv |].
  vm_compute. split; [reflexivity |]. split; [reflexivity |].
  do 3 eexists. split; [reflexivity |]. split; reflexivity.
Defined.

(** C9, the claim as written fails: From is a blank and To is empty; they
    differ as raw strings, are equal after trimming, the type is valid, and
    the request is turned down. *)
Lemma blank_endpoints_are_rejected :
  let req := RelationshipCreateRequest.mk " " "" "parent" 0%Z 0%Z "" in
  RelationshipCreateRequest.From req <> RelationshipCreateRequest.To req
  /\ asciiTrimSpace (RelationshipCreateRequest.From req)
     = asciiTrimSpace (RelationshipCreateRequest.To req)
  /\ In (RelationshipCreateRequest.RelationType req)
        ["parent"; "child"; "spouse"; "sibling"]
  /\ validateCreateRequest asciiTrimSpace req
     = Some (errorString "from is required")
  /\ validateCreateRequest asciiTrimSpace req <> None.
Proof.
  simpl. split; [discriminate |]. split; [reflexivity |].
  split; [left; reflexivity |]. split; [reflexivity | discriminate].
Qed.

(* ------------------------------------------------------------------ *)
(** ** The collection bootstrap *)

Lemma lookup_added (name : string) (c : Mem.Coll)
  (cs : list (string * Mem.Coll)) :
  Mem.lookup name cs = None -> Mem.lookup name (cs ++ [(name, c)]) = Some c.
Proof.
  induction cs as [| [n c0] cs IH]; simpl.
  - now rewrite String.eqb_refl.
  - destruct (String.eqb n name); [discriminate | exact IH].
Qed.

(** On the in-memory store with no peer, the bootstrap succeeds, and a
    second run finds the collection and changes nothing. *)
Lemma ensureCollection_twice (name : string) (isEdge : bool)
  (db : Mem.ArangoDB) :
  exists db1,
    arangodbclient.ensureCollection {| arangodbclient.db := Mem.database |}
      name isEdge db = (None, db1)
    /\ Mem.lookup name (Mem.collections db1) <> None
    /\ arangodbclient.ensureCollection {| arangodbclient.db := Mem.database |}
         name isEdge db1 = (None, db1).
Proof.
  unfold arangodbclient.ensureCollection; simpl.
  unfold Mem.collectionExists, Mem.createCollection.
  destruct (Mem.lookup name (Mem.collections db)) as [c |] eqn:Hc.
  - exists db. rewrite Hc. repeat split. discriminate.
  - rewrite Hc. eexists. split; [reflexivity |]. simpl.
    erewrite lookup_added by exact Hc. split; [discriminate | reflexivity].
Qed.

(** C8 (as amended).  Over every store: when the existence check reports
    the collection present, ensureCollection returns success with the store
    state the check left, without issuing a create; when the check reports
    it absent and the create succeeds, ensureCollection succeeds; when the
    check reports it absent and the create returns an error, "duplicate
    name" of a collection created in between included, ensureCollection
    returns that error wrapped as "failed to create collection".  With no
    peer at work the bootstrap is idempotent: it succeeds, and running it
    again changes nothing. *)
Theorem ensureCollection_checks_then_creates :
  forall (S : Type) (c : @arangodbclient.Client S) (name : string)
         (isEdge : bool) (s : S),
    (forall s1,
        CollectionExists (arangodbclient.db c) name s = (Ok true, s1) ->
        arangodbclient.ensureCollection c name isEdge s = (None, s1))
    /\ (forall s1 s2,
        CollectionExists (arangodbclient.db c) name s = (Ok false, s1) ->
        CreateCollectionV2 (arangodbclient.db c) name
          {| Type_ := if isEdge then Some CollectionTypeEdge else None |} s1
        = (None, s2) ->
        arangodbclient.ensureCollection c name isEdge s = (None, s2))
    /\ (forall s1 s2 err,
        CollectionExists (arangodbclient.db c) name s = (Ok false, s1) ->
        CreateCollectionV2 (arangodbclient.db c) name
          {| Type_ := if isEdge then Some CollectionTypeEdge else None |} s1
        = (Some err, s2) ->
        arangodbclient.ensureCollection c name isEdge s
        = (Some (wrapError "failed to create collection" err), s2))
    /\ (forall db : Mem.ArangoDB,
        exists db1,
          arangodbclient.ensureCollection
            {| arangodbclient.db := Mem.database |} name isEdge db
          = (None, db1)
          /\ Mem.lookup name (Mem.collections db1) <> None
          /\ arangodbclient.ensureCollection
               {| arangodbclient.db := Mem.database |} name isEdge db1
             = (None, db1)).
Proof.
  intros S c name isEdge s. unfold arangodbclient.ensureCollection.
  split; [intros s1 Hex; now rewrite Hex |].
  split; [intros s1 s2 Hex Hcr; now rewrite Hex, Hcr |].
  split; [intros s1 s2 err Hex Hcr; now rewrite Hex, Hcr |].
  intros db. apply ensureCollection_twice.
Qed.

(** The bootstrapped store already has "persons"; the empty store gets it
    created; a store shared with a peer that creates "persons" between the
    check and the create answers "duplicate name". *)
Lemma ensureCollection_checks_then_creates_witness :
  arangodbclient.ensureCollection {| arangodbclient.db := Mem.database |}
    "persons" false bootstrapped = (None, bootstrapped)
  /\ fst (arangodbclient.ensureCollection
            {| arangodbclient.db := Mem.database |} "persons" false Mem.empty)
     = None
  /\ fst (arangodbclient.ensureCollection
            {| arangodbclient.db := sharedWith (peerBootstrap "persons" false) |}
            "persons" false Mem.empty)
     = Some (wrapError "failed to create collection" Mem.ErrDuplicateName).
Proof.
  split; [| split].
  - destruct (ensureCollection_checks_then_creates
                {| arangodbclient.db := Mem.database |} "persons" false
                bootstrapped) as (Hpresent & _).
    exact (Hpresent bootstrapped eq_refl).
  - destruct (ensureCollection_checks_then_creates
                {| arangodbclient.db := Mem.database |} "persons" false
                Mem.empty) as (_ & Habsent & _).
    now rewrite (Habsent Mem.empty _ eq_refl eq_refl).
  - destruct (ensureCollection_checks_then_creates
                {| arangodbclient.db := sharedWith (peerBootstrap "persons" false) |}
                "persons" false Mem.empty) as (_ & _ & Hrace & _).
    now rewrite (Hrace _ _ _ eq_refl eq_refl).
Defined.

(** C8, the claim as written fails: two instances bootstrap an empty store;
    this one's existence check answers "absent", the peer's create lands,
    this one's create is answered "duplicate name", and ensureCollection
    returns an error although the collection exists. *)
Lemma ensureCollection_fails_when_peer_creates_first :
  let c := {| arangodbclient.db := sharedWith (peerBootstrap "persons" false) |} in
  let '(err, db') := arangodbclient.ensureCollection c "persons" false Mem.empty in
  Mem.collectionExists "persons" Mem.empty = (Ok false, Mem.empty)
  /\ err = Some (wrapError "failed to create collection" Mem.ErrDuplicateName)
  /\ err <> None
  /\ Mem.collectionExists "persons" db' = (Ok true, db').
Proof.
  vm_compute. repeat split; discriminate.
Qed.

(* ------------------------------------------------------------------ *)
(** ** Prefixes and substrings *)

Lemma prefix_split (p s : string) :
  String.prefix p s = true ->
  s = (p ++ dropBytes (String.length p) s)%string.
Proof.
  revert s. induction p as [| a p IH]; intros s Hp.
  - reflexivity.
  - destruct s as [| b s]; simpl in Hp; [discriminate |].
    destruct (ascii_dec a b) as [-> | _]; [| discriminate].
    simpl. f_equal. now apply IH.
Qed.

Lemma prefix_refl (p : string) : String.prefix p p = true.
Proof.
  induction p as [| a p IH]; simpl; [reflexivity |].
  now destruct (ascii_dec a a).
Qed.

Lemma prefix_app (p a b : string) :
  String.prefix p a = true -> String.prefix p (a ++ b) = true.
Proof.
  revert a. induction p as [| c p IH]; intros a Hp.
  - now destruct (a ++ b)%string.
  - destruct a as [| d a]; simpl in Hp; [discriminate |]. simpl.
    destruct (ascii_dec c d); [now apply IH | discriminate].
Qed.

Lemma dropBytes_all (p : string) : dropBytes (String.length p) p = "".
Proof. induction p as [| a p IH]; simpl; auto. Qed.

Lemma append_empty_r (s : string) : (s ++ "")%string = s.
Proof. induction s as [| a s IH]; simpl; [reflexivity | now f_equal]. Qed.

(** TrimPrefix leaves nothing exactly of the empty string and of the
    prefix itself. *)
Lemma TrimPrefix_empty (s p : string) :
  String.eqb (TrimPrefix s p) "" = String.eqb s "" || String.eqb s p.
Proof.
  unfold TrimPrefix, HasPrefix.
  destruct (String.prefix p s) eqn:Hp.
  - pose proof (prefix_split p s Hp) as Hs.
    destruct (String.eqb_spec (dropBytes (String.length p) s) "") as [Hd | Hd].
    + rewrite Hd, append_empty_r in Hs. subst s.
      now rewrite String.eqb_refl, Bool.orb_true_r.
    + destruct (String.eqb_spec s "") as [-> | _].
      * exfalso. apply Hd. now destruct (String.length p).
      * destruct (String.eqb_spec s p) as [-> | _]; [| reflexivity].
        exfalso. apply Hd. apply dropBytes_all.
  - destruct (String.eqb_spec s p) as [-> | _].
    + now rewrite prefix_refl in Hp.
    + now rewrite Bool.orb_false_r.
Qed.

Lemma Contains_cons (c : ascii) (s sub : string) :
  Contains (String c s) sub
  = String.prefix sub (String c s) || Contains s sub.
Proof. reflexivity. Qed.

Lemma Contains_app_l (a b sub : string) :
  Contains a sub = true -> Contains (a ++ b) sub = true.
Proof.
  induction a as [| c a IH].
  - simpl. rewrite Bool.orb_false_r. intros Hp.
    destruct sub; [now destruct b | discriminate].
  - change ((String c a ++ b)%string) with (String c (a ++ b)).
    rewrite !Contains_cons. intros H.
    apply Bool.orb_true_iff in H as [Hp | Hc].
    + change (String c (a ++ b)) with ((String c a) ++ b)%string.
      now rewrite (prefix_app _ _ b Hp).
    + rewrite (IH Hc). apply Bool.orb_true_r.
Qed.

Lemma Contains_app_r (a b sub : string) :
  Contains b sub = true -> Contains (a ++ b) sub = true.
Proof.
  intros Hb. induction a as [| c a IH]; [exact Hb |].
  change ((String c a ++ b)%string) with (String c (a ++ b)).
  rewrite Contains_cons, IH. apply Bool.orb_true_r.
Qed.

(** The text of a wrapped error mentions whatever the text of the wrapped
    error mentions. *)
Lemma Error_wrap_Contains (text : Z -> Z -> string -> string) (msg : string)
  (err : error) (sub : string) :
  Contains (Error text err) sub = true ->
  Contains (Error text (wrapError msg err)) sub = true.
Proof.
  intros H. cbn [Error]. apply Contains_app_r.
  now apply (Contains_app_r ": " (Error text err) sub).
Qed.

(* ------------------------------------------------------------------ *)
(** ** Routing of relationship requests *)

Lemma handleAPIRoutes_relationships (path : string) :
  httproutes.handleAPIRoutes path = httproutes.HandleRelationships ->
  path = "/v1/relationships" \/ HasPrefix path "/v1/relationships/" = true.
Proof.
  unfold httproutes.handleAPIRoutes.
  destruct (String.eqb path "/v1/persons" || HasPrefix path "/v1/persons/");
    [discriminate |].
  destruct (String.eqb_spec path "/v1/relationships") as [-> | _];
    [now left |].
  destruct (HasPrefix path "/v1/relationships/"); [now right | discriminate].
Qed.

Lemma TrimPrefix_relationships (path : string) :
  path = "/v1/relationships" \/ HasPrefix path "/v1/relationships/" = true ->
  TrimPrefix path "/v1/relationships/"
  = (if String.eqb path "/v1/relationships" then "/v1/relationships"
     else dropBytes 18 path)
  /\ String.eqb (TrimPrefix path "/v1/relationships/") ""
     = String.eqb path "/v1/relationships/".
Proof.
  intros [-> | Hpre]; [split; reflexivity |].
  split.
  - unfold TrimPrefix. rewrite Hpre.
    destruct (String.eqb_spec path "/v1/relationships") as [-> | _];
      [discriminate Hpre | reflexivity].
  - rewrite TrimPrefix_empty.
    destruct (String.eqb_spec path "") as [-> | _];
      [discriminate Hpre | reflexivity].
Qed.

(** X1.  For a request the router sends to the relationships handler, PUT
    and DELETE answer 400 "relationship ID is required" only for the path
    "/v1/relationships/"; every other path runs the update or the delete,
    with what follows "/v1/relationships/" as the id, and with the whole
    path "/v1/relationships" as the id when there is no trailing slash. *)
Theorem HandleRelationships_takes_bare_path_as_id :
  forall (TrimSpace : string -> string)
         (text : Z -> Z -> string -> string) (Body : Type)
         (decodeCreate : Body -> result RelationshipCreateRequest.t)
         (decodeUpdate : Body -> result RelationshipUpdateRequest.t)
         (S : Type) (h : @v1relationshipshandler.Handler S) (now : Time)
         (r : v1relationshipshandler.Request Body) (st : S),
    httproutes.handleAPIRoutes (v1relationshipshandler.Path r)
    = httproutes.HandleRelationships ->
    (v1relationshipshandler.Method r = "PUT" ->
     v1relationshipshandler.HandleRelationships TrimSpace text decodeCreate
       decodeUpdate h now r st
     = if String.eqb (v1relationshipshandler.Path r) "/v1/relationships/"
       then (v1relationshipshandler.SendError 400
               "relationship ID is required", st)
       else v1relationshipshandler.UpdateRelationship TrimSpace text
              decodeUpdate h now r
              (if String.eqb (v1relationshipshandler.Path r)
                             "/v1/relationships"
               then "/v1/relationships"
               else dropBytes 18 (v1relationshipshandler.Path r)) st)
    /\ (v1relationshipshandler.Method r = "DELETE" ->
        v1relationshipshandler.HandleRelationships TrimSpace text decodeCreate
          decodeUpdate h now r st
        = if String.eqb (v1relationshipshandler.Path r) "/v1/relationships/"
          then (v1relationshipshandler.SendError 400
                  "relationship ID is required", st)
          else v1relationshipshandler.DeleteRelationship text h
                 (if String.eqb (v1relationshipshandler.Path r)
                                "/v1/relationships"
                  then "/v1/relationships"
                  else dropBytes 18 (v1relationshipshandler.Path r)) st).
Proof.
  intros TrimSpace text Body decodeCreate decodeUpdate S h now r st Hroute.
  apply handleAPIRoutes_relationships in Hroute.
  destruct (TrimPrefix_relationships Hroute) as [Hid Hempty].
  split; intros Hm; unfold v1relationshipshandler.HandleRelationships;
    rewrite Hm; cbv zeta; rewrite Hempty, Hid; reflexivity.
Qed.

Lemma HandleRelationships_takes_bare_path_as_id_witness :
  httproutes.handleAPIRoutes "/v1/relationships"
  = httproutes.HandleRelationships
  /\ v1relationshipshandler.HandleRelationships asciiTrimSpace messageText
       noBody noBody familyHandler 0%Z
       {| v1relationshipshandler.Method := "DELETE";
          v1relationshipshandler.Path := "/v1/relationships";
          v1relationshipshandler.RequestBody := tt |} family
     = v1relationshipshandler.DeleteRelationship messageText familyHandler
         "/v1/relationships" family
  /\ v1relationshipshandler.DeleteRelationship messageText familyHandler
       "/v1/relationships" family
     = (v1relationshipshandler.SendError 404 "relationship not found", family).
Proof.
  split; [reflexivity |].
  destruct (@HandleRelationships_takes_bare_path_as_id asciiTrimSpace
              messageText unit noBody noBody Mem.ArangoDB familyHandler 0%Z
              {| v1relationshipshandler.Method := "DELETE";
                 v1relationshipshandler.Path := "/v1/relationships";
                 v1relationshipshandler.RequestBody := tt |} family eq_refl)
    as [_ Hdelete].
  split; [exact (Hdelete eq_refl) | reflexivity].
Defined.

(* ------------------------------------------------------------------ *)
(** ** Status codes of the relationship handlers *)

Lemma Contains_failed_to_get (t : string) :
  Contains ("failed to get entity" ++ ": " ++ t) "not found"
  = Contains t "not found".
Proof. reflexivity. Qed.

Lemma Contains_failed_to_delete (t : string) :
  Contains ("failed to delete entity" ++ ": " ++ t) "not found"
  = Contains t "not found".
Proof. reflexivity. Qed.

Lemma Error_not_found (text : Z -> Z -> string -> string) (err : error) :
  Contains (Error text (wrapError "entity not found" err)) "not found" = true.
Proof.
  cbn [Error]. now apply (Contains_app_l "entity not found").
Qed.

(** X2.  Over every store, with the arangorepository behind the service:
    when the store reports the addressed document missing, the GET and the
    DELETE handler answer 404 "relationship not found", whatever text the
    driver gives the error; when the store fails otherwise and the text of
    its error does not mention "not found", they answer 500 with the
    wrapped text. *)
Theorem missing_document_is_answered_404 :
  forall (text : Z -> Z -> string -> string) (S : Type)
         (r : BaseRepository S) (id : string) (st : S),
    id <> "" ->
    let h := v1relationshipshandler.NewHandler
               (NewRelationshipService (RelationshipRepository r)) in
    (forall err st',
        ReadDocument (collection r) id st = (Err err, st') ->
        v1relationshipshandler.GetRelationship text h id st
        = if IsNotFound err || Contains (Error text err) "not found"
          then (v1relationshipshandler.SendError 404
                  "relationship not found", st')
          else (v1relationshipshandler.SendError 500
                  ("failed to get relationship: failed to get entity: "
                     ++ Error text err), st'))
    /\ (forall err st',
        DeleteDocument (collection r) id st = (Err err, st') ->
        v1relationshipshandler.DeleteRelationship text h id st
        = if IsNotFound err || Contains (Error text err) "not found"
          then (v1relationshipshandler.SendError 404
                  "relationship not found", st')
          else (v1relationshipshandler.SendError 500
                  ("failed to delete relationship: failed to delete entity: "
                     ++ Error text err), st')).
Proof.
  intros text S r id st Hid h. apply String.eqb_neq in Hid.
  split; intros err st' Hfail.
  - unfold v1relationshipshandler.GetRelationship, GetRelationship; simpl.
    rewrite Hid. unfold GetByID. rewrite Hfail.
    destruct (IsNotFound err); simpl orb.
    + now rewrite Error_not_found.
    + cbn [Error]. rewrite Contains_failed_to_get.
      now destruct (Contains (Error text err) "not found").
  - unfold v1relationshipshandler.DeleteRelationship, DeleteRelationship;
      simpl.
    rewrite Hid. unfold Delete. rewrite Hfail.
    destruct (IsNotFound err); simpl orb.
    + now rewrite Error_not_found.
    + cbn [Error]. rewrite Contains_failed_to_delete.
      now destruct (Contains (Error text err) "not found").
Qed.

Lemma missing_document_is_answered_404_witness :
  v1relationshipshandler.GetRelationship messageText familyHandler "99" family
  = (v1relationshipshandler.SendError 404 "relationship not found", family)
  /\ v1relationshipshandler.DeleteRelationship messageText familyHandler "99"
       Mem.empty
     = (v1relationshipshandler.SendError 404 "relationship not found",
        Mem.empty).
Proof.
  assert (Hid : "99" <> "") by discriminate.
  split.
  - destruct (@missing_document_is_answered_404 messageText Mem.ArangoDB
                Mem.relationships "99" family Hid) as [Hget _].
    exact (Hget Mem.ErrDocumentNotFound family eq_refl).
  - destruct (@missing_document_is_answered_404 messageText Mem.ArangoDB
                Mem.relationships "99" Mem.empty Hid) as [_ Hdel].
    exact (Hdel Mem.ErrDataSourceNotFound Mem.empty eq_refl).
Defined.

(** X3.  Over every store, with the arangorepository behind the service:
    when the body decodes to a request that passes validation and the
    driver turns down the insert of the relationship built from it (the
    trimmed fields of the request, stamped with the clock reading), the POST
    handler answers 400 with the text "failed to create relationship: failed
    to create entity: ..." of the driver's error; a failing insert is
    reported as a bad request, not as a server error. *)
Theorem failed_insert_is_answered_400 :
  forall (TrimSpace : string -> string)
         (text : Z -> Z -> string -> string) (Body : Type)
         (decodeCreate : Body -> result RelationshipCreateRequest.t)
         (S : Type) (r : BaseRepository S) (now : Time)
         (q : v1relationshipshandler.Request Body)
         (req : RelationshipCreateRequest.t) (st st' : S) (err : error),
    decodeCreate (v1relationshipshandler.RequestBody q) = Ok req ->
    validateCreateRequest TrimSpace req = None ->
    CreateDocument (collection r)
      (SetTimestamps
         (Relationship.mk "" "" ""
            (TrimSpace (RelationshipCreateRequest.From req))
            (TrimSpace (RelationshipCreateRequest.To req))
            (TrimSpace (RelationshipCreateRequest.RelationType req))
            (RelationshipCreateRequest.StartDate req)
            (RelationshipCreateRequest.EndDate req)
            (TrimSpace (RelationshipCreateRequest.Notes req)) 0%Z 0%Z)
         now now) st
    = (Err err, st') ->
    v1relationshipshandler.CreateRelationship TrimSpace text decodeCreate
      (v1relationshipshandler.NewHandler
         (NewRelationshipService (RelationshipRepository r))) now q st
    = (v1relationshipshandler.SendError 400
         ("failed to create relationship: failed to create entity: "
            ++ Error text err), st').
Proof.
  intros TrimSpace text Body decodeCreate S r now q req st st' err
    Hdec Hval Hfail.
  unfold v1relationshipshandler.CreateRelationship. rewrite Hdec.
  unfold CreateRelationship. rewrite Hval. simpl.
  unfold Create. now rewrite Hfail.
Qed.

(** The sample store takes inserts; a relationship that starts in the year
    10000 is one the driver cannot encode, and this insert alone is turned
    down. *)
Lemma failed_insert_is_answered_400_witness :
  v1relationshipshandler.CreateRelationship asciiTrimSpace messageText
    (fun b : RelationshipCreateRequest.t => Ok b)
    (v1relationshipshandler.NewHandler
       (NewRelationshipService (RelationshipRepository Mem.relationships)))
    1000%Z
    {| v1relationshipshandler.Method := "POST";
       v1relationshipshandler.Path := "/v1/relationships";
       v1relationshipshandler.RequestBody :=
         RelationshipCreateRequest.mk "persons/1" "persons/2" "sibling"
           (3652059 * nanosecondsPerDay)%Z 0%Z "" |} family
  = (v1relationshipshandler.SendError 400
       ("failed to create relationship: failed to create entity: "
          ++ Error messageText MarshalerError),
     family).
Proof.
  exact (@failed_insert_is_answered_400 asciiTrimSpace messageText
           RelationshipCreateRequest.t (fun b => Ok b) Mem.ArangoDB
           Mem.relationships 1000%Z
           {| v1relationshipshandler.Method := "POST";
              v1relationshipshandler.Path := "/v1/relationships";
              v1relationshipshandler.RequestBody :=
                RelationshipCreateRequest.mk "persons/1" "persons/2" "sibling"
                  (3652059 * nanosecondsPerDay)%Z 0%Z "" |}
           (RelationshipCreateRequest.mk "persons/1" "persons/2" "sibling"
              (3652059 * nanosecondsPerDay)%Z 0%Z "")
           family family MarshalerError eq_refl eq_refl eq_refl).
Defined.

(* ------------------------------------------------------------------ *)
(** ** The read loop *)

Section ReadLoop.

Context {T : Type} `{Document T}.

(** X4.  The read loop of List and of the lookups is all or nothing: it
    returns a slice exactly when every read of the cursor succeeds and
    decodes, and then the slice holds what was accumulated followed by the
    decoded documents in cursor order, one per read; as soon as one read
    fails it returns that error under the loop's message and no slice. *)
Theorem readAll_is_all_or_nothing :
  forall (msg : string) (cursor : Cursor) (acc : slice T),
    (forall found,
        readAll msg cursor acc = Ok found ->
        exists es,
          Forall2 (fun next e => cursorReadDocument next = Ok e) cursor es
          /\ elements found = elements acc ++ es
          /\ len found = len acc + length cursor)
    /\ (forall before next after err,
           cursor = before ++ next :: after ->
           (exists es,
               Forall2 (fun n e => cursorReadDocument n = Ok e) before es) ->
           cursorReadDocument (T:=T) next = Err err ->
           readAll msg cursor acc = Err (wrapError msg err)).
Proof.
  intros msg cursor. induction cursor as [| next cursor IH]; intros acc.
  - split.
    + intros found Hrun. injection Hrun as <-. exists [].
      split; [constructor |]. unfold len. simpl.
      now rewrite app_nil_r, Nat.add_0_r.
    + intros [| b before] next after err Hc; discriminate Hc.
  - split.
    + intros found Hrun. simpl in Hrun.
      destruct (cursorReadDocument next) as [e | err] eqn:Hnext;
        [| discriminate].
      destruct (IH (append acc e)) as [IHok _].
      destruct (IHok found Hrun) as (es & Hall & Hel & Hlen).
      exists (e :: es). split; [now constructor |].
      unfold len, append in *. simpl in *. split.
      * now rewrite Hel, <- app_assoc.
      * rewrite Hlen, length_app. simpl. lia.
    + intros before n after err Hc Hbefore Hn. simpl.
      destruct before as [| b before].
      * injection Hc as -> ->. now rewrite Hn.
      * injection Hc as -> ->.
        destruct Hbefore as (es & Hall). inversion Hall as [| ? e ? es' Hb Hrest];
          subst.
        rewrite Hb.
        destruct (IH (append acc e)) as [_ IHerr].
        apply (IHerr before n after err eq_refl); [now exists es' | exact Hn].
Qed.

End ReadLoop.

(** The second of three documents of the cursor has a first name that is
    not a string: nothing is returned. *)
Lemma readAll_is_all_or_nothing_witness :
  readAll (T:=Person.t) "failed to read person"
    [Ok (Person.document adaStored);
     Ok [("firstName", VBool true)];
     Ok (Person.document charlesStored)] nil_slice
  = Err (wrapError "failed to read person" UnmarshalTypeError).
Proof.
  destruct (@readAll_is_all_or_nothing Person.t Person_Document
              "failed to read person"
              [Ok (Person.document adaStored);
               Ok [("firstName", VBool true)];
               Ok (Person.document charlesStored)] nil_slice) as [_ Herr].
  apply (Herr [Ok (Person.document adaStored)]
              (Ok [("firstName", VBool true)])
              [Ok (Person.document charlesStored)] UnmarshalTypeError eq_refl).
  - exists [adaStored]. repeat constructor.
  - reflexivity.
Defined.

(* ------------------------------------------------------------------ *)
(** ** Documents of the in-memory store by key *)

Lemma findDoc_key (key : string) (docs : list Object) (d : Object) :
  Mem.findDoc key docs = Some d -> Mem.stringAttr d "_key" = key.
Proof.
  induction docs as [| d0 docs IH]; simpl; [discriminate |].
  destruct (String.eqb_spec (Mem.stringAttr d0 "_key") key) as [Heq | _].
  - now intros [= <-].
  - exact IH.
Qed.

Lemma findDoc_absent (key : string) (docs : list Object) :
  ~ In key (map (fun d => Mem.stringAttr d "_key") docs) ->
  Mem.findDoc key docs = None.
Proof.
  induction docs as [| d0 docs IH]; simpl; [reflexivity |].
  intros Hnot.
  destruct (String.eqb_spec (Mem.stringAttr d0 "_key") key) as [Heq | _].
  - exfalso. apply Hnot. now left.
  - apply IH. intros Hin. apply Hnot. now right.
Qed.

Lemma findDoc_removeDoc_same (key : string) (docs : list Object) :
  NoDup (map (fun d => Mem.stringAttr d "_key") docs) ->
  Mem.findDoc key (Mem.removeDoc key docs) = None.
Proof.
  induction docs as [| d0 docs IH]; simpl; [reflexivity |].
  intros Hnd. inversion Hnd as [| k ks Hnotin Hrest]; subst.
  destruct (String.eqb_spec (Mem.stringAttr d0 "_key") key) as [Heq | Hne].
  - apply findDoc_absent. now rewrite <- Heq.
  - simpl. apply String.eqb_neq in Hne. rewrite Hne. now apply IH.
Qed.

Lemma findDoc_removeDoc_other (key key' : string) (docs : list Object) :
  key' <> key ->
  Mem.findDoc key' (Mem.removeDoc key docs) = Mem.findDoc key' docs.
Proof.
  intros Hne. induction docs as [| d0 docs IH]; simpl; [reflexivity |].
  destruct (String.eqb_spec (Mem.stringAttr d0 "_key") key) as [Heq | _].
  - destruct (String.eqb_spec (Mem.stringAttr d0 "_key") key') as [Heq' | _];
      [congruence | reflexivity].
  - simpl. now rewrite IH.
Qed.

Lemma findDoc_replaceDoc_same (key : string) (docs : list Object)
  (d d' : Object) :
  Mem.findDoc key docs = Some d ->
  Mem.stringAttr d' "_key" = key ->
  Mem.findDoc key (Mem.replaceDoc key d' docs) = Some d'.
Proof.
  intros Hfound Hkey. induction docs as [| d0 docs IH]; simpl in *;
    [discriminate |].
  destruct (String.eqb (Mem.stringAttr d0 "_key") key) eqn:Heq; simpl.
  - now rewrite Hkey, String.eqb_refl.
  - rewrite Heq. now apply IH.
Qed.

Section MissingAndDeleted.

Context {T : Type} `{Entity T} `{Document T}.

Variable name : string.

(** X5.  On a collection of the in-memory store whose keys are distinct:
    after a successful Delete of an id, GetByID on that id returns "entity
    not found", a second Delete of it returns "entity not found" as well,
    and GetByID on every other id answers as before. *)
Theorem Delete_then_GetByID_is_not_found :
  forall (db db' : Mem.ArangoDB) (c : Mem.Coll) (id : string),
    Mem.lookup name (Mem.collections db) = Some c ->
    NoDup (map (fun d => Mem.stringAttr d "_key") (Mem.documents c)) ->
    Delete (NewBaseRepository Mem.database (Mem.getCollection name) name)
      id db = (None, db') ->
    GetByID (T:=T)
      (NewBaseRepository Mem.database (Mem.getCollection name) name) id db'
    = (Err (wrapError "entity not found" Mem.ErrDocumentNotFound), db')
    /\ Delete (NewBaseRepository Mem.database (Mem.getCollection name) name)
         id db'
       = (Some (wrapError "entity not found" Mem.ErrDocumentNotFound), db')
    /\ (forall id',
           id' <> id ->
           fst (GetByID (T:=T)
                  (NewBaseRepository Mem.database (Mem.getCollection name)
                     name) id' db')
           = fst (GetByID (T:=T)
                    (NewBaseRepository Mem.database (Mem.getCollection name)
                       name) id' db)).
Proof.
  intros db db' c id Hc Hnd.
  unfold Delete, GetByID; simpl. unfold Mem.deleteDocument, Mem.readDocument.
  rewrite Hc.
  destruct (Mem.findDoc id (Mem.documents c)) as [doc |] eqn:Hdoc;
    [| discriminate].
  intros [= <-]. simpl. erewrite lookup_replace by exact Hc. simpl.
  rewrite (findDoc_removeDoc_same id _ Hnd). simpl.
  split; [reflexivity |]. split; [reflexivity |].
  intros id' Hne. rewrite (findDoc_removeDoc_other _ Hne).
  destruct (Mem.findDoc id' (Mem.documents c)) as [d |]; simpl;
    [| reflexivity].
  destruct (decode d) as [e | err]; simpl; [reflexivity |].
  now destruct (IsNotFound err).
Qed.

(** X6.  On a collection of the in-memory store that holds no document
    under the id: GetByID and Delete return "entity not found", and so does
    Update for every entity the driver can encode; an entity it cannot
    encode is turned down with the encoder's error before the store is
    asked.  In every case the store is left as it was; Update creates
    nothing, and has stamped the entity all the same. *)
Theorem missing_id_is_not_found_and_nothing_is_written :
  forall (db : Mem.ArangoDB) (c : Mem.Coll) (id : string) (now : Time)
         (e : T),
    Mem.lookup name (Mem.collections db) = Some c ->
    Mem.findDoc id (Mem.documents c) = None ->
    GetByID (T:=T)
      (NewBaseRepository Mem.database (Mem.getCollection name) name) id db
    = (Err (wrapError "entity not found" Mem.ErrDocumentNotFound), db)
    /\ Update (NewBaseRepository Mem.database (Mem.getCollection name) name)
         now id e db
       = ((SetTimestamps e (GetUpdatedAt e) now,
           Some (match Marshal (SetTimestamps e (GetUpdatedAt e) now) with
                 | Ok _ =>
                     wrapError "entity not found" Mem.ErrDocumentNotFound
                 | Err err =>
                     wrapError (if IsNotFound err then "entity not found"
                                else "failed to update entity") err
                 end)), db)
    /\ Delete (NewBaseRepository Mem.database (Mem.getCollection name) name)
         id db
       = (Some (wrapError "entity not found" Mem.ErrDocumentNotFound), db).
Proof.
  intros db c id now e Hc Hnone.
  unfold GetByID, Update, Delete; simpl.
  unfold Mem.readDocument, Mem.updateDocument, Mem.deleteDocument.
  rewrite Hc, Hnone. simpl. split; [reflexivity |]. split; [| reflexivity].
  destruct (Marshal (SetTimestamps e (GetUpdatedAt e) now)) as [o | err].
  - unfold Mem.patchDocument. now rewrite Hc, Hnone.
  - now destruct (IsNotFound err).
Qed.

End MissingAndDeleted.

Lemma family_keys :
  NoDup (map (fun d => Mem.stringAttr d "_key")
           (Mem.documents familyPersons)).
Proof.
  repeat constructor; simpl; intuition discriminate.
Qed.

(** Ada ("1") is deleted from the sample store; she is gone and Charles
    ("2") is still found. *)
Lemma Delete_then_GetByID_is_not_found_witness :
  let db' := snd (Delete Mem.persons "1" family) in
  GetByID (T:=Person.t) Mem.persons "1" db'
  = (Err (wrapError "entity not found" Mem.ErrDocumentNotFound), db')
  /\ fst (GetByID (T:=Person.t) Mem.persons "2" db') = Ok charlesStored.
Proof.
  intros db'.
  destruct family_persons as [Hc _].
  destruct (@Delete_then_GetByID_is_not_found Person.t Person_Entity
              Person_Document "persons" family db' familyPersons "1"
              Hc family_keys eq_refl) as (Hgone & _ & Hother).
  split; [exact Hgone |].
  assert (Hne : "2" <> "1") by discriminate.
  exact (eq_trans (Hother "2" Hne) eq_refl).
Defined.

Lemma missing_id_is_not_found_and_nothing_is_written_witness :
  Update Mem.persons 2000%Z "99" ada family
  = ((Person.SetTimestamps ada 0%Z 2000%Z,
      Some (wrapError "entity not found" Mem.ErrDocumentNotFound)), family).
Proof.
  destruct family_persons as [Hc _].
  destruct (@missing_id_is_not_found_and_nothing_is_written Person.t
              Person_Entity Person_Document "persons" family familyPersons
              "99" 2000%Z ada Hc eq_refl) as (_ & Hupdate & _).
  exact Hupdate.
Defined.

(* ------------------------------------------------------------------ *)
(** ** List on a populated collection *)

Lemma List_stores {T : Type} `{Entity T} `{Document T}
  (Unmarshal_sameObject :
     forall a b : Object, sameObject a b -> Unmarshal a = Unmarshal b)
  (Unmarshal_document : forall e : T, Unmarshal (document e) = Some e)
  (name : string) (db : Mem.ArangoDB) (c : Mem.Coll) (es : list T) :
  Mem.lookup name (Mem.collections db) = Some c ->
  stores (Mem.documents c) es ->
  List (NewBaseRepository Mem.database (Mem.getCollection name) name) db
  = (Ok (collect es), db).
Proof.
  intros Hc Hst. unfold List; simpl.
  destruct (@lookup_stores T _ Unmarshal_sameObject Unmarshal_document
              {| AQL.forVar := "doc"; AQL.inCollection := name;
                 AQL.filterExpr := None; AQL.returnVar := "doc" |} []
              (fun _ => true) (fun _ => eq_refl) "failed to read entity"
              db c es eq_refl Hc Hst) as (cursor & Hq & Hread).
  unfold listQuery; simpl. rewrite Hq, Hread. now rewrite filter_all_true.
Qed.

(** X7.  On collections holding the stored forms of [ps] and of [rs], List
    returns every stored person and every stored relationship, in stored
    order, and the list handler answers 200 with those relationships and
    their number as the count. *)
Theorem List_returns_every_stored_entity :
  forall (text : Z -> Z -> string -> string) (db : Mem.ArangoDB)
         (cp cr : Mem.Coll) (ps : list Person.t) (rs : list Relationship.t),
    Mem.lookup "persons" (Mem.collections db) = Some cp ->
    stores (Mem.documents cp) ps ->
    Mem.lookup "relationships" (Mem.collections db) = Some cr ->
    stores (Mem.documents cr) rs ->
    List Mem.persons db = (Ok (collect ps), db)
    /\ List Mem.relationships db = (Ok (collect rs), db)
    /\ v1relationshipshandler.ListRelationships text familyHandler db
       = (v1relationshipshandler.SendJSON 200
            (v1relationshipshandler.RelationshipsListResponse (collect rs)
               (length rs)), db).
Proof.
  intros text db cp cr ps rs Hcp Hps Hcr Hrs.
  assert (Hp : List Mem.persons db = (Ok (collect ps), db))
    by exact (@List_stores Person.t Person_Entity Person_Document
                Person_Unmarshal_sameObject Person_Unmarshal_document
                "persons" db cp ps Hcp Hps).
  assert (Hr : List Mem.relationships db = (Ok (collect rs), db))
    by exact (@List_stores Relationship.t Relationship_Entity
                Relationship_Document Relationship_Unmarshal_sameObject
                Relationship_Unmarshal_document "relationships" db cr rs
                Hcr Hrs).
  split; [exact Hp |]. split; [exact Hr |].
  unfold v1relationshipshandler.ListRelationships, ListRelationships; simpl.
  change (List (NewRelationshipRepository Mem.database
                  (Mem.getCollection "relationships")) db)
    with (List (T:=Relationship.t) Mem.relationships db).
  rewrite Hr. unfold len. now rewrite elements_collect.
Qed.

Lemma List_returns_every_stored_entity_witness :
  List Mem.persons family = (Ok (mk_slice [charlesStored; adaStored]), family)
  /\ v1relationshipshandler.ListRelationships messageText familyHandler family
     = (v1relationshipshandler.SendJSON 200
          (v1relationshipshandler.RelationshipsListResponse
             (mk_slice [untypedStored; siblingsStored]) 2), family).
Proof.
  destruct family_persons as [Hcp Hps].
  destruct family_relationships as [Hcr Hrs].
  destruct (@List_returns_every_stored_entity messageText family
              familyPersons familyRelationships _ _ Hcp Hps Hcr Hrs)
    as (Hp & _ & Hh).
  split; [exact Hp | exact Hh].
Defined.

(* ------------------------------------------------------------------ *)
(** ** Reading and updating a stored document *)

Section FoundDocument.

Context {T : Type} `{Entity T} `{Document T}.

Variable name : string.

Lemma Mem_GetByID_found (db : Mem.ArangoDB) (c : Mem.Coll) (id : string)
  (doc : Object) (e : T) :
  Mem.lookup name (Mem.collections db) = Some c ->
  Mem.findDoc id (Mem.documents c) = Some doc ->
  Unmarshal doc = Some e ->
  GetByID (NewBaseRepository Mem.database (Mem.getCollection name) name) id db
  = (Ok (SetMetadata e id (Mem.stringAttr doc "_id")
           (Mem.stringAttr doc "_rev")), db).
Proof.
  intros Hc Hdoc He. unfold GetByID; simpl. unfold Mem.readDocument.
  rewrite Hc, Hdoc. unfold decode. rewrite He. simpl.
  now rewrite (findDoc_key _ _ Hdoc).
Qed.

Lemma Mem_Update_found (db : Mem.ArangoDB) (c : Mem.Coll) (id : string)
  (doc patch : Object) (now : Time) (e : T) :
  Mem.lookup name (Mem.collections db) = Some c ->
  Mem.findDoc id (Mem.documents c) = Some doc ->
  let e1 := SetTimestamps e (GetUpdatedAt e) now in
  let meta := DocumentMeta.mk id (Mem.stringAttr doc "_id")
                (Mem.fresh (Datatypes.S (Mem.tick db))) in
  Marshal e1 = Ok patch ->
  Update (NewBaseRepository Mem.database (Mem.getCollection name) name)
    now id e db
  = ((SetMetadata e1 id (Mem.stringAttr doc "_id")
        (Mem.fresh (Datatypes.S (Mem.tick db))), None),
     {| Mem.collections :=
          Mem.replace name
            {| Mem.kind := Mem.kind c;
               Mem.documents :=
                 Mem.replaceDoc id (Mem.stamp (patch ++ doc) meta)
                   (Mem.documents c) |} (Mem.collections db);
        Mem.tick := Datatypes.S (Mem.tick db) |}).
Proof.
  intros Hc Hdoc e1 meta Hm. unfold Update; simpl. unfold Mem.updateDocument.
  fold e1. rewrite Hm. unfold Mem.patchDocument.
  rewrite Hc, Hdoc. simpl. subst meta. now rewrite (findDoc_key _ _ Hdoc).
Qed.


End FoundDocument.

Lemma jsonString_eqb_empty (s : string) :
  String.eqb (jsonString s) "" = String.eqb s "".
Proof.
  destruct (String.eqb_spec s "") as [-> | Hs]; [reflexivity |].
  apply String.eqb_neq. intros He. apply Hs. now apply jsonString_empty.
Qed.

Lemma Relationship_Unmarshal_notes (doc : Object) (old : Relationship.t) :
  Relationship.Unmarshal doc = Some old ->
  getString doc "notes" = Some (Relationship.Notes old).
Proof.
  unfold Relationship.Unmarshal.
  destruct (getString doc "_key"), (getString doc "_id"),
    (getString doc "_rev"), (getString doc "_from"), (getString doc "_to"),
    (getString doc "relationType"), (getTime doc "startDate"),
    (getTime doc "endDate"), (getString doc "notes"),
    (getTime doc "createdAt"), (getTime doc "updatedAt");
    try discriminate.
  now intros [= <-].
Qed.

(** What a document decodes to after an update merged the document of the
    relationship [q] over it: the attributes always written come from [q],
    the notes from [q] unless it has none. *)
Lemma Relationship_Unmarshal_merge (q old : Relationship.t) (doc : Object)
  (meta : DocumentMeta.t) :
  Relationship.Unmarshal doc = Some old ->
  Relationship.Unmarshal (Mem.stamp (Relationship.document q ++ doc) meta)
  = Some (Relationship.mk (DocumentMeta.Key meta) (DocumentMeta.ID meta)
            (DocumentMeta.Rev meta) (Relationship.From q) (Relationship.To q)
            (Relationship.RelationType q) (Relationship.StartDate q)
            (Relationship.EndDate q)
            (if String.eqb (Relationship.Notes q) ""
             then Relationship.Notes old else Relationship.Notes q)
            (Relationship.CreatedAt q) (Relationship.UpdatedAt q)).
Proof.
  intros Hold. pose proof (Relationship_Unmarshal_notes doc Hold) as Hn.
  unfold getString in Hn.
  destruct q as [k i v f t rt sd ed n c u], meta as [mk mi mv].
  unfold Relationship.document, Mem.stamp, Relationship.Unmarshal, getString,
    getTime.
  cbn [Relationship.Key Relationship.ID Relationship.Rev Relationship.From
       Relationship.To Relationship.RelationType Relationship.StartDate
       Relationship.EndDate Relationship.Notes Relationship.CreatedAt
       Relationship.UpdatedAt
       DocumentMeta.Key DocumentMeta.ID DocumentMeta.Rev].
  split_omitempty; simpl; rewrite ?Hn; reflexivity.
Qed.

Lemma Person_Unmarshal_optional (doc : Object) (old : Person.t) :
  Person.Unmarshal doc = Some old ->
  getString doc "gender" = Some (Person.Gender old)
  /\ getString doc "email" = Some (Person.Email old)
  /\ getString doc "phone" = Some (Person.Phone old).
Proof.
  unfold Person.Unmarshal.
  destruct (getString doc "_key"), (getString doc "_id"),
    (getString doc "_rev"), (getString doc "firstName"),
    (getString doc "lastName"), (getTime doc "birthDate"),
    (getTime doc "deathDate"), (getString doc "gender"),
    (getString doc "email"), (getString doc "phone"),
    (getTime doc "createdAt"), (getTime doc "updatedAt");
    try discriminate.
  now intros [= <-].
Qed.

Lemma Person_Unmarshal_merge (p old : Person.t) (doc : Object)
  (meta : DocumentMeta.t) :
  Person.Unmarshal doc = Some old ->
  Person.Unmarshal (Mem.stamp (Person.document p ++ doc) meta)
  = Some (Person.mk (DocumentMeta.Key meta) (DocumentMeta.ID meta)
            (DocumentMeta.Rev meta) (Person.FirstName p) (Person.LastName p)
            (Person.BirthDate p) (Person.DeathDate p)
            (if String.eqb (Person.Gender p) ""
             then Person.Gender old else Person.Gender p)
            (if String.eqb (Person.Email p) ""
             then Person.Email old else Person.Email p)
            (if String.eqb (Person.Phone p) ""
             then Person.Phone old else Person.Phone p)
            (Person.CreatedAt p) (Person.UpdatedAt p)).
Proof.
  intros Hold.
  destruct (Person_Unmarshal_optional doc Hold) as (Hg & He & Hph).
  unfold getString in Hg, He, Hph.
  destruct p as [k i v fn ln bd dd g e ph c u], meta as [mk mi mv].
  unfold Person.document, Mem.stamp, Person.Unmarshal, getString, getTime.
  cbn [Person.Key Person.ID Person.Rev Person.FirstName Person.LastName
       Person.BirthDate Person.DeathDate Person.Gender Person.Email
       Person.Phone Person.CreatedAt Person.UpdatedAt
       DocumentMeta.Key DocumentMeta.ID DocumentMeta.Rev].
  split_omitempty; simpl; rewrite ?Hg, ?He, ?Hph; reflexivity.
Qed.

(** A document that is the stored form of an entity decodes to it. *)
Lemma Person_stored_form (doc : Object) (old : Person.t) :
  sameObject doc (Person.document old) -> Person.Unmarshal doc = Some old.
Proof.
  intros Hst. rewrite (Person_Unmarshal_sameObject Hst).
  apply Person_Unmarshal_document.
Qed.

Lemma Relationship_stored_form (doc : Object) (old : Relationship.t) :
  sameObject doc (Relationship.document old) ->
  Relationship.Unmarshal doc = Some old.
Proof.
  intros Hst. rewrite (Relationship_Unmarshal_sameObject Hst).
  apply Relationship_Unmarshal_document.
Qed.

(** What the in-memory store holds under the id after a successful Update
    of a person: the document written, merged over the stored one. *)
Lemma Person_Update_then_GetByID (db : Mem.ArangoDB) (c : Mem.Coll)
  (id : string) (now : Time) (doc : Object) (p old : Person.t) :
  Mem.lookup "persons" (Mem.collections db) = Some c ->
  Mem.findDoc id (Mem.documents c) = Some doc ->
  Person.Unmarshal doc = Some old ->
  Person.encodable (Person.SetTimestamps p (Person.UpdatedAt p) now) = true ->
  exists p' db',
    Update Mem.persons now id p db = ((p', None), db')
    /\ p' = Person.SetMetadata
              (Person.SetTimestamps p (Person.UpdatedAt p) now) id
              (Mem.stringAttr doc "_id")
              (Mem.fresh (Datatypes.S (Mem.tick db)))
    /\ GetByID Mem.persons id db'
       = (Ok (Person.mk (Person.Key p') (Person.ID p') (Person.Rev p')
                (jsonString (Person.FirstName p))
                (jsonString (Person.LastName p))
                (Person.BirthDate p) (Person.DeathDate p)
                (if String.eqb (Person.Gender p) ""
                 then Person.Gender old else jsonString (Person.Gender p))
                (if String.eqb (Person.Email p) ""
                 then Person.Email old else jsonString (Person.Email p))
                (if String.eqb (Person.Phone p) ""
                 then Person.Phone old else jsonString (Person.Phone p))
                (Person.CreatedAt p') now), db').
Proof.
  intros Hc Hd Hold Henc.
  set (e1 := Person.SetTimestamps p (Person.UpdatedAt p) now) in *.
  assert (Hm : Person.Marshal e1 = Ok (Person.document (Person.written e1)))
    by (unfold Person.Marshal; now rewrite Henc).
  pose proof (@Mem_Update_found Person.t Person_Entity Person_Document
                "persons" db c id doc _ now p Hc Hd Hm) as Hup.
  cbv zeta in Hup. do 2 eexists. split; [exact Hup |].
  split; [reflexivity |].
  pose proof (Person_Unmarshal_merge (Person.written e1) doc
                (DocumentMeta.mk id (Mem.stringAttr doc "_id")
                   (Mem.fresh (Datatypes.S (Mem.tick db)))) Hold) as He.
  set (doc' := Mem.stamp _ _) in He.
  set (c' := {| Mem.kind := Mem.kind c;
                Mem.documents := Mem.replaceDoc id doc' (Mem.documents c) |}).
  set (db' := {| Mem.collections :=
                   Mem.replace "persons" c' (Mem.collections db);
                 Mem.tick := Datatypes.S (Mem.tick db) |}).
  assert (Hc' : Mem.lookup "persons" (Mem.collections db') = Some c')
    by (apply (lookup_replace "persons" c' (Mem.collections db) Hc)).
  assert (Hd' : Mem.findDoc id (Mem.documents c') = Some doc')
    by (apply (findDoc_replaceDoc_same (Mem.documents c) doc' Hd);
        reflexivity).
  etransitivity;
    [apply (@Mem_GetByID_found Person.t Person_Entity Person_Document
              "persons" db' c' id doc' _ Hc' Hd' He) |].
  subst db' c' doc' e1. unfold Mem.stringAttr.
  cbn [attr Mem.stamp String.eqb Ascii.eqb Bool.eqb DocumentMeta.Key
       DocumentMeta.ID DocumentMeta.Rev].
  cbn [SetTimestamps GetUpdatedAt Person_Entity].
  unfold Person.written, Person.SetTimestamps, Person.setCreatedAt,
    Person.setUpdatedAt, Person.GetUpdatedAt.
  destruct (IsZero (Person.CreatedAt p));
    cbn [Person.Key Person.ID Person.Rev Person.FirstName Person.LastName
         Person.BirthDate Person.DeathDate Person.Gender Person.Email
         Person.Phone Person.CreatedAt Person.UpdatedAt SetMetadata
         Person_Entity Person.SetMetadata];
    rewrite !jsonString_eqb_empty; reflexivity.
Qed.

Lemma Relationship_Update_then_GetByID (db : Mem.ArangoDB) (c : Mem.Coll)
  (id : string) (now : Time) (doc : Object) (q old : Relationship.t) :
  Mem.lookup "relationships" (Mem.collections db) = Some c ->
  Mem.findDoc id (Mem.documents c) = Some doc ->
  Relationship.Unmarshal doc = Some old ->
  Relationship.encodable
    (Relationship.SetTimestamps q (Relationship.UpdatedAt q) now) = true ->
  exists q' db',
    Update Mem.relationships now id q db = ((q', None), db')
    /\ q' = Relationship.SetMetadata
              (Relationship.SetTimestamps q (Relationship.UpdatedAt q) now)
              id (Mem.stringAttr doc "_id")
              (Mem.fresh (Datatypes.S (Mem.tick db)))
    /\ GetByID Mem.relationships id db'
       = (Ok (Relationship.mk (Relationship.Key q') (Relationship.ID q')
                (Relationship.Rev q') (jsonString (Relationship.From q))
                (jsonString (Relationship.To q))
                (jsonString (Relationship.RelationType q))
                (Relationship.StartDate q) (Relationship.EndDate q)
                (if String.eqb (Relationship.Notes q) ""
                 then Relationship.Notes old
                 else jsonString (Relationship.Notes q))
                (Relationship.CreatedAt q') now), db').
Proof.
  intros Hc Hd Hold Henc.
  set (e1 := Relationship.SetTimestamps q (Relationship.UpdatedAt q) now)
    in *.
  assert (Hm : Relationship.Marshal e1
               = Ok (Relationship.document (Relationship.written e1)))
    by (unfold Relationship.Marshal; now rewrite Henc).
  pose proof (@Mem_Update_found Relationship.t Relationship_Entity
                Relationship_Document "relationships" db c id doc _ now q
                Hc Hd Hm) as Hup.
  cbv zeta in Hup. do 2 eexists. split; [exact Hup |].
  split; [reflexivity |].
  pose proof (Relationship_Unmarshal_merge (Relationship.written e1) doc
                (DocumentMeta.mk id (Mem.stringAttr doc "_id")
                   (Mem.fresh (Datatypes.S (Mem.tick db)))) Hold) as He.
  set (doc' := Mem.stamp _ _) in He.
  set (c' := {| Mem.kind := Mem.kind c;
                Mem.documents := Mem.replaceDoc id doc' (Mem.documents c) |}).
  set (db' := {| Mem.collections :=
                   Mem.replace "relationships" c' (Mem.collections db);
                 Mem.tick := Datatypes.S (Mem.tick db) |}).
  assert (Hc' : Mem.lookup "relationships" (Mem.collections db') = Some c')
    by (apply (lookup_replace "relationships" c' (Mem.collections db) Hc)).
  assert (Hd' : Mem.findDoc id (Mem.documents c') = Some doc')
    by (apply (findDoc_replaceDoc_same (Mem.documents c) doc' Hd);
        reflexivity).
  etransitivity;
    [apply (@Mem_GetByID_found Relationship.t Relationship_Entity
              Relationship_Document "relationships" db' c' id doc' _
              Hc' Hd' He) |].
  subst db' c' doc' e1. unfold Mem.stringAttr.
  cbn [attr Mem.stamp String.eqb Ascii.eqb Bool.eqb DocumentMeta.Key
       DocumentMeta.ID DocumentMeta.Rev].
  cbn [SetTimestamps GetUpdatedAt Relationship_Entity].
  unfold Relationship.written, Relationship.SetTimestamps,
    Relationship.setCreatedAt, Relationship.setUpdatedAt,
    Relationship.GetUpdatedAt.
  destruct (IsZero (Relationship.CreatedAt q));
    cbn [Relationship.Key Relationship.ID Relationship.Rev
         Relationship.From Relationship.To Relationship.RelationType
         Relationship.StartDate Relationship.EndDate Relationship.Notes
         Relationship.CreatedAt Relationship.UpdatedAt SetMetadata
         Relationship_Entity Relationship.SetMetadata];
    rewrite !jsonString_eqb_empty; reflexivity.
Qed.

(* ------------------------------------------------------------------ *)
(** ** Timestamps across writes *)

(** C1 (as amended).  For Person and Relationship alike.  Over every
    store: Create stamps createdAt on the entity passed with the clock
    reading when it is unset and keeps it otherwise; Update keeps the
    createdAt of the entity passed when it is set and otherwise sets it to
    the updatedAt the entity came with; Update sets updatedAt to the clock
    reading of the call, so that updatedAt moves strictly forward exactly
    when that reading is later than the previous updatedAt; and an entity
    whose createdAt is set keeps it through every sequence of Create and
    Update calls it is handed to.  On the in-memory store: neither call
    looks at the stored document, and after a successful Update the stored
    createdAt is the one the entity passed carries after the stamping,
    whatever createdAt the document held before. *)
Theorem createdAt_follows_the_entity_passed :
  (forall (S : Type) (r : BaseRepository S) (s : S) (now : Time)
          (id : string) (p : Person.t),
      Person.CreatedAt (fst (fst (Create r now p s)))
      = (if IsZero (Person.CreatedAt p) then now else Person.CreatedAt p)
      /\ Person.CreatedAt (fst (fst (Update r now id p s)))
         = (if IsZero (Person.CreatedAt p) then Person.UpdatedAt p
            else Person.CreatedAt p)
      /\ Person.UpdatedAt (fst (fst (Update r now id p s))) = now
      /\ ((Person.UpdatedAt p
           < Person.UpdatedAt (fst (fst (Update r now id p s))))%Z
          <-> (Person.UpdatedAt p < now)%Z)
      /\ (forall ws : list write,
             IsZero (Person.CreatedAt p) = false ->
             Person.CreatedAt (fst (applyWrites r ws p s))
             = Person.CreatedAt p))
  /\
  (forall (S : Type) (r : BaseRepository S) (s : S) (now : Time)
          (id : string) (q : Relationship.t),
      Relationship.CreatedAt (fst (fst (Create r now q s)))
      = (if IsZero (Relationship.CreatedAt q) then now
         else Relationship.CreatedAt q)
      /\ Relationship.CreatedAt (fst (fst (Update r now id q s)))
         = (if IsZero (Relationship.CreatedAt q)
            then Relationship.UpdatedAt q else Relationship.CreatedAt q)
      /\ Relationship.UpdatedAt (fst (fst (Update r now id q s))) = now
      /\ ((Relationship.UpdatedAt q
           < Relationship.UpdatedAt (fst (fst (Update r now id q s))))%Z
          <-> (Relationship.UpdatedAt q < now)%Z)
      /\ (forall ws : list write,
             IsZero (Relationship.CreatedAt q) = false ->
             Relationship.CreatedAt (fst (applyWrites r ws q s))
             = Relationship.CreatedAt q))
  /\
  (forall (db : Mem.ArangoDB) (c : Mem.Coll) (id : string) (now : Time)
          (doc : Object) (p old : Person.t),
      Mem.lookup "persons" (Mem.collections db) = Some c ->
      Mem.findDoc id (Mem.documents c) = Some doc ->
      sameObject doc (Person.document old) ->
      Person.encodable (Person.SetTimestamps p (Person.UpdatedAt p) now)
      = true ->
      exists before p' db' fetched,
        GetByID Mem.persons id db = (Ok before, db)
        /\ Person.CreatedAt before = Person.CreatedAt old
        /\ Update Mem.persons now id p db = ((p', None), db')
        /\ GetByID Mem.persons id db' = (Ok fetched, db')
        /\ Person.CreatedAt fetched
           = (if IsZero (Person.CreatedAt p) then Person.UpdatedAt p
              else Person.CreatedAt p)
        /\ Person.UpdatedAt fetched = now)
  /\
  (forall (db : Mem.ArangoDB) (c : Mem.Coll) (id : string) (now : Time)
          (doc : Object) (q old : Relationship.t),
      Mem.lookup "relationships" (Mem.collections db) = Some c ->
      Mem.findDoc id (Mem.documents c) = Some doc ->
      sameObject doc (Relationship.document old) ->
      Relationship.encodable
        (Relationship.SetTimestamps q (Relationship.UpdatedAt q) now)
      = true ->
      exists before q' db' fetched,
        GetByID Mem.relationships id db = (Ok before, db)
        /\ Relationship.CreatedAt before = Relationship.CreatedAt old
        /\ Update Mem.relationships now id q db = ((q', None), db')
        /\ GetByID Mem.relationships id db' = (Ok fetched, db')
        /\ Relationship.CreatedAt fetched
           = (if IsZero (Relationship.CreatedAt q)
              then Relationship.UpdatedAt q else Relationship.CreatedAt q)
        /\ Relationship.UpdatedAt fetched = now).
Proof.
  split; [| split; [| split]].
  - intros S r s now id p.
    split; [apply Person_Create_CreatedAt |].
    split; [apply Person_Update_CreatedAt_stamped |].
    rewrite Person_Update_UpdatedAt. split; [reflexivity |].
    split; [reflexivity |].
    intros ws Hset. now apply Person_applyWrites_CreatedAt.
  - intros S r s now id q.
    split; [apply Relationship_Create_CreatedAt |].
    split; [apply Relationship_Update_CreatedAt_stamped |].
    rewrite Relationship_Update_UpdatedAt. split; [reflexivity |].
    split; [reflexivity |].
    intros ws Hset. now apply Relationship_applyWrites_CreatedAt.
  - intros db c id now doc p old Hc Hd Hst Henc.
    pose proof (@Person_stored_form doc old Hst) as Hold.
    destruct (@Person_Update_then_GetByID db c id now doc p old Hc Hd Hold
                Henc) as (p' & db' & Hup & -> & Hget).
    eexists. eexists. exists db'. eexists.
    split; [exact (@Mem_GetByID_found Person.t Person_Entity Person_Document
                     "persons" db c id doc old Hc Hd Hold) |].
    split; [reflexivity |].
    split; [exact Hup |]. split; [exact Hget |].
    split; [| reflexivity].
    cbn [Person.CreatedAt Person.SetMetadata].
    apply Person_SetTimestamps_CreatedAt.
  - intros db c id now doc q old Hc Hd Hst Henc.
    pose proof (@Relationship_stored_form doc old Hst) as Hold.
    destruct (@Relationship_Update_then_GetByID db c id now doc q old Hc Hd
                Hold Henc) as (q' & db' & Hup & -> & Hget).
    eexists. eexists. exists db'. eexists.
    split; [exact (@Mem_GetByID_found Relationship.t Relationship_Entity
                     Relationship_Document "relationships" db c id doc old
                     Hc Hd Hold) |].
    split; [reflexivity |].
    split; [exact Hup |]. split; [exact Hget |].
    split; [| reflexivity].
    cbn [Relationship.CreatedAt Relationship.SetMetadata].
    apply Relationship_SetTimestamps_CreatedAt.
Qed.

(** Ada is created at reading 1000 and updated at reading 2000 with the
    value Create left: createdAt stays 1000.  Charles, stored with createdAt
    1001, is updated at reading 2000 with a value that carries createdAt
    500: the stored createdAt is 500 afterwards. *)
Lemma createdAt_follows_the_entity_passed_witness :
  (let p := fst (fst (Create Mem.persons 1000%Z ada bootstrapped)) in
   Person.CreatedAt p = 1000%Z
   /\ Person.CreatedAt
        (fst (fst (Update Mem.persons 2000%Z "1" p bootstrapped))) = 1000%Z
   /\ Person.UpdatedAt
        (fst (fst (Update Mem.persons 2000%Z "1" p bootstrapped))) = 2000%Z)
  /\ (exists before p' db' fetched,
         GetByID Mem.persons "2" family = (Ok before, family)
         /\ Person.CreatedAt before = 1001%Z
         /\ Update Mem.persons 2000%Z "2" adaImported family
            = ((p', None), db')
         /\ GetByID Mem.persons "2" db' = (Ok fetched, db')
         /\ Person.CreatedAt fetched = 500%Z
         /\ Person.UpdatedAt fetched = 2000%Z).
Proof.
  destruct createdAt_follows_the_entity_passed as (Hp & _ & Hstored & _).
  split.
  - intros p.
    destruct (Hp Mem.ArangoDB Mem.persons bootstrapped 1000%Z "1" ada)
      as (Hc & _).
    destruct (Hp Mem.ArangoDB Mem.persons bootstrapped 2000%Z "1" p)
      as (_ & Hu & Hn & _).
    split; [exact Hc |]. split; [exact Hu | exact Hn].
  - destruct family_persons as [Hc _].
    assert (Hst : sameObject (Person.document charlesStored)
                    (Person.document charlesStored))
      by (intros name; reflexivity).
    exact (Hstored family familyPersons "2" 2000%Z
             (Person.document charlesStored) adaImported charlesStored
             Hc eq_refl Hst eq_refl).
Defined.

(** C1, the claim as written fails.  Ada is created at reading 1000; an
    update within the same reading of the clock goes through, and her
    updatedAt is not later than before.  An update at reading 2000 with a
    value that has no createdAt and the updatedAt 500 goes through as well:
    it is Update that sets createdAt on that value, to 500, and the stored
    createdAt, 1000 before the call, is 500 after it. *)
Lemma update_overwrites_createdAt_and_may_keep_updatedAt :
  let '((p1, _), db1) := Create Mem.persons 1000%Z ada bootstrapped in
  let '((p2, err2), _) := Update Mem.persons 1000%Z (Person.Key p1) p1 db1 in
  let '((p3, err3), db3) :=
    Update Mem.persons 2000%Z (Person.Key p1) adaRevised db1 in
  err2 = None
  /\ IsZero (Person.CreatedAt p1) = false
  /\ Person.CreatedAt p2 = Person.CreatedAt p1
  /\ ~ (Person.UpdatedAt p1 < Person.UpdatedAt p2)%Z
  /\ err3 = None
  /\ IsZero (Person.CreatedAt adaRevised) = true
  /\ Person.CreatedAt p3 = 500%Z
  /\ match GetByID Mem.persons (Person.Key p1) db1,
           GetByID Mem.persons (Person.Key p1) db3 with
     | (Ok before, _), (Ok after, _) =>
         Person.CreatedAt before = 1000%Z /\ Person.CreatedAt after = 500%Z
     | _, _ => False
     end.
Proof.
  vm_compute. repeat split; discriminate.
Qed.

(* ------------------------------------------------------------------ *)
(** ** Update followed by GetByID *)



(* ------------------------------------------------------------------ *)
(** ** Updates through the services *)

Lemma Relationship_encodable_SetMetadata (q : Relationship.t) (u now : Time)
  (k i v : string) :
  Relationship.encodable
    (Relationship.SetTimestamps (Relationship.SetMetadata q k i v) u now)
  = Relationship.encodable (Relationship.SetTimestamps q u now).
Proof.
  unfold Relationship.SetTimestamps, Relationship.encodable.
  cbn [Relationship.SetMetadata Relationship.CreatedAt].
  now destruct (IsZero (Relationship.CreatedAt q)).
Qed.

Lemma Person_encodable_SetMetadata (p : Person.t) (u now : Time)
  (k i v : string) :
  Person.encodable (Person.SetTimestamps (Person.SetMetadata p k i v) u now)
  = Person.encodable (Person.SetTimestamps p u now).
Proof.
  unfold Person.SetTimestamps, Person.encodable.
  cbn [Person.SetMetadata Person.CreatedAt].
  now destruct (IsZero (Person.CreatedAt p)).
Qed.





(* ------------------------------------------------------------------ *)
(** ** Splitting at a byte *)

Lemma prefix_nil (s : string) : String.prefix "" s = true.
Proof. now destruct s. Qed.

Lemma Contains_byte_cons (c d : ascii) (s : string) :
  Contains (String d s) (String c "")
  = Ascii.eqb d c || Contains s (String c "").
Proof.
  rewrite Contains_cons. f_equal. simpl.
  destruct (ascii_dec c d) as [-> | Hne].
  - now rewrite prefix_nil, Ascii.eqb_refl.
  - symmetry. apply Ascii.eqb_neq. congruence.
Qed.

Lemma Split_nonempty (s : string) (sep : ascii) : Split s sep <> [].
Proof.
  destruct s as [| c s]; simpl; [discriminate |].
  destruct (Ascii.eqb c sep); [discriminate |].
  destruct (Split s sep); discriminate.
Qed.

(** Joining the pieces gives the string back. *)
Lemma Join_Split (s : string) (sep : ascii) : Join (Split s sep) sep = s.
Proof.
  induction s as [| c s IH]; [reflexivity |]. simpl.
  destruct (Ascii.eqb_spec c sep) as [-> | Hne].
  - pose proof (Split_nonempty s sep) as Hn.
    simpl. destruct (Split s sep) as [| piece pieces]; [contradiction |].
    simpl in *. now rewrite IH.
  - pose proof (Split_nonempty s sep) as Hn.
    destruct (Split s sep) as [| piece pieces]; [contradiction |].
    destruct pieces as [| piece' pieces]; simpl in *; now rewrite <- IH.
Qed.

(** No piece holds the separator. *)
Lemma Split_pieces (s : string) (sep : ascii) :
  Forall (fun piece => Contains piece (String sep "") = false) (Split s sep).
Proof.
  induction s as [| c s IH]; simpl.
  - now repeat constructor.
  - destruct (Ascii.eqb c sep) eqn:Hc.
    + constructor; [reflexivity | exact IH].
    + destruct (Split s sep) as [| piece pieces].
      { constructor; [| constructor].
        now rewrite Contains_byte_cons, Hc. }
      inversion IH as [| ? ? Hpiece Hrest]; subst.
      constructor; [| exact Hrest].
      now rewrite Contains_byte_cons, Hc, Hpiece.
Qed.

Lemma Split_without (s : string) (sep : ascii) :
  Contains s (String sep "") = false -> Split s sep = [s].
Proof.
  induction s as [| c s IH]; [reflexivity |].
  rewrite Contains_byte_cons. intros H.
  apply Bool.orb_false_iff in H as [Hc Hs]. simpl.
  now rewrite Hc, (IH Hs).
Qed.

Lemma Split_at (a b : string) (sep : ascii) :
  Contains a (String sep "") = false ->
  Split (a ++ String sep b) sep = a :: Split b sep.
Proof.
  induction a as [| c a IH]; simpl.
  - intros _. now rewrite Ascii.eqb_refl.
  - change (Contains (String c a) (String sep "") = false ->
            (if Ascii.eqb c sep then "" :: Split (a ++ String sep b) sep
             else match Split (a ++ String sep b) sep with
                  | [] => [String c ""]
                  | piece :: pieces => String c piece :: pieces
                  end) = String c a :: Split b sep).
    rewrite Contains_byte_cons. intros H.
    apply Bool.orb_false_iff in H as [Hc Ha].
    now rewrite Hc, (IH Ha).
Qed.

(* ------------------------------------------------------------------ *)
(** ** services/v1personservice *)

(** X11.  isValidEmail accepts exactly the strings made of a non-empty
    local part, one "@" and a non-empty domain that holds a "." and no
    further "@". *)
Theorem isValidEmail_accepts_local_at_dotted_domain :
  forall email : string,
    v1personservice.isValidEmail email = true
    <-> exists local domain,
          email = (local ++ "@" ++ domain)%string
          /\ local <> "" /\ domain <> ""
          /\ Contains local "@" = false
          /\ Contains domain "@" = false
          /\ Contains domain "." = true.
Proof.
  intros email. unfold v1personservice.isValidEmail. split.
  - pose proof (Join_Split email "@") as Hjoin.
    pose proof (Split_pieces email "@") as Hpieces.
    destruct (Split email "@") as [| local [| domain [| x rest]]];
      try discriminate.
    inversion Hpieces as [| ? ? Hl Hrest]; subst.
    inversion Hrest as [| ? ? Hd _]; subst.
    intros Hvalid. exists local, domain.
    destruct (String.length local =? 0)%nat eqn:El; [discriminate |].
    destruct (String.length domain =? 0)%nat eqn:Ed; [discriminate |].
    cbn [orb] in Hvalid.
    destruct (Contains domain ".") eqn:Hdot; [| discriminate].
    split; [reflexivity |].
    split; [intros ->; discriminate El |].
    split; [intros ->; discriminate Ed |].
    now repeat split.
  - intros (local & domain & -> & Hl & Hd & Hla & Hda & Hdot).
    change ((local ++ "@" ++ domain)%string)
      with ((local ++ String "@" domain)%string).
    rewrite (@Split_at local domain "@"%char Hla),
      (@Split_without domain "@"%char Hda).
    destruct local as [| a local]; [contradiction |].
    destruct domain as [| b domain]; [contradiction |].
    simpl String.length. simpl Nat.eqb. simpl orb. now rewrite Hdot.
Qed.

(** When the validation of the person service passes. *)
Lemma Person_validateCreateRequest_passes (TrimSpace : string -> string)
  (req : PersonCreateRequest.t) :
  v1personservice.validateCreateRequest TrimSpace req = None
  <-> TrimSpace (PersonCreateRequest.FirstName req) <> ""
      /\ TrimSpace (PersonCreateRequest.LastName req) <> ""
      /\ (PersonCreateRequest.Email req = ""
          \/ v1personservice.isValidEmail (PersonCreateRequest.Email req)
             = true).
Proof.
  unfold v1personservice.validateCreateRequest.
  destruct (String.eqb_spec (TrimSpace (PersonCreateRequest.FirstName req))
              "") as [Hf | Hf]; [split; [discriminate | tauto] |].
  destruct (String.eqb_spec (TrimSpace (PersonCreateRequest.LastName req))
              "") as [Hl | Hl]; [split; [discriminate | tauto] |].
  destruct (String.eqb_spec (PersonCreateRequest.Email req) "")
    as [He | He]; simpl; [tauto |].
  destruct (v1personservice.isValidEmail (PersonCreateRequest.Email req));
    simpl; split; try discriminate; try tauto.
  intros (_ & _ & [H | H]); [contradiction | discriminate].
Qed.

(** X12.  validateCreateRequest of the person service passes a request
    exactly when both names are non-empty after trimming and the email, as
    sent, is empty or valid; when it does not pass, CreatePerson returns
    its error over every repository with the store state untouched. *)
Theorem CreatePerson_rejects_before_any_store_call :
  forall (TrimSpace : string -> string) (req : PersonCreateRequest.t),
    (v1personservice.validateCreateRequest TrimSpace req = None
     <-> TrimSpace (PersonCreateRequest.FirstName req) <> ""
         /\ TrimSpace (PersonCreateRequest.LastName req) <> ""
         /\ (PersonCreateRequest.Email req = ""
             \/ v1personservice.isValidEmail (PersonCreateRequest.Email req)
                = true))
    /\ (forall err,
           v1personservice.validateCreateRequest TrimSpace req = Some err ->
           forall (S : Type) (svc : @v1personservice.PersonService S)
                  (now : Time) (st : S),
             v1personservice.CreatePerson TrimSpace svc now req st
             = (Err err, st)).
Proof.
  intros TrimSpace req. split.
  - apply Person_validateCreateRequest_passes.
  - intros err Hv S svc now st. unfold v1personservice.CreatePerson.
    now rewrite Hv.
Qed.

(** A request with the email "nobody" does not pass, and the sample store
    is not touched. *)
Lemma CreatePerson_rejects_before_any_store_call_witness :
  v1personservice.CreatePerson asciiTrimSpace familyPersonService 3000%Z
    (PersonCreateRequest.mk "Mary" "Somerville" 0%Z 0%Z "" "nobody" "") family
  = (Err (errorString "invalid email format"), family).
Proof.
  destruct (CreatePerson_rejects_before_any_store_call asciiTrimSpace
              (PersonCreateRequest.mk "Mary" "Somerville" 0%Z 0%Z "" "nobody"
                 "")) as [_ Hreject].
  exact (Hreject (errorString "invalid email format") eq_refl Mem.ArangoDB
           familyPersonService 3000%Z family).
Defined.

(** X13.  Over every store, with the arangorepository behind the service:
    whenever CreatePerson succeeds, the person it returns has the trimmed
    names of the request, both non-empty, the trimmed gender, email and
    phone, the dates of the request, and createdAt and updatedAt both equal
    to the clock reading. *)
Theorem CreatePerson_returns_trimmed_named_person :
  forall (TrimSpace : string -> string) (S : Type) (r : BaseRepository S)
         (now : Time) (req : PersonCreateRequest.t) (st st' : S)
         (p : Person.t),
    v1personservice.CreatePerson TrimSpace
      (v1personservice.NewPersonService (PersonRepository r)) now req st
    = (Ok p, st') ->
    Person.FirstName p = TrimSpace (PersonCreateRequest.FirstName req)
    /\ Person.FirstName p <> ""
    /\ Person.LastName p = TrimSpace (PersonCreateRequest.LastName req)
    /\ Person.LastName p <> ""
    /\ Person.Gender p = TrimSpace (PersonCreateRequest.Gender req)
    /\ Person.Email p = TrimSpace (PersonCreateRequest.Email req)
    /\ Person.Phone p = TrimSpace (PersonCreateRequest.Phone req)
    /\ Person.BirthDate p = PersonCreateRequest.BirthDate req
    /\ Person.DeathDate p = PersonCreateRequest.DeathDate req
    /\ Person.CreatedAt p = now /\ Person.UpdatedAt p = now.
Proof.
  intros TrimSpace S r now req st st' p.
  destruct (Person_validateCreateRequest_passes TrimSpace req)
    as [Hpass _].
  unfold v1personservice.CreatePerson.
  destruct (v1personservice.validateCreateRequest TrimSpace req);
    [discriminate |].
  destruct (Hpass eq_refl) as (Hf & Hl & _).
  simpl. unfold Create.
  destruct (CreateDocument (collection r) _ st) as [[meta | err] st1];
    [| discriminate].
  intros [= <- <-]. simpl. repeat split; assumption.
Qed.

Lemma CreatePerson_returns_trimmed_named_person_witness :
  exists db',
    v1personservice.CreatePerson asciiTrimSpace familyPersonService 3000%Z
      (PersonCreateRequest.mk " Mary " "Somerville " 0%Z 0%Z "" "" "") family
    = (Ok (Person.mk "5" "persons/5" "5" "Mary" "Somerville" 0%Z 0%Z
             "" "" "" 3000%Z 3000%Z), db')
    /\ Person.FirstName (Person.mk "5" "persons/5" "5" "Mary" "Somerville"
                           0%Z 0%Z "" "" "" 3000%Z 3000%Z) <> "".
Proof.
  eexists. split; [reflexivity |].
  refine (proj1 (proj2 (@CreatePerson_returns_trimmed_named_person
                          asciiTrimSpace Mem.ArangoDB Mem.persons 3000%Z
                          (PersonCreateRequest.mk " Mary " "Somerville "
                             0%Z 0%Z "" "" "") family _ _ eq_refl))).
Defined.



(* ------------------------------------------------------------------ *)
(** ** Creating a relationship through the service *)

(** X15.  Over every store, with the arangorepository behind the service,
    and for every trimming function that leaves the four type names
    unchanged: whenever CreateRelationship succeeds, the relationship it
    returns has the trimmed endpoints of the request, both non-empty and
    different as sent, a relationType that is one of parent, child, spouse
    and sibling, the dates and trimmed notes of the request, and createdAt
    and updatedAt both equal to the clock reading. *)
Theorem CreateRelationship_returns_validated_relationship :
  forall (TrimSpace : string -> string) (S : Type) (r : BaseRepository S)
         (now : Time) (req : RelationshipCreateRequest.t) (st st' : S)
         (q : Relationship.t),
    (forall t, In t ["parent"; "child"; "spouse"; "sibling"] ->
               TrimSpace t = t) ->
    CreateRelationship TrimSpace
      (NewRelationshipService (RelationshipRepository r)) now req st
    = (Ok q, st') ->
    Relationship.From q = TrimSpace (RelationshipCreateRequest.From req)
    /\ Relationship.From q <> ""
    /\ Relationship.To q = TrimSpace (RelationshipCreateRequest.To req)
    /\ Relationship.To q <> ""
    /\ RelationshipCreateRequest.From req <> RelationshipCreateRequest.To req
    /\ Relationship.RelationType q = RelationshipCreateRequest.RelationType req
    /\ In (Relationship.RelationType q)
          ["parent"; "child"; "spouse"; "sibling"]
    /\ Relationship.StartDate q = RelationshipCreateRequest.StartDate req
    /\ Relationship.EndDate q = RelationshipCreateRequest.EndDate req
    /\ Relationship.Notes q = TrimSpace (RelationshipCreateRequest.Notes req)
    /\ Relationship.CreatedAt q = now /\ Relationship.UpdatedAt q = now.
Proof.
  intros TrimSpace S r now req st st' q Htypes.
  unfold CreateRelationship.
  destruct (validateCreateRequest TrimSpace req) eqn:Hv; [discriminate |].
  unfold validateCreateRequest in Hv.
  destruct (String.eqb_spec (TrimSpace (RelationshipCreateRequest.From req))
              "") as [| Hf]; [discriminate |].
  destruct (String.eqb_spec (TrimSpace (RelationshipCreateRequest.To req))
              "") as [| Ht]; [discriminate |].
  destruct (String.eqb (TrimSpace (RelationshipCreateRequest.RelationType req))
              ""); [discriminate |].
  destruct (String.eqb_spec (RelationshipCreateRequest.From req)
              (RelationshipCreateRequest.To req)) as [| Hne];
    [discriminate |].
  destruct (mapGet validTypes (RelationshipCreateRequest.RelationType req))
    eqn:Hty; [| discriminate].
  apply mapGet_validTypes in Hty.
  simpl. unfold Create.
  destruct (CreateDocument (collection r) _ st) as [[meta | err] st1];
    [| discriminate].
  intros [= <- <-]. simpl.
  rewrite (Htypes _ Hty). repeat split; assumption.
Qed.

Lemma CreateRelationship_returns_validated_relationship_witness :
  exists q db',
    CreateRelationship asciiTrimSpace familyService 3000%Z
      (RelationshipCreateRequest.mk " persons/1" "persons/2 " "spouse"
         0%Z 0%Z " married ") family = (Ok q, db')
    /\ Relationship.From q = "persons/1"
    /\ Relationship.To q = "persons/2"
    /\ Relationship.Notes q = "married"
    /\ Relationship.CreatedAt q = 3000%Z.
Proof.
  destruct (CreateRelationship asciiTrimSpace familyService 3000%Z
              (RelationshipCreateRequest.mk " persons/1" "persons/2 " "spouse"
                 0%Z 0%Z " married ") family) as [[q | e] db'] eqn:Hrun;
    [| vm_compute in Hrun; discriminate Hrun].
  exists q, db'. split; [reflexivity |].
  destruct (@CreateRelationship_returns_validated_relationship
              asciiTrimSpace Mem.ArangoDB Mem.relationships 3000%Z
              (RelationshipCreateRequest.mk " persons/1" "persons/2 "
                 "spouse" 0%Z 0%Z " married ") family db' q
              asciiTrimSpace_types Hrun)
    as (Hf & _ & Ht & _ & _ & _ & _ & _ & _ & Hn & Hc & _).
  split; [exact Hf |]. split; [exact Ht |]. split; [exact Hn | exact Hc].
Defined.

(* ------------------------------------------------------------------ *)
(** ** Updating through the handler *)

(** X16.  Over every store, with the arangorepository behind the service,
    for a non-empty id: when the body of a PUT does not decode, the handler
    answers 400 and the store state is untouched; when it decodes and the
    store reports the document missing on the read, the handler answers 404
    "relationship not found" with the store state the read left, so no
    update is sent. *)
Theorem PUT_of_missing_document_sends_no_update :
  forall (TrimSpace : string -> string)
         (text : Z -> Z -> string -> string) (Body : Type)
         (decodeUpdate : Body -> result RelationshipUpdateRequest.t)
         (S : Type) (r : BaseRepository S) (now : Time)
         (q : v1relationshipshandler.Request Body) (id : string) (st : S),
    id <> "" ->
    let h := v1relationshipshandler.NewHandler
               (NewRelationshipService (RelationshipRepository r)) in
    (forall err,
        decodeUpdate (v1relationshipshandler.RequestBody q) = Err err ->
        v1relationshipshandler.UpdateRelationship TrimSpace text decodeUpdate
          h now q id st
        = (v1relationshipshandler.SendError 400
             ("invalid request body: " ++ Error text err), st))
    /\ (forall req err st',
           decodeUpdate (v1relationshipshandler.RequestBody q) = Ok req ->
           ReadDocument (collection r) id st = (Err err, st') ->
           IsNotFound err = true ->
           v1relationshipshandler.UpdateRelationship TrimSpace text
             decodeUpdate h now q id st
           = (v1relationshipshandler.SendError 404 "relationship not found",
              st')).
Proof.
  intros TrimSpace text Body decodeUpdate S r now q id st Hid h.
  apply String.eqb_neq in Hid. split.
  - intros err Hdec. unfold v1relationshipshandler.UpdateRelationship.
    now rewrite Hdec.
  - intros req err st' Hdec Hread Hnf.
    unfold v1relationshipshandler.UpdateRelationship. rewrite Hdec.
    unfold UpdateRelationship. rewrite Hid. simpl.
    unfold GetByID. rewrite Hread, Hnf.
    now rewrite Error_not_found.
Qed.

Lemma PUT_of_missing_document_sends_no_update_witness :
  v1relationshipshandler.UpdateRelationship asciiTrimSpace messageText
    (fun b : RelationshipUpdateRequest.t => Ok b) familyHandler 2000%Z
    {| v1relationshipshandler.Method := "PUT";
       v1relationshipshandler.Path := "/v1/relationships/99";
       v1relationshipshandler.RequestBody :=
         RelationshipUpdateRequest.mk "" "" "spouse" 0%Z 0%Z "" |}
    "99" family
  = (v1relationshipshandler.SendError 404 "relationship not found", family).
Proof.
  assert (Hid : "99" <> "") by discriminate.
  destruct (@PUT_of_missing_document_sends_no_update asciiTrimSpace
              messageText RelationshipUpdateRequest.t (fun b => Ok b)
              Mem.ArangoDB Mem.relationships 2000%Z
              {| v1relationshipshandler.Method := "PUT";
                 v1relationshipshandler.Path := "/v1/relationships/99";
                 v1relationshipshandler.RequestBody :=
                   RelationshipUpdateRequest.mk "" "" "spouse" 0%Z 0%Z "" |}
              "99" family Hid) as [_ Hmissing].
  exact (Hmissing _ Mem.ErrDocumentNotFound family eq_refl eq_refl eq_refl).
Defined.

(* ------------------------------------------------------------------ *)
(** ** Options *)

(** X17.  ApplyOptions with option functions of the package: every field
    of the result holds the value of the last option of the list that sets
    it, and the value it had before when no option of the list sets it. *)
Theorem ApplyOptions_last_option_wins :
  forall (o : options.Options) (xs : list options.setting),
    options.Endpoints (options.ApplyOptions o (map options.With xs))
    = options.lastSet options.pickEndpoints xs (options.Endpoints o)
    /\ options.Username (options.ApplyOptions o (map options.With xs))
       = options.lastSet options.pickUsername xs (options.Username o)
    /\ options.Password (options.ApplyOptions o (map options.With xs))
       = options.lastSet options.pickPassword xs (options.Password o)
    /\ options.Database (options.ApplyOptions o (map options.With xs))
       = options.lastSet options.pickDatabase xs (options.Database o)
    /\ options.Timeout (options.ApplyOptions o (map options.With xs))
       = options.lastSet options.pickTimeout xs (options.Timeout o)
    /\ options.MaxRetries (options.ApplyOptions o (map options.With xs))
       = options.lastSet options.pickMaxRetries xs (options.MaxRetries o)
    /\ options.RetryDelay (options.ApplyOptions o (map options.With xs))
       = options.lastSet options.pickRetryDelay xs (options.RetryDelay o).
Proof.
  intros o xs. induction xs as [| x xs IH] using rev_ind.
  - now repeat split.
  - unfold options.ApplyOptions in *.
    rewrite map_app, fold_left_app. simpl.
    unfold options.lastSet in *. rewrite !rev_unit.
    destruct IH as (H1 & H2 & H3 & H4 & H5 & H6 & H7).
    destruct x; simpl; repeat split; assumption.
Qed.

(* ------------------------------------------------------------------ *)
(** ** Bootstrap of the store *)

Lemma lookup_added_other (name name' : string) (c : Mem.Coll)
  (cs : list (string * Mem.Coll)) :
  Mem.lookup name' cs = None -> name <> name' ->
  Mem.lookup name (cs ++ [(name', c)]) = Mem.lookup name cs.
Proof.
  intros _ Hne. induction cs as [| [n c0] cs IH]; simpl.
  - apply not_eq_sym in Hne. apply String.eqb_neq in Hne. now rewrite Hne.
  - now destruct (String.eqb n name).
Qed.

Lemma lookup_added_kept (name name' : string) (c c' : Mem.Coll)
  (cs : list (string * Mem.Coll)) :
  Mem.lookup name cs = Some c ->
  Mem.lookup name (cs ++ [(name', c')]) = Some c.
Proof.
  induction cs as [| [n c0] cs IH]; simpl; [discriminate |].
  now destruct (String.eqb n name).
Qed.

(** What ensureCollection does to the in-memory store with no peer. *)
Lemma Mem_ensureCollection (name : string) (isEdge : bool)
  (db : Mem.ArangoDB) :
  arangodbclient.ensureCollection {| arangodbclient.db := Mem.database |}
    name isEdge db
  = (None,
     match Mem.lookup name (Mem.collections db) with
     | Some _ => db
     | None =>
         {| Mem.collections :=
              Mem.collections db
                ++ [(name,
                     {| Mem.kind := if isEdge then CollectionTypeEdge
                                    else CollectionTypeDocument;
                        Mem.documents := [] |})];
            Mem.tick := Mem.tick db |}
     end).
Proof.
  unfold arangodbclient.ensureCollection; simpl.
  unfold Mem.collectionExists, Mem.createCollection.
  destruct (Mem.lookup name (Mem.collections db)) eqn:Hc;
    [reflexivity |].
  rewrite Hc. now destruct isEdge.
Qed.

(** X18.  On the in-memory store with no peer at work, initializeCollections
    succeeds from every state.  Afterwards both collections exist; every
    collection that existed is exactly as it was, documents and type
    included, so a "relationships" collection found with document type
    stays document-typed; a collection that had to be created is empty,
    "persons" document-typed and "relationships" edge-typed; and a second
    run changes nothing. *)
Theorem initializeCollections_creates_what_is_missing :
  forall db : Mem.ArangoDB,
    exists db',
      arangodbclient.initializeCollections
        {| arangodbclient.db := Mem.database |} db = (None, db')
      /\ (forall name c,
             Mem.lookup name (Mem.collections db) = Some c ->
             Mem.lookup name (Mem.collections db') = Some c)
      /\ (Mem.lookup "persons" (Mem.collections db) = None ->
          Mem.lookup "persons" (Mem.collections db')
          = Some {| Mem.kind := CollectionTypeDocument;
                    Mem.documents := [] |})
      /\ (Mem.lookup "relationships" (Mem.collections db) = None ->
          Mem.lookup "relationships" (Mem.collections db')
          = Some {| Mem.kind := CollectionTypeEdge; Mem.documents := [] |})
      /\ Mem.lookup "persons" (Mem.collections db') <> None
      /\ Mem.lookup "relationships" (Mem.collections db') <> None
      /\ arangodbclient.initializeCollections
           {| arangodbclient.db := Mem.database |} db' = (None, db').
Proof.
  intros db.
  pose (E := fun (name : string) (isEdge : bool) (d : Mem.ArangoDB) =>
               snd (arangodbclient.ensureCollection
                      {| arangodbclient.db := Mem.database |}
                      name isEdge d)).
  assert (Hrun : forall d,
             arangodbclient.initializeCollections
               {| arangodbclient.db := Mem.database |} d
             = (None, E "relationships" true (E "persons" false d))).
  { intros d. unfold arangodbclient.initializeCollections, E.
    rewrite (Mem_ensureCollection "persons" false d). cbn [snd].
    now rewrite Mem_ensureCollection. }
  assert (Hkept : forall n e d name c,
             Mem.lookup name (Mem.collections d) = Some c ->
             Mem.lookup name (Mem.collections (E n e d)) = Some c).
  { intros n e d name c Hc. unfold E. rewrite Mem_ensureCollection.
    cbn [snd]. destruct (Mem.lookup n (Mem.collections d)); [exact Hc |].
    cbn [Mem.collections]. now apply lookup_added_kept. }
  assert (Hnew : forall n e d,
             Mem.lookup n (Mem.collections d) = None ->
             Mem.lookup n (Mem.collections (E n e d))
             = Some {| Mem.kind := if e then CollectionTypeEdge
                                   else CollectionTypeDocument;
                       Mem.documents := [] |}).
  { intros n e d Hc. unfold E. rewrite Mem_ensureCollection, Hc.
    cbn [snd Mem.collections]. now apply lookup_added. }
  assert (Hother : forall n n' e d,
             n <> n' ->
             Mem.lookup n (Mem.collections (E n' e d))
             = Mem.lookup n (Mem.collections d)).
  { intros n n' e d Hne. unfold E. rewrite Mem_ensureCollection.
    cbn [snd].
    destruct (Mem.lookup n' (Mem.collections d)) eqn:Hc; [reflexivity |].
    cbn [Mem.collections]. now apply lookup_added_other. }
  assert (Hfix : forall n e d,
             Mem.lookup n (Mem.collections d) <> None -> E n e d = d).
  { intros n e d Hc. unfold E. rewrite Mem_ensureCollection. cbn [snd].
    now destruct (Mem.lookup n (Mem.collections d)). }
  assert (Hpresent : forall n e d,
             Mem.lookup n (Mem.collections (E n e d)) <> None).
  { intros n e d.
    destruct (Mem.lookup n (Mem.collections d)) as [c |] eqn:Hc.
    - now rewrite (Hkept n e d n c Hc).
    - now rewrite (Hnew n e d Hc). }
  assert (Hp' : Mem.lookup "persons"
                  (Mem.collections
                     (E "relationships" true (E "persons" false db)))
                <> None).
  { destruct (Mem.lookup "persons"
                (Mem.collections (E "persons" false db))) as [c |] eqn:Hc.
    - now rewrite (Hkept "relationships" true _ "persons" c Hc).
    - now apply Hpresent in Hc. }
  exists (E "relationships" true (E "persons" false db)).
  split; [apply Hrun |].
  split; [intros name c Hc; now apply Hkept, Hkept |].
  split; [intros Hc; apply Hkept; exact (Hnew "persons" false db Hc) |].
  split.
  { intros Hc. apply (Hnew "relationships" true).
    rewrite Hother; [exact Hc | discriminate]. }
  split; [exact Hp' |].
  split; [apply Hpresent |].
  rewrite Hrun. f_equal.
  rewrite (Hfix "persons" false _ Hp').
  apply Hfix, Hpresent.
Qed.

(** X19.  Over every driver: ensureDatabase returns the database the
    lookup found, without a create; a lookup error whose text mentions
    neither "not found" nor "404" comes back wrapped as "failed to get
    database", without a create; and every lookup error whose text mentions
    "not found" somewhere, whatever its kind and however often it was
    wrapped, is taken as a missing database: CreateDatabase is called, and
    its database or its error, wrapped as "failed to create database", is
    the result. *)
Theorem ensureDatabase_creates_on_error_text :
  forall (text : Z -> Z -> string -> string) (S D : Type)
         (client : ArangoClient S D) (dbName : string) (s : S),
    (forall db s',
        GetDatabase client dbName s = (Ok db, s') ->
        ensureDatabase text client dbName s = (Ok db, s'))
    /\ (forall err s',
           GetDatabase client dbName s = (Err err, s') ->
           Contains (Error text err) "not found" = false ->
           Contains (Error text err) "404" = false ->
           ensureDatabase text client dbName s
           = (Err (wrapError "failed to get database" err), s'))
    /\ (forall err s',
           GetDatabase client dbName s = (Err err, s') ->
           (exists pre post : string,
               Error text err = (pre ++ "not found" ++ post)%string)
           \/ (exists msg inner,
                  err = wrapError msg inner
                  /\ Contains (Error text inner) "not found" = true) ->
           ensureDatabase text client dbName s
           = match CreateDatabase client dbName s' with
             | (Ok db, s'') => (Ok db, s'')
             | (Err e, s'') =>
                 (Err (wrapError "failed to create database" e), s'')
             end).
Proof.
  intros text S D client dbName s. unfold ensureDatabase.
  split; [| split].
  - intros db s' ->. reflexivity.
  - intros err s' -> -> ->. reflexivity.
  - intros err s' -> Htext.
    assert (Hc : Contains (Error text err) "not found" = true).
    { destruct Htext as [(pre & post & ->) | (msg & inner & -> & Hin)].
      - apply Contains_app_r.
        now apply (Contains_app_l "not found" post "not found").
      - now apply Error_wrap_Contains. }
    rewrite Hc. cbn [negb andb].
    now destruct (CreateDatabase client dbName s') as [[db | e] s''].
Qed.

Lemma ensureDatabase_creates_on_error_text_witness :
  ensureDatabase messageText
    {| GetDatabase := fun (_ : string) (n : nat) =>
         (Err (errorString "lookup familytree: host not found"), n);
       CreateDatabase := fun (name : string) (n : nat) =>
         (Ok name, Datatypes.S n) |}
    "familytree" 0
  = (Ok "familytree", 1).
Proof.
  destruct (@ensureDatabase_creates_on_error_text messageText nat string
              {| GetDatabase := fun (_ : string) (n : nat) =>
                   (Err (errorString "lookup familytree: host not found"), n);
                 CreateDatabase := fun (name : string) (n : nat) =>
                   (Ok name, Datatypes.S n) |}
              "familytree" 0) as (_ & _ & Hcreate).
  refine (Hcreate _ 0 eq_refl (or_introl _)).
  exists "lookup familytree: host ", "". reflexivity.
Defined.

(* ------------------------------------------------------------------ *)
(** ** Dispatch of GET and of the other methods *)

(** X20.  For a request the router sends to the relationships handler: a
    GET of "/v1/relationships" or of "/v1/relationships/" lists the
    relationships, and a GET of every other path looks up what follows
    "/v1/relationships/", further slashes included, as the id; a request
    whose method is none of GET, POST, PUT and DELETE is answered 405
    "method not allowed" with the store untouched. *)
Theorem HandleRelationships_GET_lists_or_looks_up :
  forall (TrimSpace : string -> string)
         (text : Z -> Z -> string -> string) (Body : Type)
         (decodeCreate : Body -> result RelationshipCreateRequest.t)
         (decodeUpdate : Body -> result RelationshipUpdateRequest.t)
         (S : Type) (h : @v1relationshipshandler.Handler S) (now : Time)
         (r : v1relationshipshandler.Request Body) (st : S),
    httproutes.handleAPIRoutes (v1relationshipshandler.Path r)
    = httproutes.HandleRelationships ->
    (v1relationshipshandler.Method r = "GET" ->
     v1relationshipshandler.HandleRelationships TrimSpace text decodeCreate
       decodeUpdate h now r st
     = if String.eqb (v1relationshipshandler.Path r) "/v1/relationships"
          || String.eqb (v1relationshipshandler.Path r) "/v1/relationships/"
       then v1relationshipshandler.ListRelationships text h st
       else v1relationshipshandler.GetRelationship text h
              (dropBytes 18 (v1relationshipshandler.Path r)) st)
    /\ (~ In (v1relationshipshandler.Method r)
             ["GET"; "POST"; "PUT"; "DELETE"] ->
        v1relationshipshandler.HandleRelationships TrimSpace text decodeCreate
          decodeUpdate h now r st
        = (v1relationshipshandler.SendError 405 "method not allowed", st)).
Proof.
  intros TrimSpace text Body decodeCreate decodeUpdate S h now r st Hroute.
  apply handleAPIRoutes_relationships in Hroute.
  destruct (TrimPrefix_relationships Hroute) as [Hid Hempty].
  split; intros Hm; unfold v1relationshipshandler.HandleRelationships.
  - rewrite Hm, Hempty, Hid.
    change (String.eqb "GET" v1relationshipshandler.MethodGet) with true.
    cbv iota.
    destruct (String.eqb_spec (v1relationshipshandler.Path r)
                "/v1/relationships") as [-> | Hbare]; [reflexivity |].
    destruct Hroute as [Heq | Hpre]; [contradiction |]. rewrite Hpre.
    now destruct (String.eqb (v1relationshipshandler.Path r)
                    "/v1/relationships/").
  - destruct (String.eqb_spec (v1relationshipshandler.Method r)
                v1relationshipshandler.MethodGet) as [Hg | _];
      [exfalso; apply Hm; rewrite Hg; simpl; tauto |].
    destruct (String.eqb_spec (v1relationshipshandler.Method r)
                v1relationshipshandler.MethodPost) as [Hg | _];
      [exfalso; apply Hm; rewrite Hg; simpl; tauto |].
    destruct (String.eqb_spec (v1relationshipshandler.Method r)
                v1relationshipshandler.MethodPut) as [Hg | _];
      [exfalso; apply Hm; rewrite Hg; simpl; tauto |].
    destruct (String.eqb_spec (v1relationshipshandler.Method r)
                v1relationshipshandler.MethodDelete) as [Hg | _];
      [exfalso; apply Hm; rewrite Hg; simpl; tauto |].
    reflexivity.
Qed.

Lemma HandleRelationships_GET_lists_or_looks_up_witness :
  v1relationshipshandler.HandleRelationships asciiTrimSpace messageText
    noBody noBody familyHandler 0%Z
    {| v1relationshipshandler.Method := "GET";
       v1relationshipshandler.Path := "/v1/relationships/1/notes";
       v1relationshipshandler.RequestBody := tt |} family
  = v1relationshipshandler.GetRelationship messageText familyHandler
      "1/notes" family.
Proof.
  destruct (@HandleRelationships_GET_lists_or_looks_up asciiTrimSpace
              messageText unit noBody noBody Mem.ArangoDB familyHandler 0%Z
              {| v1relationshipshandler.Method := "GET";
                 v1relationshipshandler.Path := "/v1/relationships/1/notes";
                 v1relationshipshandler.RequestBody := tt |} family eq_refl)
    as [Hget _].
  exact (Hget eq_refl).
Defined.
